(** * Equipment lending portal: borrow-request lifecycle, filters, login,
      route gating and the client-side session store.

    A shallow embedding of the JavaScript sources of the portal:
    - [RequestsManagement] (admin page: filter, approve, reject, return),
    - [AdminDashboard]     (admin landing page: quick approve / reject),
    - [StudentDashboard]   (student page: [handleSubmitBorrow]),
    - [Client]             (the component states of one browser session),
    - [JSDate]             ([new Date] on the values of date inputs),
    - [BorrowEquipment]    (student form: [validateForm]),
    - [LoginForm]          (mock authentication: [handleSubmit]),
    - [Api]                (services/api.js: token and user in localStorage),
    - [App]                (client-side routes and their role guards),
    - [RequestRoutes]      (Express router of the request endpoints).

    React state is modelled by explicit state passing: a handler reads the
    state captured by the current render and emits a list of effects (state
    setters, alerts, callbacks), which [commit] then applies in order.
    Strings are byte strings; [toLowerCase] and the white-space class of
    the e-mail expression are the ASCII ones. *)

From Stdlib Require Import ZArith Ascii String List Lia Bool.
From stdpp Require Import base option list gmap strings.

Local Open Scope string_scope.
Local Open Scope Z_scope.

(** ** JavaScript strings *)

Module JS.

(** [!s] is false exactly for the empty string. *)
Definition truthy (s : string) : bool :=
  match s with
  | EmptyString => false
  | String _ _ => true
  end.

(** The ASCII case folding: [String.prototype.toLowerCase] on strings of
    ASCII characters.  Outside ASCII the platform's function follows the
    Unicode case mapping (U+212A becomes [k]); the statements on
    searching therefore take the function as a parameter. *)
Definition lower_ascii (c : ascii) : ascii :=
  let n := nat_of_ascii c in
  if ((65 <=? n)%nat && (n <=? 90)%nat)%bool then ascii_of_nat (n + 32) else c.

Fixpoint toLowerCase (s : string) : string :=
  match s with
  | EmptyString => EmptyString
  | String c s' => String (lower_ascii c) (toLowerCase s')
  end.

(** [s.startsWith(t)] *)
Fixpoint startsWith (s t : string) {struct t} : bool :=
  match t, s with
  | EmptyString, _ => true
  | String _ _, EmptyString => false
  | String b t', String a s' => if Ascii.eqb a b then startsWith s' t' else false
  end.

(** [s.includes(t)]: [t] occurs in [s] at some position. *)
Fixpoint includes (s t : string) : bool :=
  startsWith s t ||
  match s with
  | EmptyString => false
  | String _ s' => includes s' t
  end.

(** [s.split(c)[0]]: the part of [s] before the first [c]. *)
Fixpoint split_head (c : ascii) (s : string) : string :=
  match s with
  | EmptyString => EmptyString
  | String a s' => if Ascii.eqb a c then EmptyString else String a (split_head c s')
  end.

(** [a || b] on a string and a nullable string. *)
Definition or_else (a : string) (b : option string) : option string :=
  if truthy a then Some a else b.

End JS.

(** ** Users and roles *)

Inductive Role := student | staff | admin.

#[global] Instance Role_eq_dec : EqDecision Role.
Proof. solve_decision. Defined.

(** The user object handed to the pages: [{id, name, email, role}]. *)
Record User := mkUser {
  user_id : string;
  user_name : string;
  user_email : string;
  user_role : Role;
}.

(** A caller that is not an admin: no user at all, or one of another role. *)
Definition non_admin (user : option User) : Prop :=
  forall u, user = Some u -> user_role u <> admin.

(** ** RequestsManagement page *)

Module RequestsManagement.

Inductive Status := pending | approved | rejected | returned.

#[global] Instance Status_eq_dec : EqDecision Status.
Proof. solve_decision. Defined.

Record Request := mkRequest {
  id : Z;
  studentName : string;
  studentId : string;
  studentEmail : string;
  equipmentName : string;
  equipmentId : Z;
  requestedDate : string;
  borrowFromDate : string;
  borrowToDate : string;
  purpose : string;
  status : Status;
  approvedBy : option string;
  approvalDate : option string;
  notes : option string;
}.

Definition mockRequestsData : list Request :=
  [ mkRequest 1 "John Student" "STU001" "student@example.com" "Basketball Set" 1
      "2025-11-02" "2025-11-05" "2025-11-10" "Sports practice and tournament"
      pending None None None;
    mkRequest 2 "Jane Doe" "STU002" "jane@example.com" "Microscope" 2
      "2025-11-02" "2025-11-06" "2025-11-08" "Biology lab experiment"
      pending None None None;
    mkRequest 3 "Mike Johnson" "STU003" "mike@example.com" "Digital Camera" 3
      "2025-11-01" "2025-11-03" "2025-11-05" "Photography project"
      approved (Some "Admin User") (Some "2025-11-01")
      (Some "Approved - return in good condition");
    mkRequest 4 "Sarah Smith" "STU004" "sarah@example.com" "Laptop" 5
      "2025-11-01" "2025-11-02" "2025-11-04" "Programming assignment"
      returned (Some "Admin User") (Some "2025-11-01")
      (Some "Returned in good condition");
    mkRequest 5 "Tom Wilson" "STU005" "tom@example.com" "Guitar" 4
      "2025-10-31" "2025-11-01" "2025-11-03" "Musical practice"
      rejected (Some "Admin User") (Some "2025-10-31")
      (Some "Equipment damaged - not available") ].

(** The value of the status [<select>]: ['all'] or one of the statuses. *)
Inductive StatusFilter := all | only (s : Status).

Inductive Action := approve | reject | return_.

(** [actionModal]: [{ id, action }] *)
Record Modal := mkModal { modal_id : Z; modal_action : Action }.

(** The [useState] cells of the component. *)
Record State := mkState {
  requests : list Request;
  searchTerm : string;
  filterStatus : StatusFilter;
  actionModal : option Modal;
  actionNotes : string;
  viewDetails : option Request;
}.

Definition initial : State :=
  mkState mockRequestsData EmptyString all None EmptyString None.

(** What a handler does: calls of the state setters, and [alert]. *)
Inductive Effect :=
| setRequests (v : list Request)
| setSearchTerm (v : string)
| setFilterStatus (v : StatusFilter)
| setActionModal (v : option Modal)
| setActionNotes (v : string)
| setViewDetails (v : option Request)
| alert (msg : string).

Definition apply_effect (st : State) (e : Effect) : State :=
  match e with
  | setRequests v =>
      mkState v (searchTerm st) (filterStatus st) (actionModal st) (actionNotes st) (viewDetails st)
  | setSearchTerm v =>
      mkState (requests st) v (filterStatus st) (actionModal st) (actionNotes st) (viewDetails st)
  | setFilterStatus v =>
      mkState (requests st) (searchTerm st) v (actionModal st) (actionNotes st) (viewDetails st)
  | setActionModal v =>
      mkState (requests st) (searchTerm st) (filterStatus st) v (actionNotes st) (viewDetails st)
  | setActionNotes v =>
      mkState (requests st) (searchTerm st) (filterStatus st) (actionModal st) v (viewDetails st)
  | setViewDetails v =>
      mkState (requests st) (searchTerm st) (filterStatus st) (actionModal st) (actionNotes st) v
  | alert _ => st
  end.

(** The state of the next render, once the handler has returned. *)
Definition commit (st : State) (es : list Effect) : State :=
  fold_left apply_effect es st.

(** The messages shown by [alert], in order. *)
Definition alerts (es : list Effect) : list string :=
  omap (fun e => match e with alert m => Some m | _ => None end) es.

(** [getFilteredRequests] *)
Definition matches_search (term : string) (req : Request) : bool :=
  JS.includes (JS.toLowerCase (studentName req)) (JS.toLowerCase term) ||
  JS.includes (JS.toLowerCase (equipmentName req)) (JS.toLowerCase term) ||
  JS.includes (JS.toLowerCase (studentId req)) (JS.toLowerCase term).

Definition getFilteredRequests (st : State) : list Request :=
  let filtered := requests st in
  let filtered :=
    if JS.truthy (searchTerm st)
    then List.filter (matches_search (searchTerm st)) filtered
    else filtered in
  let filtered :=
    match filterStatus st with
    | all => filtered
    | only s => List.filter (fun req => bool_decide (status req = s)) filtered
    end in
  filtered.

(** [getStatusCount] *)
Definition getStatusCount (st : State) (s : Status) : nat :=
  length (List.filter (fun req => bool_decide (status req = s)) (requests st)).

(** [new Date().toISOString().split('T')[0]], from the ISO timestamp of
    the clock. *)
Definition isoDate (nowISO : string) : string := JS.split_head "T" nowISO.

(** [handleApprove] *)
Definition handleApprove (user : User) (nowISO : string) (st : State)
    (requestId : Z) : list Effect :=
  [ setRequests
      (map (fun req =>
              if decide (id req = requestId)
              then mkRequest (id req) (studentName req) (studentId req)
                     (studentEmail req) (equipmentName req) (equipmentId req)
                     (requestedDate req) (borrowFromDate req) (borrowToDate req)
                     (purpose req)
                     approved (Some (user_name user)) (Some (isoDate nowISO))
                     (Some (actionNotes st))
              else req)
         (requests st));
    setActionModal None;
    setActionNotes EmptyString;
    alert "Request approved successfully!" ].

(** [handleReject] *)
Definition handleReject (user : User) (nowISO : string) (st : State)
    (requestId : Z) : list Effect :=
  [ setRequests
      (map (fun req =>
              if decide (id req = requestId)
              then mkRequest (id req) (studentName req) (studentId req)
                     (studentEmail req) (equipmentName req) (equipmentId req)
                     (requestedDate req) (borrowFromDate req) (borrowToDate req)
                     (purpose req)
                     rejected (Some (user_name user)) (Some (isoDate nowISO))
                     (Some (actionNotes st))
              else req)
         (requests st));
    setActionModal None;
    setActionNotes EmptyString;
    alert "Request rejected successfully!" ].

(** [handleMarkReturned] *)
Definition handleMarkReturned (st : State) (requestId : Z) : list Effect :=
  [ setRequests
      (map (fun req =>
              if decide (id req = requestId)
              then mkRequest (id req) (studentName req) (studentId req)
                     (studentEmail req) (equipmentName req) (equipmentId req)
                     (requestedDate req) (borrowFromDate req) (borrowToDate req)
                     (purpose req)
                     returned (approvedBy req) (approvalDate req)
                     (JS.or_else (actionNotes st) (notes req))
              else req)
         (requests st));
    setActionModal None;
    setActionNotes EmptyString;
    alert "Equipment marked as returned!" ].

(** *** What the rendered page offers

    Every row of [getFilteredRequests] has a view button; a row whose
    status is [pending] has the approve and the reject button, a row whose
    status is [approved] has the return button.  The action modal, when
    open, has the notes textarea, Cancel and the confirm button. *)

Inductive Event :=
| typeSearch (s : string)
| selectFilter (f : StatusFilter)
| clickView (row : nat)
| closeDetails
| clickAction (row : nat) (a : Action)
| typeNotes (s : string)
| cancelModal
| confirmModal.

(** The status a row must have for the button of [a] to be rendered. *)
Definition button_status (a : Action) : Status :=
  match a with
  | approve => pending
  | reject => pending
  | return_ => approved
  end.

(** The handler behind an event, or [None] when the page does not render
    the control. *)
Definition handle (user : User) (nowISO : string) (st : State)
    (ev : Event) : option (list Effect) :=
  match ev with
  | typeSearch s => Some [setSearchTerm s]
  | selectFilter f => Some [setFilterStatus f]
  | clickView row =>
      match getFilteredRequests st !! row with
      | Some request => Some [setViewDetails (Some request)]
      | None => None
      end
  | closeDetails =>
      match viewDetails st with
      | Some _ => Some [setViewDetails None]
      | None => None
      end
  | clickAction row a =>
      match getFilteredRequests st !! row with
      | Some request =>
          if decide (status request = button_status a)
          then Some [setActionModal (Some (mkModal (id request) a))]
          else None
      | None => None
      end
  | typeNotes s =>
      match actionModal st with
      | Some _ => Some [setActionNotes s]
      | None => None
      end
  | cancelModal =>
      match actionModal st with
      | Some _ => Some [setActionModal None]
      | None => None
      end
  | confirmModal =>
      match actionModal st with
      | Some m =>
          Some match modal_action m with
               | approve => handleApprove user nowISO st (modal_id m)
               | reject => handleReject user nowISO st (modal_id m)
               | return_ => handleMarkReturned st (modal_id m)
               end
      | None => None
      end
  end.

(** One interaction: an event the page does not offer changes nothing. *)
Definition step (user : User) (nowISO : string) (st : State) (ev : Event) : State :=
  match handle user nowISO st ev with
  | Some es => commit st es
  | None => st
  end.

(** The states a session goes through; every event comes with the clock
    reading at the time it is handled. *)
Fixpoint run (user : User) (st : State) (evs : list (string * Event)) : list State :=
  match evs with
  | [] => []
  | (nowISO, ev) :: evs' =>
      let st' := step user nowISO st ev in
      st' :: run user st' evs'
  end.

(** *** Vocabulary of the properties *)

(** Case-insensitive substring: [term] occurs in [field] once both are
    lower-cased. *)
Definition ci_substring (term field : string) : Prop :=
  exists pre post, JS.toLowerCase field = pre ++ JS.toLowerCase term ++ post.

(** A status passes the status filter. *)
Definition filter_allows (f : StatusFilter) (s : Status) : Prop :=
  match f with
  | all => True
  | only s' => s = s'
  end.

(** The fields no handler writes. *)
Definition same_request_data (a b : Request) : Prop :=
  id a = id b /\ studentName a = studentName b /\ studentId a = studentId b /\
  studentEmail a = studentEmail b /\ equipmentName a = equipmentName b /\
  equipmentId a = equipmentId b /\ requestedDate a = requestedDate b /\
  borrowFromDate a = borrowFromDate b /\ borrowToDate a = borrowToDate b /\
  purpose a = purpose b.

(** The edges of the request lifecycle. *)
Inductive lifecycle_edge : Status -> Status -> Prop :=
| edge_approve : lifecycle_edge pending approved
| edge_reject : lifecycle_edge pending rejected
| edge_return : lifecycle_edge approved returned.

(** Two successive request lists: same length, and every request keeps
    its status or moves along one edge. *)
Definition lifecycle_step (before after : list Request) : Prop :=
  length after = length before /\
  forall i a b, before !! i = Some a -> after !! i = Some b ->
    status b = status a \/ lifecycle_edge (status a) (status b).

(** Every two successive states of a session. *)
Fixpoint lifecycle_chain (st : State) (sts : list State) : Prop :=
  match sts with
  | [] => True
  | st' :: sts' => lifecycle_step (requests st) (requests st') /\ lifecycle_chain st' sts'
  end.

(** The open modal was opened from a row that has the status its button
    requires. *)
Definition modal_consistent (st : State) : Prop :=
  match actionModal st with
  | None => True
  | Some m =>
      exists req, req ∈ requests st /\ id req = modal_id m /\
                  status req = button_status (modal_action m)
  end.

(** Request ids are distinct, and the modal is consistent. *)
Definition well_formed (st : State) : Prop :=
  NoDup (map id (requests st)) /\ modal_consistent st.

(** *** The filter over the platform's [toLowerCase]

    [String.prototype.toLowerCase] follows the Unicode case mapping;
    [JS.toLowerCase] is its restriction to ASCII.  What the filter lists
    is stated for [getFilteredRequests] with the lower-casing function as
    a parameter, so that it holds for the platform's one. *)

Definition matches_search_by (toLowerCase : string -> string) (term : string)
    (req : Request) : bool :=
  JS.includes (toLowerCase (studentName req)) (toLowerCase term) ||
  JS.includes (toLowerCase (equipmentName req)) (toLowerCase term) ||
  JS.includes (toLowerCase (studentId req)) (toLowerCase term).

(** [getFilteredRequests], given [toLowerCase] *)
Definition getFilteredRequests_by (toLowerCase : string -> string)
    (st : State) : list Request :=
  let filtered := requests st in
  let filtered :=
    if JS.truthy (searchTerm st)
    then List.filter (matches_search_by toLowerCase (searchTerm st)) filtered
    else filtered in
  let filtered :=
    match filterStatus st with
    | all => filtered
    | only s => List.filter (fun req => bool_decide (status req = s)) filtered
    end in
  filtered.

(** Case-insensitive substring, for a lower-casing function: [term]
    occurs in [field] once both are lower-cased. *)
Definition ci_substring_by (toLowerCase : string -> string)
    (term field : string) : Prop :=
  exists pre post, toLowerCase field = pre ++ toLowerCase term ++ post.

End RequestsManagement.

(** ** AdminDashboard page *)

Module AdminDashboard.

Import RequestsManagement (Status, pending, approved, rejected, returned).

Record Request := mkRequest {
  id : Z;
  studentName : string;
  studentId : string;
  equipmentName : string;
  requestedDate : string;
  status : Status;
}.

Definition mockRecentRequests : list Request :=
  [ mkRequest 1 "John Student" "STU001" "Basketball Set" "2025-11-02" pending;
    mkRequest 2 "Jane Doe" "STU002" "Microscope" "2025-11-02" pending;
    mkRequest 3 "Mike Johnson" "STU003" "Digital Camera" "2025-11-01" pending;
    mkRequest 4 "Sarah Smith" "STU004" "Laptop" "2025-11-01" pending;
    mkRequest 5 "Tom Wilson" "STU005" "Projector" "2025-10-31" pending ].

Inductive Action := approve | reject.

Record Modal := mkModal { modal_id : Z; modal_action : Action }.

Record State := mkState {
  requests : list Request;
  actionModal : option Modal;
}.

Inductive Effect :=
| setRequests (v : list Request)
| setActionModal (v : option Modal)
| alert (msg : string).

Definition apply_effect (st : State) (e : Effect) : State :=
  match e with
  | setRequests v => mkState v (actionModal st)
  | setActionModal v => mkState (requests st) v
  | alert _ => st
  end.

Definition commit (st : State) (es : list Effect) : State :=
  fold_left apply_effect es st.

Definition alerts (es : list Effect) : list string :=
  omap (fun e => match e with alert m => Some m | _ => None end) es.

(** [handleApproveRequest] *)
Definition handleApproveRequest (st : State) (requestId : Z) : list Effect :=
  [ setRequests
      (map (fun req =>
              if decide (id req = requestId)
              then mkRequest (id req) (studentName req) (studentId req)
                     (equipmentName req) (requestedDate req) approved
              else req)
         (requests st));
    setActionModal None;
    alert "Request approved successfully!" ].

(** [handleRejectRequest] *)
Definition handleRejectRequest (st : State) (requestId : Z) : list Effect :=
  [ setRequests
      (map (fun req =>
              if decide (id req = requestId)
              then mkRequest (id req) (studentName req) (studentId req)
                     (equipmentName req) (requestedDate req) rejected
              else req)
         (requests st));
    setActionModal None;
    alert "Request rejected successfully!" ].

(** [getPendingRequestsCount] *)
Definition getPendingRequestsCount (st : State) : nat :=
  length (List.filter (fun req => bool_decide (status req = pending)) (requests st)).

End AdminDashboard.

(** ** StudentDashboard page *)

Module StudentDashboard.

Import RequestsManagement (Status, pending, approved, rejected, returned).

Record Equipment := mkEquipment {
  id : Z;
  name : string;
  category : string;
  description : string;
  condition : string;
  quantity : Z;
  available : Z;
  image : option string;
}.

Definition mockEquipmentData : list Equipment :=
  [ mkEquipment 1 "Basketball Set" "Sports"
      "Professional basketball set with 5 balls and pump" "Good" 5 3 None;
    mkEquipment 2 "Microscope" "Lab"
      "Advanced optical microscope for laboratory work" "Excellent" 10 8 None;
    mkEquipment 3 "Digital Camera" "Camera"
      "24MP DSLR camera with lenses" "Good" 4 2 None;
    mkEquipment 4 "Guitar" "Musical"
      "Acoustic guitar with case and accessories" "Good" 3 1 None;
    mkEquipment 5 "Laptop" "Computing"
      "Intel i7 laptop for project work" "Excellent" 6 4 None;
    mkEquipment 6 "Toolkit" "Tools"
      "Complete toolkit with 50+ tools" "Good" 2 0 None;
    mkEquipment 7 "Projector" "Computing"
      "4K projector for presentations" "Good" 3 2 None;
    mkEquipment 8 "Volleyball Set" "Sports"
      "Professional volleyball set with net" "Fair" 4 2 None ].

(** The request object built by [handleSubmitBorrow]. *)
Record BorrowRequest := mkBorrowRequest {
  req_id : Z;
  req_studentId : string;
  req_studentName : string;
  req_equipmentId : Z;
  req_equipmentName : string;
  req_borrowDate : string;
  req_requestDate : string;
  req_status : Status;
}.

(** The [useState] cells read or written by the borrow flow (the search,
    category, availability and view-type cells only feed the equipment
    grid). *)
Record State := mkState {
  equipment : list Equipment;
  borrowRequests : list BorrowRequest;
  showBorrowModal : bool;
  selectedEquipmentForBorrow : option Equipment;
}.

Definition initial : State := mkState mockEquipmentData [] false None.

Inductive Effect :=
| setBorrowRequests (v : list BorrowRequest)
| setShowBorrowModal (v : bool)
| setSelectedEquipmentForBorrow (v : option Equipment)
| alert (msg : string).

Definition apply_effect (st : State) (e : Effect) : State :=
  match e with
  | setBorrowRequests v =>
      mkState (equipment st) v (showBorrowModal st) (selectedEquipmentForBorrow st)
  | setShowBorrowModal v =>
      mkState (equipment st) (borrowRequests st) v (selectedEquipmentForBorrow st)
  | setSelectedEquipmentForBorrow v =>
      mkState (equipment st) (borrowRequests st) (showBorrowModal st) v
  | alert _ => st
  end.

Definition commit (st : State) (es : list Effect) : State :=
  fold_left apply_effect es st.

(** [handleBorrowClick] *)
Definition handleBorrowClick (equipmentItem : Equipment) : list Effect :=
  [ setSelectedEquipmentForBorrow (Some equipmentItem);
    setShowBorrowModal true ].

(** [handleSubmitBorrow]; [localeDate] is [new Date().toLocaleDateString()]. *)
Definition handleSubmitBorrow (user : User) (localeDate : string)
    (st : State) : list Effect :=
  match selectedEquipmentForBorrow st with
  | None => []
  | Some selected =>
      let newRequest :=
        mkBorrowRequest (Z.of_nat (length (borrowRequests st)) + 1)
          (user_id user) (user_name user)
          (id selected) (name selected)
          localeDate localeDate pending in
      [ setBorrowRequests (borrowRequests st ++ [newRequest]);
        setShowBorrowModal false;
        setSelectedEquipmentForBorrow None;
        alert ("Borrow request submitted for " ++ name selected) ]
  end.

End StudentDashboard.

(** ** The pages of one client

    Each page keeps its own [useState] cells; the equipment counts live in
    the equipment pages, the admin's request list in [RequestsManagement]. *)

Module Client.

Record State := mkState {
  dashboard : StudentDashboard.State;
  requestsPage : RequestsManagement.State;
  adminPage : AdminDashboard.State;
}.

(** The equipment record a request refers to through its [equipmentId]. *)
Definition equipment_of (c : State) (equipmentId : Z) : option StudentDashboard.Equipment :=
  List.find (fun e => Z.eqb (StudentDashboard.id e) equipmentId)
    (StudentDashboard.equipment (dashboard c)).

(** The available count of an equipment id, when it is in the inventory. *)
Definition available_of (c : State) (equipmentId : Z) : option Z :=
  StudentDashboard.available <$> equipment_of c equipmentId.

(** A handler of the requests page runs in that component: its setters
    reach the cells of [RequestsManagement] only. *)
Definition on_requestsPage (c : State) (es : list RequestsManagement.Effect) : State :=
  mkState (dashboard c) (RequestsManagement.commit (requestsPage c) es) (adminPage c).

Definition on_adminPage (c : State) (es : list AdminDashboard.Effect) : State :=
  mkState (dashboard c) (requestsPage c) (AdminDashboard.commit (adminPage c) es).

(** The approve, reject and return operations of the admin. *)
Definition approve (user : User) (nowISO : string) (c : State) (requestId : Z) : State :=
  on_requestsPage c (RequestsManagement.handleApprove user nowISO (requestsPage c) requestId).

Definition reject (user : User) (nowISO : string) (c : State) (requestId : Z) : State :=
  on_requestsPage c (RequestsManagement.handleReject user nowISO (requestsPage c) requestId).

Definition markReturned (c : State) (requestId : Z) : State :=
  on_requestsPage c (RequestsManagement.handleMarkReturned (requestsPage c) requestId).


Definition initial : State :=
  mkState StudentDashboard.initial RequestsManagement.initial
    (AdminDashboard.mkState AdminDashboard.mockRecentRequests None).

(** A pending request for the Toolkit, of which no unit is available. *)
Definition toolkit_request : RequestsManagement.Request :=
  RequestsManagement.mkRequest 6 "John Student" "STU001" "student@example.com" "Toolkit" 6
    "2025-11-02" "2025-11-05" "2025-11-10" "Repair workshop"
    RequestsManagement.pending None None None.

Definition toolkit_client : State :=
  mkState StudentDashboard.initial
    (RequestsManagement.mkState [toolkit_request] EmptyString RequestsManagement.all None EmptyString None)
    (AdminDashboard.mkState AdminDashboard.mockRecentRequests None).

End Client.

(** ** JavaScript dates, for the values of [<input type="date">] *)

Module JSDate.

Definition digit_of (c : ascii) : option Z :=
  let n := nat_of_ascii c in
  if ((48 <=? n)%nat && (n <=? 57)%nat)%bool then Some (Z.of_nat n - 48) else None.

(** InLeapYear *)
Definition is_leap (y : Z) : bool :=
  ((y mod 4 =? 0) && negb (y mod 100 =? 0)) || (y mod 400 =? 0).

Definition days_in_month (y m : Z) : Z :=
  match m with
  | 1 | 3 | 5 | 7 | 8 | 10 | 12 => 31
  | 4 | 6 | 9 | 11 => 30
  | 2 => if is_leap y then 29 else 28
  | _ => 0
  end.

(** A calendar date: year, month (1..12), day of the month. *)
Definition civil := (Z * Z * Z)%type.

Definition valid_civil (c : civil) : bool :=
  let '(y, m, d) := c in
  (0 <=? y) && (y <=? 9999) && (1 <=? m) && (m <=? 12) &&
  (1 <=? d) && (d <=? days_in_month y m).

(** The digits of [YYYY-MM-DD] as year, month and day. *)
Definition parse_fields (s : string) : option civil :=
  match s with
  | String y1 (String y2 (String y3 (String y4 (String "-"
      (String m1 (String m2 (String "-"
         (String d1 (String d2 EmptyString))))))))) =>
      y1 ← digit_of y1; y2 ← digit_of y2; y3 ← digit_of y3; y4 ← digit_of y4;
      m1 ← digit_of m1; m2 ← digit_of m2;
      d1 ← digit_of d1; d2 ← digit_of d2;
      Some (1000 * y1 + 100 * y2 + 10 * y3 + y4, 10 * m1 + m2, 10 * d1 + d2)
  | _ => None
  end.

(** The date-only ISO form [YYYY-MM-DD] of a calendar date: the value of
    a date input. *)
Definition parse_iso_date (s : string) : option civil :=
  c ← parse_fields s; if valid_civil c then Some c else None.

(** DayFromYear *)
Definition day_from_year (y : Z) : Z :=
  365 * (y - 1970) + (y - 1969) / 4 - (y - 1901) / 100 + (y - 1601) / 400.

(** The days of the year before month [m]. *)
Definition days_before_month (y m : Z) : Z :=
  let leap := if is_leap y then 1 else 0 in
  match m with
  | 1 => 0
  | 2 => 31
  | 3 => 59 + leap
  | 4 => 90 + leap
  | 5 => 120 + leap
  | 6 => 151 + leap
  | 7 => 181 + leap
  | 8 => 212 + leap
  | 9 => 243 + leap
  | 10 => 273 + leap
  | 11 => 304 + leap
  | _ => 334 + leap
  end.

(** MakeDay: the day number of a calendar date, day 0 being 1970-01-01. *)
Definition make_day (c : civil) : Z :=
  let '(y, m, d) := c in
  day_from_year y + days_before_month y m + d - 1.

Definition msPerDay : Z := 86400000.

(** [new Date(s)]: the time value in milliseconds, UTC midnight of the
    date; [None] is the NaN of an Invalid Date.  Only the date-only ISO
    form is parsed. *)
Definition Date_new (s : string) : option Z :=
  c ← parse_iso_date s; Some (make_day c * msPerDay).

(** [a >= b] on two Date objects: both are converted to their time value,
    and a comparison with NaN is false. *)
Definition ge (a b : option Z) : bool :=
  match a, b with
  | Some x, Some y => y <=? x
  | _, _ => false
  end.

(** Calendar order. *)
Definition civil_lt (a b : civil) : Prop :=
  let '(y1, m1, d1) := a in
  let '(y2, m2, d2) := b in
  y1 < y2 \/ (y1 = y2 /\ (m1 < m2 \/ (m1 = m2 /\ d1 < d2))).

(** The value of a date input: empty, or a calendar date in ISO form. *)
Definition date_input_value (s : string) : Prop :=
  s = EmptyString \/ is_Some (parse_iso_date s).

(** Both strings are dates, and [later] is strictly after [earlier]. *)
Definition strictly_after (later earlier : string) : Prop :=
  exists ce cl,
    parse_iso_date earlier = Some ce /\ parse_iso_date later = Some cl /\
    civil_lt ce cl.

End JSDate.

(** ** BorrowEquipment page *)

Module BorrowEquipment.

Record FormData := mkFormData {
  equipmentId : string;
  equipmentName : string;
  borrowFromDate : string;
  borrowToDate : string;
  notes : string;
}.

Definition emptyForm : FormData := mkFormData EmptyString EmptyString EmptyString EmptyString EmptyString.

Record State := mkState {
  formData : FormData;
  errors : gmap string string;
  showConfirmation : bool;
  isSubmitting : bool;
}.

Definition initial : State := mkState emptyForm ∅ false false.

Inductive Effect :=
| setFormData (v : FormData)
| setErrors (v : gmap string string)
| setShowConfirmation (v : bool)
| setIsSubmitting (v : bool)
| alert (msg : string)
| navigate (path : string).

Definition apply_effect (st : State) (e : Effect) : State :=
  match e with
  | setFormData v => mkState v (errors st) (showConfirmation st) (isSubmitting st)
  | setErrors v => mkState (formData st) v (showConfirmation st) (isSubmitting st)
  | setShowConfirmation v => mkState (formData st) (errors st) v (isSubmitting st)
  | setIsSubmitting v => mkState (formData st) (errors st) (showConfirmation st) v
  | alert _ => st
  | navigate _ => st
  end.

Definition commit (st : State) (es : list Effect) : State :=
  fold_left apply_effect es st.

(** The [newErrors] object built by [validateForm]. *)
Definition newErrors (fd : FormData) : gmap string string :=
  let newErrors : gmap string string := ∅ in
  let newErrors :=
    if negb (JS.truthy (equipmentId fd))
    then <["equipmentId" := "Please select equipment"]> newErrors
    else newErrors in
  let newErrors :=
    if negb (JS.truthy (borrowFromDate fd))
    then <["borrowFromDate" := "Please select a borrow date"]> newErrors
    else newErrors in
  let newErrors :=
    if negb (JS.truthy (borrowToDate fd))
    then <["borrowToDate" := "Please select a return date"]> newErrors
    else newErrors in
  let newErrors :=
    if JS.truthy (borrowFromDate fd) && JS.truthy (borrowToDate fd)
    then
      if JSDate.ge (JSDate.Date_new (borrowFromDate fd))
                   (JSDate.Date_new (borrowToDate fd))
      then <["borrowToDate" := "Return date must be after borrow date"]> newErrors
      else newErrors
    else newErrors in
  let newErrors :=
    if negb (JS.truthy (notes fd))
    then <["notes" := "Please enter purpose/notes"]> newErrors
    else newErrors in
  newErrors.

(** [validateForm]: stores the errors and tells whether there are none. *)
Definition validateForm (st : State) : list Effect * bool :=
  let newErrors := newErrors (formData st) in
  ([setErrors newErrors], bool_decide (size newErrors = 0%nat)).

(** [handleSubmit] *)
Definition handleSubmit (st : State) : list Effect :=
  let '(es, ok) := validateForm st in
  if negb ok then es
  else es ++ [setShowConfirmation true].


End BorrowEquipment.

(** ** The borrow form within the client

    The borrow form is one more page of the client, with its own cells. *)

Module BorrowSession.

Record State := mkState {
  client : Client.State;
  form : BorrowEquipment.State;
}.






End BorrowSession.

(** ** LoginForm component *)

Module LoginForm.

(** An entry of [mockUsers]. *)
Record Account := mkAccount {
  id : string;
  name : string;
  email : string;
  password : string;
  role : Role;
}.

Definition mockUsers : list Account :=
  [ mkAccount "1" "John Student" "student@example.com" "password123" student;
    mkAccount "2" "Jane Staff" "staff@example.com" "password123" staff;
    mkAccount "3" "Admin User" "admin@example.com" "password123" admin ].

Record FormData := mkFormData {
  form_email : string;
  form_password : string;
  form_role : Role;
}.

Record State := mkState {
  formData : FormData;
  error : string;
  loading : bool;
}.

Definition initial : State := mkState (mkFormData EmptyString EmptyString student) EmptyString false.

(** What [handleSubmit] does: its state setters, the [onLogin] callback of
    the parent, and the router's [navigate]. *)
Inductive Effect :=
| setLoading (v : bool)
| setError (v : string)
| onLogin (userData : User)
| navigate (path : string).

(** The class [\s], on ASCII: tab, line feed, vertical tab, form feed,
    carriage return and space. *)
Definition is_space (c : ascii) : bool :=
  let n := nat_of_ascii c in
  ((9 <=? n)%nat && (n <=? 13)%nat) || (n =? 32)%nat.

(** The class [[^\s@]]. *)
Definition plain (c : ascii) : bool :=
  negb (is_space c) && negb (Ascii.eqb c "@").

Fixpoint all_plain (s : string) : bool :=
  match s with
  | EmptyString => true
  | String c s' => plain c && all_plain s'
  end.

(** A dot that has at least one character after it. *)
Fixpoint dot_then_more (s : string) : bool :=
  match s with
  | EmptyString => false
  | String c s' =>
      (Ascii.eqb c "." && JS.truthy s') || dot_then_more s'
  end.

(** The part after the [@]: [[^\s@]+\.[^\s@]+] up to the end. *)
Definition domain_ok (t : string) : bool :=
  all_plain t &&
  match t with
  | EmptyString => false
  | String _ t' => dot_then_more t'
  end.

(** [emailRegex.test(s)] for [/^[^\s@]+@[^\s@]+\.[^\s@]+$/], on an [s] of
    ASCII characters; outside ASCII the class [\s] holds further
    characters (U+00A0, U+2028, U+3000, ...) that [is_space] does not. *)
Fixpoint emailRegex_from (seen : bool) (s : string) : bool :=
  match s with
  | EmptyString => false
  | String c s' =>
      if Ascii.eqb c "@" then seen && domain_ok s'
      else plain c && emailRegex_from true s'
  end.

Definition emailRegex_test (s : string) : bool := emailRegex_from false s.

(** What the regular expression accepts: a local part, an [@], and a
    domain with a dot inside, none of the three parts empty and none
    containing white space or a further [@]. *)
Definition matches_emailRegex (s : string) : Prop :=
  exists a b c,
    s = a ++ "@" ++ b ++ "." ++ c /\
    a <> EmptyString /\ b <> EmptyString /\ c <> EmptyString /\
    all_plain a = true /\ all_plain b = true /\ all_plain c = true.

(** A string of ASCII characters only: on these the white-space class
    [is_space] is the whole class [\s] of the expression. *)
Fixpoint ascii_only (s : string) : bool :=
  match s with
  | EmptyString => true
  | String c s' => (nat_of_ascii c <? 128)%nat && ascii_only s'
  end.

(** The predicate handed to [mockUsers.find]. *)
Definition credentials_match (fd : FormData) (u : Account) : bool :=
  String.eqb (email u) (form_email fd) &&
  String.eqb (password u) (form_password fd) &&
  bool_decide (role u = form_role fd).

(** [handleSubmit]; the [finally] block runs [setLoading(false)] on every
    path, the early returns included. *)
Definition handleSubmit (st : State) : list Effect :=
  let fd := formData st in
  [setLoading true; setError EmptyString] ++
  (if negb (JS.truthy (form_email fd)) || negb (JS.truthy (form_password fd))
   then [setError "Please fill in all fields"; setLoading false]
   else if negb (emailRegex_test (form_email fd))
   then [setError "Please enter a valid email address"; setLoading false]
   else
     match List.find (credentials_match fd) mockUsers with
     | None =>
         [ setError "Invalid email, password, or role. Please check your credentials.";
           setLoading false ]
     | Some user =>
         [ onLogin (mkUser (id user) (name user) (email user) (role user));
           navigate (if decide (role user = admin)
                     then "/admin-dashboard" else "/student-dashboard") ]
     end) ++
  [setLoading false].

(** The users handed to [onLogin]. *)
Definition onLogin_calls (es : list Effect) : list User :=
  omap (fun e => match e with onLogin u => Some u | _ => None end) es.

Definition navigations (es : list Effect) : list string :=
  omap (fun e => match e with navigate p => Some p | _ => None end) es.

End LoginForm.

(** ** services/api.js: the session store *)

Module Api.

Definition TOKEN_KEY : string := "equipmentPortal_token".
Definition USER_KEY : string := "equipmentPortal_user".

(** [localStorage]: string keys, string values. *)
Abbreviation Storage := (gmap string string).

(** [setToken]: a falsy token is not stored. *)
Definition setToken (token : string) (ls : Storage) : Storage :=
  if JS.truthy token then <[TOKEN_KEY := token]> ls else ls.

(** [getToken]: [null] when the key is absent. *)
Definition getToken (ls : Storage) : option string := ls !! TOKEN_KEY.

Definition clearToken (ls : Storage) : Storage := delete TOKEN_KEY ls.

(** [setUser], given the [JSON.stringify] of a non-null user. *)
Definition setUser (userJSON : option string) (ls : Storage) : Storage :=
  match userJSON with
  | Some j => <[USER_KEY := j]> ls
  | None => ls
  end.

(** [getUser]: [null] when the key is absent or holds the empty string,
    the parsed value otherwise. *)
Definition getUser {J : Type} (JSON_parse : string -> J) (ls : Storage) : option J :=
  match ls !! USER_KEY with
  | Some user => if JS.truthy user then Some (JSON_parse user) else None
  | None => None
  end.

Definition clearUser (ls : Storage) : Storage := delete USER_KEY ls.

(** [clearAuthData] *)
Definition clearAuthData (ls : Storage) : Storage := clearUser (clearToken ls).

(** [authLogout] *)
Definition authLogout (ls : Storage) : Storage := clearAuthData ls.

End Api.

(** ** App component: the client-side routes *)

Module App.

(** What a route renders: a page with its [user] prop, or a redirect. *)
Inductive Element :=
| LoginFormEl
| StudentDashboardEl (user : User)
| AdminDashboardEl (user : User)
| BorrowHistoryEl (user : User)
| EquipmentManagementEl (user : User)
| BorrowEquipmentEl (user : User)
| RequestsManagementEl (user : User)
| Navigate (to : string).

(** The [user] cell of [App]; [null] until [handleLogin]. *)
Definition handleLogin (userData : User) : option User := Some userData.
Definition handleLogout : option User := None.

(** [<Routes>]: the element of the route matching [path]. *)
Definition route (user : option User) (path : string) : Element :=
  if String.eqb path "/login" then LoginFormEl
  else if String.eqb path "/student-dashboard" then
    match user with
    | Some u =>
        if bool_decide (user_role u = student) || bool_decide (user_role u = staff)
        then StudentDashboardEl u else Navigate "/login"
    | None => Navigate "/login"
    end
  else if String.eqb path "/admin-dashboard" then
    match user with
    | Some u =>
        if bool_decide (user_role u = admin) then AdminDashboardEl u
        else Navigate "/login"
    | None => Navigate "/login"
    end
  else if String.eqb path "/borrow-history" then
    match user with
    | Some u => BorrowHistoryEl u
    | None => Navigate "/login"
    end
  else if String.eqb path "/equipment-management" then
    match user with
    | Some u =>
        if bool_decide (user_role u = admin) then EquipmentManagementEl u
        else Navigate "/login"
    | None => Navigate "/login"
    end
  else if String.eqb path "/borrow-equipment" then
    match user with
    | Some u => BorrowEquipmentEl u
    | None => Navigate "/login"
    end
  else if String.eqb path "/requests" then
    match user with
    | Some u =>
        if bool_decide (user_role u = admin) then RequestsManagementEl u
        else Navigate "/login"
    | None => Navigate "/login"
    end
  else if String.eqb path "/" then
    match user with
    | Some u =>
        if bool_decide (user_role u = admin) then Navigate "/admin-dashboard"
        else Navigate "/student-dashboard"
    | None => Navigate "/login"
    end
  else Navigate "/".

(** Following the redirects, at most [fuel] of them. *)
Fixpoint settle (fuel : nat) (user : option User) (path : string) : option Element :=
  match route user path with
  | Navigate to =>
      match fuel with
      | O => None
      | S fuel' => settle fuel' user to
      end
  | el => Some el
  end.

(** The admin pages. *)
Definition admin_element (el : Element) : bool :=
  match el with
  | AdminDashboardEl _ | EquipmentManagementEl _ | RequestsManagementEl _ => true
  | _ => false
  end.

Definition admin_paths : list string :=
  ["/admin-dashboard"; "/equipment-management"; "/requests"].

(** An interaction with the admin pages reaches their handlers only when
    the route at [path] has mounted the page. *)
Inductive AdminEvent :=
| onRequestsPage (nowISO : string) (ev : RequestsManagement.Event)
| onDashboardApprove (requestId : Z)
| onDashboardReject (requestId : Z).

Definition deliver (user : option User) (path : string) (ev : AdminEvent)
    (c : Client.State) : Client.State :=
  match route user path, ev with
  | RequestsManagementEl u, onRequestsPage nowISO ev =>
      match RequestsManagement.handle u nowISO (Client.requestsPage c) ev with
      | Some es => Client.on_requestsPage c es
      | None => c
      end
  | AdminDashboardEl _, onDashboardApprove requestId =>
      Client.on_adminPage c
        (AdminDashboard.handleApproveRequest (Client.adminPage c) requestId)
  | AdminDashboardEl _, onDashboardReject requestId =>
      Client.on_adminPage c
        (AdminDashboard.handleRejectRequest (Client.adminPage c) requestId)
  | _, _ => c
  end.

End App.

(** ** routes/requestRoutes.js: the Express router *)

Module RequestRoutes.

Inductive Method := GET | POST.

#[global] Instance Method_eq_dec : EqDecision Method.
Proof. solve_decision. Defined.

(** The middleware imported from [middleware/authMiddleware]. *)
Inductive MiddlewareName := authenticate | adminOnly | studentOnly.

(** The handlers imported from [controllers/requestController]. *)
Inductive ControllerName :=
| createRequest | getUserRequests | getAllRequests
| approveRequest | rejectRequest | markReturned | getAdminStats.

#[global] Instance ControllerName_eq_dec : EqDecision ControllerName.
Proof. solve_decision. Defined.

(** [router.METHOD(path, ...middleware, handler)] *)
Record Route := mkRoute {
  route_method : Method;
  route_path : string;
  route_middleware : list MiddlewareName;
  route_handler : ControllerName;
}.

(** The routes, in the order they are registered. *)
Definition router : list Route :=
  [ mkRoute POST "/create" [authenticate; studentOnly] createRequest;
    mkRoute GET "/user/:userId" [authenticate] getUserRequests;
    mkRoute GET "/" [authenticate; adminOnly] getAllRequests;
    mkRoute POST "/:requestId/approve" [authenticate; adminOnly] approveRequest;
    mkRoute POST "/:requestId/reject" [authenticate; adminOnly] rejectRequest;
    mkRoute POST "/:requestId/return" [authenticate; adminOnly] markReturned;
    mkRoute GET "/admin/stats" [authenticate; adminOnly] getAdminStats ].

(** The admin-only operations of the router. *)
Definition admin_operation (c : ControllerName) : bool :=
  match c with
  | getAllRequests | approveRequest | rejectRequest | markReturned | getAdminStats => true
  | createRequest | getUserRequests => false
  end.

(** *** Matching a path, as Express does by default

    A route path is turned into a regular expression that is anchored,
    ignores case and allows one trailing slash: ['/user/:userId'] becomes
    [/^\/user\/(?:([^\/]+?))\/?$/i].  So the request path is cut at its
    slashes after the leading one, one trailing slash is dropped, a
    literal segment must equal the segment up to case and a parameter
    takes any non-empty segment. *)

(** The pieces of [s] between its slashes. *)
Fixpoint split_on_slash (cur : string) (s : string) : list string :=
  match s with
  | EmptyString => [cur]
  | String c s' =>
      if Ascii.eqb c "/" then cur :: split_on_slash EmptyString s'
      else split_on_slash (cur ++ String c EmptyString) s'
  end.

(** One trailing slash leaves an empty last piece, which is dropped. *)
Fixpoint drop_last_empty (segs : list string) : list string :=
  match segs with
  | [] => []
  | [seg] => if JS.truthy seg then [seg] else []
  | seg :: segs' => seg :: drop_last_empty segs'
  end.

(** The segments of a path; [None] when a non-empty path does not start
    with a slash. *)
Definition split_path (s : string) : option (list string) :=
  match s with
  | EmptyString => Some []
  | String c s' =>
      if Ascii.eqb c "/" then Some (drop_last_empty (split_on_slash EmptyString s'))
      else None
  end.

(** The [i] flag on the literals of the route paths, which are ASCII: a
    character of the request equals a letter of the literal up to case
    only if it is that ASCII letter in either case (no character outside
    ASCII is folded to an ASCII one). *)
Definition fold_case (s : string) : string := JS.toLowerCase s.

(** A pattern segment [:name] takes any non-empty segment, a literal one
    the same segment up to case. *)
Definition segment_match (pat seg : string) : bool :=
  match pat with
  | String ":" _ => JS.truthy seg
  | _ => String.eqb (fold_case pat) (fold_case seg)
  end.

Fixpoint segments_match (pats segs : list string) : bool :=
  match pats, segs with
  | [], [] => true
  | p :: pats', s :: segs' => segment_match p s && segments_match pats' segs'
  | _, _ => false
  end.

(** An incoming request; [req_user] is [req.user], set by a middleware. *)
Record Req := mkReq {
  req_method : Method;
  req_path : string;
  req_authorization : option string;
  req_user : option User;
  req_body : string;
}.

Record Res := mkRes { res_status : Z; res_body : string }.

Definition route_matches (r : Route) (rq : Req) : bool :=
  bool_decide (route_method r = req_method rq) &&
  match split_path (route_path r), split_path (req_path rq) with
  | Some pats, Some segs => segments_match pats segs
  | _, _ => false
  end.

Section Dispatch.

(** The document store behind the controllers. *)
Context {Store : Type}.

(** A middleware either calls [next()], possibly after decorating the
    request, or ends the exchange with a response. *)
Inductive Outcome :=
| next (rq : Req)
| respond (rs : Res).

Variable middleware : MiddlewareName -> Store -> Req -> Outcome.
Variable controller : ControllerName -> Store -> Req -> Store * Res.

(** The chain of one route: the middleware in order, then the handler. *)
Fixpoint run_chain (mws : list MiddlewareName) (h : ControllerName)
    (db : Store) (rq : Req) : Store * Res * list ControllerName :=
  match mws with
  | [] => let '(db', rs) := controller h db rq in (db', rs, [h])
  | m :: mws' =>
      match middleware m db rq with
      | next rq' => run_chain mws' h db rq'
      | respond rs => (db, rs, [])
      end
  end.

(** The router: the first route matching the request handles it; the
    application answers 404 when none does.  The result is the store, the
    response and the controllers that ran. *)
Definition dispatch (db : Store) (rq : Req) : Store * Res * list ControllerName :=
  match List.find (fun r => route_matches r rq) router with
  | Some r => run_chain (route_middleware r) (route_handler r) db rq
  | None => (db, mkRes 404 "Route not found", [])
  end.

(** The route that a request reaches. *)
Definition matched (rq : Req) : option Route :=
  List.find (fun r => route_matches r rq) router.

End Dispatch.

(** Modelled from the spec: the middleware of [middleware/authMiddleware],
    which is not part of the sources.  Section 4.2: [authorize(credential,
    allowedRoles)] yields the actor or fails with Unauthenticated (missing
    or invalid credential, 401) or Forbidden (role not allowed, 403), before
    any state mutation.  [verify] is the opaque token check. *)
Definition gate {Store : Type} (verify : string -> option User)
    (m : MiddlewareName) (db : Store) (rq : Req) : @Outcome :=
  match m with
  | authenticate =>
      match req_authorization rq ≫= verify with
      | Some u =>
          next (mkReq (req_method rq) (req_path rq) (req_authorization rq)
                  (Some u) (req_body rq))
      | None => respond (mkRes 401 "Unauthenticated")
      end
  | adminOnly =>
      match req_user rq with
      | Some u =>
          if bool_decide (user_role u = admin) then next rq
          else respond (mkRes 403 "Forbidden")
      | None => respond (mkRes 401 "Unauthenticated")
      end
  | studentOnly =>
      match req_user rq with
      | Some u =>
          if bool_decide (user_role u = student) || bool_decide (user_role u = staff)
          then next rq
          else respond (mkRes 403 "Forbidden")
      | None => respond (mkRes 401 "Unauthenticated")
      end
  end.

End RequestRoutes.

(** ** StudentDashboard: the equipment grid and its filters *)

Module EquipmentGrid.

(** The filter cells: the search box, and the values of the category and
    the availability [<select>]. *)
Record Filters := mkFilters {
  searchTerm : string;
  selectedCategory : string;
  selectedAvailability : string;
}.

Definition initialFilters : Filters := mkFilters EmptyString "all" "all".

(** [[...new Set(values)]]: the distinct values, each at its first
    occurrence. *)
Fixpoint new_Set (seen : list string) (values : list string) : list string :=
  match values with
  | [] => []
  | v :: values' =>
      if bool_decide (v ∈ seen) then new_Set seen values'
      else v :: new_Set (v :: seen) values'
  end.

(** [getCategories] *)
Definition getCategories (equipment : list StudentDashboard.Equipment) : list string :=
  new_Set [] (map StudentDashboard.category equipment).

(** [toLowerCase] is the platform's [String.prototype.toLowerCase], which
    follows the Unicode case mapping; the filters take it as a parameter. *)
Definition matches_search (toLowerCase : string -> string) (term : string)
    (item : StudentDashboard.Equipment) : bool :=
  JS.includes (toLowerCase (StudentDashboard.name item)) (toLowerCase term) ||
  JS.includes (toLowerCase (StudentDashboard.description item)) (toLowerCase term).

(** The body of the filtering [useEffect]: the value it hands to
    [setFilteredEquipment]. *)
Definition filteredEquipment (toLowerCase : string -> string)
    (equipment : list StudentDashboard.Equipment)
    (f : Filters) : list StudentDashboard.Equipment :=
  let filtered := equipment in
  let filtered :=
    if JS.truthy (searchTerm f)
    then List.filter (matches_search toLowerCase (searchTerm f)) filtered
    else filtered in
  let filtered :=
    if negb (String.eqb (selectedCategory f) "all")
    then List.filter
           (fun item => String.eqb (StudentDashboard.category item) (selectedCategory f))
           filtered
    else filtered in
  let filtered :=
    if String.eqb (selectedAvailability f) "available"
    then List.filter (fun item => 0 <? StudentDashboard.available item) filtered
    else if String.eqb (selectedAvailability f) "unavailable"
    then List.filter (fun item => StudentDashboard.available item =? 0) filtered
    else filtered in
  filtered.

Inductive Effect :=
| setSearchTerm (v : string)
| setSelectedCategory (v : string)
| setSelectedAvailability (v : string).

Definition apply_effect (f : Filters) (e : Effect) : Filters :=
  match e with
  | setSearchTerm v => mkFilters v (selectedCategory f) (selectedAvailability f)
  | setSelectedCategory v => mkFilters (searchTerm f) v (selectedAvailability f)
  | setSelectedAvailability v => mkFilters (searchTerm f) (selectedCategory f) v
  end.

Definition commit (f : Filters) (es : list Effect) : Filters :=
  fold_left apply_effect es f.

(** [handleClearFilters] *)
Definition handleClearFilters : list Effect :=
  [ setSearchTerm EmptyString; setSelectedCategory "all"; setSelectedAvailability "all" ].

(** What a filter setting asks of an item: the search box is empty or
    its lower-cased text occurs in the lower-cased name or description;
    then the category and the availability. *)
Definition passes (toLowerCase : string -> string) (f : Filters)
    (item : StudentDashboard.Equipment) : Prop :=
  (searchTerm f = EmptyString \/
   exists pre post,
     toLowerCase (StudentDashboard.name item)
       = pre ++ toLowerCase (searchTerm f) ++ post \/
     toLowerCase (StudentDashboard.description item)
       = pre ++ toLowerCase (searchTerm f) ++ post) /\
  (selectedCategory f = "all" \/
   StudentDashboard.category item = selectedCategory f) /\
  (selectedAvailability f = "available" -> 0 < StudentDashboard.available item) /\
  (selectedAvailability f = "unavailable" -> StudentDashboard.available item = 0).

End EquipmentGrid.

(** ** EquipmentManagement page *)

Module EquipmentManagement.

Record Equipment := mkEquipment {
  id : Z;
  name : string;
  category : string;
  description : string;
  condition : string;
  quantity : Z;
  available : Z;
  location : string;
}.

Definition mockEquipmentData : list Equipment :=
  [ mkEquipment 1 "Basketball Set" "Sports"
      "Professional basketball set with 5 balls and pump" "Good" 5 3 "Sports Room A";
    mkEquipment 2 "Microscope" "Lab"
      "Advanced optical microscope for laboratory work" "Excellent" 10 8 "Lab 1";
    mkEquipment 3 "Digital Camera" "Camera"
      "24MP DSLR camera with lenses" "Good" 4 2 "Media Room" ].

(** The form: the two number fields hold a number or the empty string
    ([None]). *)
Record FormData := mkFormData {
  form_name : string;
  form_category : string;
  form_description : string;
  form_condition : string;
  form_quantity : option Z;
  form_available : option Z;
  form_location : string;
}.

Definition blankForm : FormData :=
  mkFormData EmptyString "Sports" EmptyString "Good" None None EmptyString.

Inductive ModalMode := add | edit.

Record State := mkState {
  equipment : list Equipment;
  showModal : bool;
  modalMode : ModalMode;
  searchTerm : string;
  selectedCategory : string;
  formData : FormData;
  editingId : option Z;
  deleteConfirmId : option Z;
}.

Definition initial : State :=
  mkState mockEquipmentData false add EmptyString "all" blankForm None None.

Inductive Effect :=
| setEquipment (v : list Equipment)
| setShowModal (v : bool)
| setModalMode (v : ModalMode)
| setFormData (v : FormData)
| setEditingId (v : option Z)
| setDeleteConfirmId (v : option Z)
| alert (msg : string).

Definition apply_effect (st : State) (e : Effect) : State :=
  match e with
  | setEquipment v =>
      mkState v (showModal st) (modalMode st) (searchTerm st) (selectedCategory st)
        (formData st) (editingId st) (deleteConfirmId st)
  | setShowModal v =>
      mkState (equipment st) v (modalMode st) (searchTerm st) (selectedCategory st)
        (formData st) (editingId st) (deleteConfirmId st)
  | setModalMode v =>
      mkState (equipment st) (showModal st) v (searchTerm st) (selectedCategory st)
        (formData st) (editingId st) (deleteConfirmId st)
  | setFormData v =>
      mkState (equipment st) (showModal st) (modalMode st) (searchTerm st)
        (selectedCategory st) v (editingId st) (deleteConfirmId st)
  | setEditingId v =>
      mkState (equipment st) (showModal st) (modalMode st) (searchTerm st)
        (selectedCategory st) (formData st) v (deleteConfirmId st)
  | setDeleteConfirmId v =>
      mkState (equipment st) (showModal st) (modalMode st) (searchTerm st)
        (selectedCategory st) (formData st) (editingId st) v
  | alert _ => st
  end.

Definition commit (st : State) (es : list Effect) : State :=
  fold_left apply_effect es st.

Definition alerts (es : list Effect) : list string :=
  omap (fun e => match e with alert m => Some m | _ => None end) es.

(** [!field] on a number field: the empty string and 0 are falsy. *)
Definition truthy_number (field : option Z) : bool :=
  match field with
  | Some n => negb (n =? 0)
  | None => false
  end.

(** [getCategories] *)
Definition getCategories (st : State) : list string :=
  EquipmentGrid.new_Set [] (map category (equipment st)).

(** [getFilteredEquipment]; [toLowerCase] is the platform's
    [String.prototype.toLowerCase]. *)
Definition getFilteredEquipment (toLowerCase : string -> string)
    (st : State) : list Equipment :=
  let filtered := equipment st in
  let filtered :=
    if JS.truthy (searchTerm st)
    then List.filter
           (fun item => JS.includes (toLowerCase (name item))
                          (toLowerCase (searchTerm st)))
           filtered
    else filtered in
  let filtered :=
    if negb (String.eqb (selectedCategory st) "all")
    then List.filter (fun item => String.eqb (category item) (selectedCategory st)) filtered
    else filtered in
  filtered.

(** [handleAddEquipment] *)
Definition handleAddEquipment : list Effect :=
  [ setModalMode add; setEditingId None; setFormData blankForm; setShowModal true ].

(** [handleEditEquipment] *)
Definition handleEditEquipment (item : Equipment) : list Effect :=
  [ setModalMode edit;
    setEditingId (Some (id item));
    setFormData (mkFormData (name item) (category item) (description item)
                   (condition item) (Some (quantity item)) (Some (available item))
                   (location item));
    setShowModal true ].

(** [{ ...item, ...formData }], for a form that has passed the check of
    [handleSubmitForm], so that both number fields hold a number. *)
Definition overwrite (item_id : Z) (fd : FormData) : Equipment :=
  mkEquipment item_id (form_name fd) (form_category fd) (form_description fd)
    (form_condition fd) (default 0 (form_quantity fd))
    (default 0 (form_available fd)) (form_location fd).

(** [handleSubmitForm] *)
Definition handleSubmitForm (st : State) : list Effect :=
  let fd := formData st in
  if negb (JS.truthy (form_name fd)) || negb (truthy_number (form_quantity fd))
     || negb (truthy_number (form_available fd))
  then [alert "Please fill in all required fields"]
  else
    match modalMode st with
    | add =>
        let newEquipment := overwrite (Z.of_nat (length (equipment st)) + 1) fd in
        [ setEquipment (equipment st ++ [newEquipment]);
          alert "Equipment added successfully!" ]
    | edit =>
        [ setEquipment
            (map (fun item =>
                    if bool_decide (Some (id item) = editingId st)
                    then overwrite (id item) fd else item)
               (equipment st));
          alert "Equipment updated successfully!" ]
    end ++ [setShowModal false].

(** [handleDeleteEquipment] *)
Definition handleDeleteEquipment (st : State) (target : Z) : list Effect :=
  [ setEquipment (List.filter (fun item => negb (id item =? target)) (equipment st));
    setDeleteConfirmId None;
    alert "Equipment deleted successfully!" ].

(** A form that lacks a required value: the name is empty, or one of the
    two number fields is empty or 0. *)
Definition refused (fd : FormData) : Prop :=
  form_name fd = EmptyString \/
  form_quantity fd = None \/ form_quantity fd = Some 0 \/
  form_available fd = None \/ form_available fd = Some 0.

End EquipmentManagement.

(** ** BorrowHistory page *)

Module BorrowHistory.

Import RequestsManagement (Status, pending, approved, rejected, returned,
                           StatusFilter, all, only).

Record Item := mkItem {
  id : Z;
  equipmentName : string;
  equipmentId : Z;
  category : string;
  borrowDate : option string;
  returnDate : option string;
  requestedDate : string;
  status : Status;
  approvedBy : option string;
  notes : string;
}.

Record State := mkState {
  borrowHistory : list Item;
  searchTerm : string;
  filterStatus : StatusFilter;
  viewDetails : option Item;
}.

(** [getFilteredHistory]; [toLowerCase] is the platform's
    [String.prototype.toLowerCase]. *)
Definition getFilteredHistory (toLowerCase : string -> string)
    (st : State) : list Item :=
  let filtered := borrowHistory st in
  let filtered :=
    if JS.truthy (searchTerm st)
    then List.filter
           (fun item => JS.includes (toLowerCase (equipmentName item))
                          (toLowerCase (searchTerm st)))
           filtered
    else filtered in
  let filtered :=
    match filterStatus st with
    | all => filtered
    | only s => List.filter (fun item => bool_decide (status item = s)) filtered
    end in
  filtered.

(** [getStatusCount] *)
Definition getStatusCount (st : State) (s : Status) : nat :=
  length (List.filter (fun item => bool_decide (status item = s)) (borrowHistory st)).

End BorrowHistory.

(** ** services/api.js: request headers and the session after a login *)

Module ApiSession.

Import Api.

(** [getHeaders] *)
Definition getHeaders (ls : Storage) : gmap string string :=
  let headers : gmap string string := {[ "Content-Type" := "application/json" ]} in
  match getToken ls with
  | Some token =>
      if JS.truthy token
      then <["Authorization" := "Bearer " ++ token]> headers
      else headers
  | None => headers
  end.

(** [response.data] of the login and register endpoints: the token and
    the [JSON.stringify] of the user, each possibly missing. *)
Record AuthData := mkAuthData {
  data_token : option string;
  data_user : option string;
}.

(** What [authLogin] and [authRegister] do with the response: both store
    token and user when the response carries a non-empty token. *)
Definition authLogin (data : option AuthData) (ls : Storage) : Storage :=
  match data with
  | Some d =>
      match data_token d with
      | Some token =>
          if JS.truthy token then setUser (data_user d) (setToken token ls) else ls
      | None => ls
      end
  | None => ls
  end.

Definition authRegister (data : option AuthData) (ls : Storage) : Storage :=
  match data with
  | Some d =>
      match data_token d with
      | Some token =>
          if JS.truthy token then setUser (data_user d) (setToken token ls) else ls
      | None => ls
      end
  | None => ls
  end.

End ApiSession.

(** ** Navbar component *)

Module Navbar.

(** [renderMenuItems]: the links of the menu, as target and label. *)
Definition renderMenuItems (user : option User) : list (string * string) :=
  match user with
  | None => [("/login", "Login")]
  | Some u =>
      if bool_decide (user_role u = admin) then
        [ ("/admin-dashboard", "Dashboard");
          ("/equipment-management", "Manage Equipment");
          ("/requests", "Requests") ]
      else if bool_decide (user_role u = staff) then
        [ ("/student-dashboard", "Dashboard");
          ("/borrow-equipment", "Borrow Equipment");
          ("/borrow-history", "My Requests") ]
      else
        [ ("/student-dashboard", "Dashboard");
          ("/borrow-equipment", "Borrow Equipment");
          ("/borrow-history", "My Requests") ]
  end.

(** The brand link at the left of the bar, rendered for everybody. *)
Definition brand : string * string := ("/", "Equipment Portal").

(** The logout button is rendered for a logged-in user only. *)
Definition logout_button (user : option User) : bool :=
  match user with Some _ => true | None => false end.

(** What the browser session holds: [localStorage], the [user] cell of
    [App], and the current location. *)
Record Session := mkSession {
  storage : gmap string string;
  appUser : option User;
  location : string;
}.

Inductive Effect :=
| clearAuthData
| onLogout
| navigate (path : string).

Definition apply_effect (s : Session) (e : Effect) : Session :=
  match e with
  | clearAuthData => mkSession (Api.clearAuthData (storage s)) (appUser s) (location s)
  | onLogout => mkSession (storage s) App.handleLogout (location s)
  | navigate path => mkSession (storage s) (appUser s) path
  end.

Definition commit (s : Session) (es : list Effect) : Session :=
  fold_left apply_effect es s.

(** [handleLogout] *)
Definition handleLogout : list Effect :=
  [ clearAuthData; onLogout; navigate "/login" ].

End Navbar.

(** * Properties *)

(** ** Strings *)

Lemma startsWith_spec (s t : string) :
  JS.startsWith s t = true <-> exists post, s = t ++ post.
Proof.
  revert s; induction t as [|b t IH]; intros s; simpl.
  - split; [intros _; exists s; reflexivity | reflexivity].
  - destruct s as [|a s]; simpl.
    + split; [discriminate | intros [post H]; discriminate].
    + destruct (Ascii.eqb_spec a b) as [->|Hne].
      * rewrite IH. split; intros [post H]; exists post.
        -- simpl. now rewrite H.
        -- simpl in H. now injection H.
      * split; [discriminate|]. intros [post H]. simpl in H.
        injection H as Hab _. contradiction.
Qed.

Lemma includes_spec (s t : string) :
  JS.includes s t = true <-> exists pre post, s = pre ++ t ++ post.
Proof.
  induction s as [|a s IH]; simpl.
  - rewrite orb_false_r, startsWith_spec. split.
    + intros [post H]. exists EmptyString, post. exact H.
    + intros [pre [post H]]. destruct pre; simpl in H; [|discriminate].
      exists post. exact H.
  - rewrite orb_true_iff, startsWith_spec, IH. split.
    + intros [[post H]|[pre [post H]]].
      * exists EmptyString, post. exact H.
      * exists (String a pre), post. simpl. now rewrite H.
    + intros [pre [post H]]. destruct pre as [|c pre]; simpl in H.
      * left. exists post. exact H.
      * right. injection H as _ H. exists pre, post. exact H.
Qed.

Lemma truthy_true (s : string) : JS.truthy s = true <-> s <> EmptyString.
Proof. destruct s; simpl; split; congruence. Qed.

Lemma truthy_false (s : string) : JS.truthy s = false <-> s = EmptyString.
Proof. destruct s; simpl; split; congruence. Qed.

Lemma toLowerCase_idempotent (s : string) :
  JS.toLowerCase (JS.toLowerCase s) = JS.toLowerCase s.
Proof.
  induction s as [|c s IH]; simpl; [reflexivity|]. rewrite IH. f_equal.
  destruct c as [[] [] [] [] [] [] [] []]; reflexivity.
Qed.

(** ** Lists *)

Lemma map_lookup {A B} (f : A -> B) (l : list A) (i : nat) :
  map f l !! i = f <$> (l !! i).
Proof.
  revert i; induction l as [|x l IH]; intros [|i]; simpl; auto.
Qed.

Lemma elem_of_List_filter {A} (p : A -> bool) (l : list A) (x : A) :
  x ∈ List.filter p l <-> x ∈ l /\ p x = true.
Proof. rewrite !list_elem_of_In. apply filter_In. Qed.

Lemma List_filter_sublist {A} (p : A -> bool) (l : list A) :
  sublist (List.filter p l) l.
Proof.
  induction l as [|x l IH]; simpl; [constructor|].
  destruct (p x); now constructor.
Qed.

(** ** RequestsManagement: the handlers *)

Section RequestsManagementFacts.

Import RequestsManagement.

Lemma requests_handleApprove user nowISO st rid :
  requests (commit st (handleApprove user nowISO st rid)) =
  map (fun req =>
         if decide (id req = rid)
         then mkRequest (id req) (studentName req) (studentId req)
                (studentEmail req) (equipmentName req) (equipmentId req)
                (requestedDate req) (borrowFromDate req) (borrowToDate req)
                (purpose req) approved (Some (user_name user))
                (Some (isoDate nowISO)) (Some (actionNotes st))
         else req) (requests st).
Proof. reflexivity. Qed.

Lemma requests_handleReject user nowISO st rid :
  requests (commit st (handleReject user nowISO st rid)) =
  map (fun req =>
         if decide (id req = rid)
         then mkRequest (id req) (studentName req) (studentId req)
                (studentEmail req) (equipmentName req) (equipmentId req)
                (requestedDate req) (borrowFromDate req) (borrowToDate req)
                (purpose req) rejected (Some (user_name user))
                (Some (isoDate nowISO)) (Some (actionNotes st))
         else req) (requests st).
Proof. reflexivity. Qed.

Lemma requests_handleMarkReturned st rid :
  requests (commit st (handleMarkReturned st rid)) =
  map (fun req =>
         if decide (id req = rid)
         then mkRequest (id req) (studentName req) (studentId req)
                (studentEmail req) (equipmentName req) (equipmentId req)
                (requestedDate req) (borrowFromDate req) (borrowToDate req)
                (purpose req) returned (approvedBy req) (approvalDate req)
                (JS.or_else (actionNotes st) (notes req))
         else req) (requests st).
Proof. reflexivity. Qed.

(** After any of the three handlers the modal is closed and the notes are
    cleared. *)
Lemma handlers_close_modal user nowISO st rid es :
  es ∈ [handleApprove user nowISO st rid; handleReject user nowISO st rid;
        handleMarkReturned st rid] ->
  actionModal (commit st es) = None /\ actionNotes (commit st es) = EmptyString.
Proof.
  rewrite !elem_of_cons, elem_of_nil.
  intros [->|[->|[->|[]]]]; split; reflexivity.
Qed.

(** C7. A successful approve of a pending request leaves the record with
    status approved, the acting admin's name as approver, the date part of
    the clock's ISO timestamp as decision date and the typed notes as
    notes, and reports success; reject does the same with status rejected. *)
Theorem approve_reject_record (user : User) (nowISO : string) (st : State)
    (requestId : Z) (i : nat) (req : Request) :
  requests st !! i = Some req ->
  id req = requestId ->
  status req = pending ->
  (exists req',
      requests (commit st (handleApprove user nowISO st requestId)) !! i = Some req' /\
      status req' = approved /\
      approvedBy req' = Some (user_name user) /\
      approvalDate req' = Some (isoDate nowISO) /\
      notes req' = Some (actionNotes st)) /\
  alerts (handleApprove user nowISO st requestId) = ["Request approved successfully!"] /\
  (exists req',
      requests (commit st (handleReject user nowISO st requestId)) !! i = Some req' /\
      status req' = rejected /\
      approvedBy req' = Some (user_name user) /\
      approvalDate req' = Some (isoDate nowISO) /\
      notes req' = Some (actionNotes st)) /\
  alerts (handleReject user nowISO st requestId) = ["Request rejected successfully!"].
Proof.
  intros Hi Hid _.
  rewrite requests_handleApprove, requests_handleReject, !map_lookup, Hi.
  simpl. destruct (decide (id req = requestId)) as [_|Hne]; [|contradiction].
  repeat split; eexists; repeat split; reflexivity.
Qed.

Lemma approve_reject_record_witness :
  exists req',
    requests (commit initial
      (handleApprove (mkUser "3" "Admin User" "admin@example.com" admin)
         "2025-11-03T09:30:00.000Z" initial 1)) !! 0%nat = Some req' /\
    status req' = approved /\
    approvedBy req' = Some "Admin User" /\
    approvalDate req' = Some "2025-11-03" /\
    notes req' = Some EmptyString.
Proof.
  pose proof (approve_reject_record
    (mkUser "3" "Admin User" "admin@example.com" admin)
    "2025-11-03T09:30:00.000Z" initial 1 0%nat
    (mkRequest 1 "John Student" "STU001" "student@example.com" "Basketball Set" 1
       "2025-11-02" "2025-11-05" "2025-11-10" "Sports practice and tournament"
       pending None None None)
    eq_refl eq_refl eq_refl) as [H _].
  exact H.
Defined.

(** C10. Approve, reject and mark-returned keep the list's length, leave
    every request with another id as it is, and on the target write only
    status, approver, decision date and notes. *)
Theorem handlers_frame (user : User) (nowISO : string) (st : State)
    (requestId : Z) (es : list Effect) (i : nat) (req : Request) :
  es ∈ [handleApprove user nowISO st requestId;
        handleReject user nowISO st requestId;
        handleMarkReturned st requestId] ->
  requests st !! i = Some req ->
  length (requests (commit st es)) = length (requests st) /\
  exists req',
    requests (commit st es) !! i = Some req' /\
    (id req <> requestId -> req' = req) /\
    same_request_data req req'.
Proof.
  rewrite !elem_of_cons, elem_of_nil. intros Hes Hi.
  destruct Hes as [->|[->|[->|[]]]];
    [rewrite requests_handleApprove | rewrite requests_handleReject
     | rewrite requests_handleMarkReturned];
    (split; [apply length_map|]);
    rewrite map_lookup, Hi; simpl;
    (destruct (decide (id req = requestId)) as [Heq|Hne];
     [ eexists; split; [reflexivity|]; split; [intros Hne; contradiction|];
       repeat split
     | exists req; split; [reflexivity|]; split; [reflexivity|];
       repeat split ]).
Qed.

Lemma handlers_frame_witness :
  exists req',
    requests (commit initial (handleMarkReturned initial 3)) !! 0%nat = Some req' /\
    (1 <> 3 -> req' = mkRequest 1 "John Student" "STU001" "student@example.com"
       "Basketball Set" 1 "2025-11-02" "2025-11-05" "2025-11-10"
       "Sports practice and tournament" pending None None None).
Proof.
  destruct (handlers_frame (mkUser "3" "Admin User" "admin@example.com" admin)
    "2025-11-03T09:30:00.000Z" initial 3 (handleMarkReturned initial 3) 0%nat
    (mkRequest 1 "John Student" "STU001" "student@example.com" "Basketball Set" 1
       "2025-11-02" "2025-11-05" "2025-11-10" "Sports practice and tournament"
       pending None None None))
    as [_ [req' [H1 [H2 _]]]].
  - rewrite !elem_of_cons. right. right. left. reflexivity.
  - reflexivity.
  - exists req'. split; [exact H1 | exact H2].
Defined.

(** *** The search and status filter *)

Lemma matches_search_spec (term : string) (req : Request) :
  matches_search term req = true <->
  ci_substring term (studentName req) \/ ci_substring term (equipmentName req) \/
  ci_substring term (studentId req).
Proof.
  unfold matches_search, ci_substring.
  rewrite !orb_true_iff, !includes_spec. tauto.
Qed.

Lemma status_filter_spec (f : StatusFilter) (l : list Request) (req : Request) :
  req ∈ match f with
        | all => l
        | only s => List.filter (fun req => bool_decide (status req = s)) l
        end <->
  req ∈ l /\ filter_allows f (status req).
Proof.
  destruct f as [|s]; simpl; [tauto|].
  rewrite elem_of_List_filter, bool_decide_eq_true. tauto.
Qed.

(** C8 fails as stated (the filter would keep exactly the requests that
    pass the status filter and whose student name or equipment name
    contains the term): searching the mock data for "stu001" lists the
    request of John Student, found through its student id, although
    neither of its name fields contains the term. *)
Lemma names_only_filter_counterexample :
  ~ (forall (st : State) (req : Request),
       searchTerm st <> EmptyString ->
       (req ∈ getFilteredRequests st <->
        req ∈ requests st /\ filter_allows (filterStatus st) (status req) /\
        (ci_substring (searchTerm st) (studentName req) \/
         ci_substring (searchTerm st) (equipmentName req)))).
Proof.
  intros H.
  specialize (H (mkState mockRequestsData "stu001" all None EmptyString None)
    (mkRequest 1 "John Student" "STU001" "student@example.com" "Basketball Set" 1
       "2025-11-02" "2025-11-05" "2025-11-10" "Sports practice and tournament"
       pending None None None)).
  destruct H as [H _]; [discriminate|].
  destruct H as [_ [_ [Hc|Hc]]].
  - vm_compute. apply list_elem_of_here.
  - apply includes_spec in Hc. vm_compute in Hc. discriminate.
  - apply includes_spec in Hc. vm_compute in Hc. discriminate.
Qed.

Lemma matches_search_by_spec (toLowerCase : string -> string) (term : string)
    (req : Request) :
  matches_search_by toLowerCase term req = true <->
  ci_substring_by toLowerCase term (studentName req) \/
  ci_substring_by toLowerCase term (equipmentName req) \/
  ci_substring_by toLowerCase term (studentId req).
Proof.
  unfold matches_search_by, ci_substring_by.
  rewrite !orb_true_iff, !includes_spec. tauto.
Qed.

(** C8, amended. With a non-empty search term the filter keeps, in their
    order, exactly the requests that pass the status filter and whose
    student name, equipment name or student id contains the term as a
    case-insensitive substring, that is once both are lower-cased by
    [toLowerCase], whatever that function does outside ASCII.  The
    filter of the page model is the instance at the ASCII case folding. *)
Theorem getFilteredRequests_spec (toLowerCase : string -> string) (st : State) :
  searchTerm st <> EmptyString ->
  (forall req,
     req ∈ getFilteredRequests_by toLowerCase st <->
     req ∈ requests st /\ filter_allows (filterStatus st) (status req) /\
     (ci_substring_by toLowerCase (searchTerm st) (studentName req) \/
      ci_substring_by toLowerCase (searchTerm st) (equipmentName req) \/
      ci_substring_by toLowerCase (searchTerm st) (studentId req))) /\
  sublist (getFilteredRequests_by toLowerCase st) (requests st) /\
  getFilteredRequests_by JS.toLowerCase st = getFilteredRequests st.
Proof.
  intros Hterm. apply truthy_true in Hterm.
  split; [|split; [|reflexivity]]; unfold getFilteredRequests_by; rewrite Hterm.
  - intros req.
    rewrite status_filter_spec, elem_of_List_filter, matches_search_by_spec.
    tauto.
  - transitivity (List.filter (matches_search_by toLowerCase (searchTerm st))
                    (requests st)).
    + destruct (filterStatus st); [reflexivity | apply List_filter_sublist].
    + apply List_filter_sublist.
Qed.

Lemma getFilteredRequests_spec_witness :
  sublist
    (getFilteredRequests_by JS.toLowerCase
       (mkState mockRequestsData "stu001" (only pending) None EmptyString None))
    mockRequestsData.
Proof.
  apply (getFilteredRequests_spec JS.toLowerCase
           (mkState mockRequestsData "stu001" (only pending) None EmptyString None)).
  simpl. discriminate.
Defined.

End RequestsManagementFacts.

(** ** RequestsManagement: the lifecycle of a request *)

Section RequestLifecycle.

Import RequestsManagement.

Lemma handlers_keep_ids user nowISO st rid es :
  es ∈ [handleApprove user nowISO st rid; handleReject user nowISO st rid;
        handleMarkReturned st rid] ->
  map id (requests (commit st es)) = map id (requests st).
Proof.
  rewrite !elem_of_cons, elem_of_nil.
  intros [->|[->|[->|[]]]];
    [rewrite requests_handleApprove | rewrite requests_handleReject
     | rewrite requests_handleMarkReturned];
    rewrite map_map; apply map_ext; intros req;
    destruct (decide (id req = rid)); reflexivity.
Qed.

Lemma distinct_ids_inj (l : list Request) (a b : Request) :
  NoDup (map id l) -> a ∈ l -> b ∈ l -> id a = id b -> a = b.
Proof.
  induction l as [|x l IH]; simpl; intros Hnd Ha Hb Hid.
  - apply elem_of_nil in Ha. contradiction.
  - apply NoDup_cons in Hnd as [Hx Hnd].
    assert (Hin : forall c, c ∈ l -> id c ∈ map id l).
    { intros c Hc. apply list_elem_of_In, in_map, list_elem_of_In, Hc. }
    apply elem_of_cons in Ha as [->|Ha]; apply elem_of_cons in Hb as [->|Hb].
    + reflexivity.
    + exfalso. apply Hx. rewrite Hid. auto.
    + exfalso. apply Hx. rewrite <- Hid. auto.
    + auto.
Qed.

Lemma filtered_in_requests (st : State) (req : Request) :
  req ∈ getFilteredRequests st -> req ∈ requests st.
Proof.
  unfold getFilteredRequests. rewrite status_filter_spec. intros [H _].
  destruct (JS.truthy (searchTerm st)); [|exact H].
  apply elem_of_List_filter in H. tauto.
Qed.

Lemma lifecycle_step_refl (l : list Request) : lifecycle_step l l.
Proof.
  split; [reflexivity|]. intros i a b Ha Hb. left. congruence.
Qed.

(** The page keeps the invariant: ids stay distinct, and a modal is only
    ever open for a row that had the status of its button. *)
Lemma step_well_formed user nowISO st ev :
  well_formed st -> well_formed (step user nowISO st ev).
Proof.
  intros [Hnd Hm]. unfold step, handle.
  destruct ev as [s|f|row| |row a|s| | ]; try (split; assumption).
  - destruct (getFilteredRequests st !! row); split; assumption.
  - destruct (viewDetails st); split; assumption.
  - destruct (getFilteredRequests st !! row) as [request|] eqn:Hrow;
      [|split; assumption].
    destruct (decide (status request = button_status a)) as [Hs|_];
      [|split; assumption].
    split; [exact Hnd|]. exists request. repeat split; [|exact Hs].
    apply filtered_in_requests. eapply list_elem_of_lookup_2, Hrow.
  - destruct (actionModal st) eqn:Hmodal; split; try assumption;
      unfold modal_consistent in *; simpl; rewrite Hmodal; exact Hm.
  - destruct (actionModal st); split; try assumption; exact I.
  - destruct (actionModal st) as [m|]; [|split; assumption].
    assert (Hes : (match modal_action m with
                   | approve => handleApprove user nowISO st (modal_id m)
                   | reject => handleReject user nowISO st (modal_id m)
                   | return_ => handleMarkReturned st (modal_id m)
                   end) ∈ [handleApprove user nowISO st (modal_id m);
                           handleReject user nowISO st (modal_id m);
                           handleMarkReturned st (modal_id m)]).
    { rewrite !elem_of_cons. destruct (modal_action m); auto. }
    split.
    + rewrite (handlers_keep_ids _ _ _ _ _ Hes). exact Hnd.
    + unfold modal_consistent.
      destruct (handlers_close_modal _ _ _ _ _ Hes) as [-> _]. exact I.
Qed.

(** One interaction moves every request along at most one lifecycle edge. *)
Lemma step_lifecycle user nowISO st ev :
  well_formed st ->
  lifecycle_step (requests st) (requests (step user nowISO st ev)).
Proof.
  intros [Hnd Hm]. unfold step, handle.
  destruct ev as [s|f|row| |row a|s| | ]; try apply lifecycle_step_refl.
  - destruct (getFilteredRequests st !! row); apply lifecycle_step_refl.
  - destruct (viewDetails st); apply lifecycle_step_refl.
  - destruct (getFilteredRequests st !! row); [|apply lifecycle_step_refl].
    destruct (decide _); apply lifecycle_step_refl.
  - destruct (actionModal st); apply lifecycle_step_refl.
  - destruct (actionModal st); apply lifecycle_step_refl.
  - unfold modal_consistent in Hm.
    destruct (actionModal st) as [m|]; [|apply lifecycle_step_refl].
    destruct Hm as [req0 [Hin [Hid Hst]]].
    assert (Htarget : forall i a, requests st !! i = Some a ->
                                  id a = modal_id m ->
                                  status a = button_status (modal_action m)).
    { intros i a Ha Hida. rewrite <- Hst. f_equal.
      apply (distinct_ids_inj (requests st)); trivial.
      - eapply list_elem_of_lookup_2, Ha.
      - congruence. }
    destruct (modal_action m);
      [rewrite requests_handleApprove | rewrite requests_handleReject
       | rewrite requests_handleMarkReturned];
      (split; [apply length_map|]);
      intros i a b Ha Hb; rewrite map_lookup, Ha in Hb; simpl in Hb;
      injection Hb as <-;
      (destruct (decide (id a = modal_id m)) as [Hida|_]; [|left; reflexivity]);
      right; simpl; rewrite (Htarget i a Ha Hida); constructor.
Qed.

Lemma lifecycle_step_terminal (l l' : list Request) (i : nat) (a : Request) :
  lifecycle_step l l' ->
  l !! i = Some a ->
  status a = rejected \/ status a = returned ->
  exists b, l' !! i = Some b /\ status b = status a.
Proof.
  intros [Hlen Hstep] Ha Hterm.
  destruct (lookup_lt_is_Some_2 l' i) as [b Hb].
  { rewrite Hlen. eapply lookup_lt_Some, Ha. }
  exists b. split; [exact Hb|].
  destruct (Hstep i a b Ha Hb) as [Hsame|Hedge]; [exact Hsame|].
  destruct Hterm as [Ht|Ht]; rewrite Ht in Hedge; inversion Hedge.
Qed.

(** C1 fails as stated (approve on a request that is not pending would
    leave its status unchanged): the handler has no status check, and
    approving request 5 of the mock data, which is rejected, makes it
    approved. *)
Lemma approve_unguarded_counterexample :
  ~ (forall (user : User) (nowISO : string) (st : State) (requestId : Z)
            (i : nat) (a b : Request),
       requests st !! i = Some a ->
       id a = requestId ->
       status a <> pending ->
       requests (commit st (handleApprove user nowISO st requestId)) !! i = Some b ->
       status b = status a).
Proof.
  intros H.
  specialize (H (mkUser "3" "Admin User" "admin@example.com" admin)
                "2025-11-03T09:30:00.000Z" initial 5 4%nat _ _
                eq_refl eq_refl ltac:(discriminate) eq_refl).
  discriminate H.
Qed.

(** Whatever the status was, each handler overwrites it. *)
Lemma handlers_overwrite_status user nowISO st rid i a :
  requests st !! i = Some a ->
  id a = rid ->
  status <$> requests (commit st (handleApprove user nowISO st rid)) !! i
    = Some approved /\
  status <$> requests (commit st (handleReject user nowISO st rid)) !! i
    = Some rejected /\
  status <$> requests (commit st (handleMarkReturned st rid)) !! i
    = Some returned.
Proof.
  intros Ha Hid.
  rewrite requests_handleApprove, requests_handleReject,
    requests_handleMarkReturned, !map_lookup, Ha. simpl.
  destruct (decide (id a = rid)); [|contradiction]. repeat split.
Qed.

(** Along a session every step is a lifecycle step, and terminal statuses
    stay. *)
Lemma session_lifecycle (user : User) (st : State) (evs : list (string * Event)) :
  well_formed st ->
  lifecycle_chain st (run user st evs) /\
  forall (k : nat) (st' : State) (i : nat) (a : Request),
    run user st evs !! k = Some st' ->
    requests st !! i = Some a ->
    status a = rejected \/ status a = returned ->
    exists b, requests st' !! i = Some b /\ status b = status a.
Proof.
  revert st. induction evs as [|[nowISO ev] evs IH]; intros st Hwf; simpl.
  - split; [exact I|]. intros k st' i a Hk. destruct k; discriminate.
  - pose proof (step_well_formed user nowISO st ev Hwf) as Hwf'.
    pose proof (step_lifecycle user nowISO st ev Hwf) as Hstep.
    destruct (IH _ Hwf') as [Hchain Hterm].
    split; [split; assumption|].
    intros k st' i a Hk Ha Ht.
    destruct (lifecycle_step_terminal _ _ i a Hstep Ha Ht) as [b [Hb Hsb]].
    destruct k as [|k]; simpl in Hk.
    + injection Hk as <-. exists b. split; assumption.
    + destruct (Hterm k st' i b Hk Hb) as [c [Hc Hsc]]; [congruence|].
      exists c. split; [exact Hc | congruence].
Qed.

(** C1, amended. On a page whose request ids are distinct and whose action
    modal is closed, every sequence of interactions that the rendered page
    offers (approve and reject on pending rows, return on approved rows,
    each confirmed in the modal) moves each request's status only along
    pending -> approved, pending -> rejected and approved -> returned, and
    a rejected or returned request keeps its status for the rest of the
    session.  The handlers themselves check nothing: called with the id
    of a request they overwrite its status, whatever it was. *)
Theorem page_lifecycle (user : User) (st : State) (evs : list (string * Event)) :
  NoDup (map id (requests st)) ->
  actionModal st = None ->
  lifecycle_chain st (run user st evs) /\
  (forall (k : nat) (st' : State) (i : nat) (a : Request),
     run user st evs !! k = Some st' ->
     requests st !! i = Some a ->
     status a = rejected \/ status a = returned ->
     exists b, requests st' !! i = Some b /\ status b = status a) /\
  (forall (nowISO : string) (requestId : Z) (i : nat) (a : Request),
     requests st !! i = Some a ->
     id a = requestId ->
     status <$> requests (commit st (handleApprove user nowISO st requestId)) !! i
       = Some approved /\
     status <$> requests (commit st (handleReject user nowISO st requestId)) !! i
       = Some rejected /\
     status <$> requests (commit st (handleMarkReturned st requestId)) !! i
       = Some returned).
Proof.
  intros Hnd Hmodal.
  assert (Hwf : well_formed st).
  { split; [exact Hnd|]. unfold modal_consistent. rewrite Hmodal. exact I. }
  destruct (session_lifecycle user st evs Hwf) as [Hchain Hterm].
  split; [exact Hchain|]. split; [exact Hterm|].
  intros nowISO requestId i a. apply handlers_overwrite_status.
Qed.

Lemma initial_ids_distinct : NoDup (map id (requests initial)).
Proof. apply (bool_decide_unpack _). vm_compute. exact I. Defined.

Lemma page_lifecycle_witness :
  lifecycle_chain initial
    (run (mkUser "3" "Admin User" "admin@example.com" admin) initial
       [ ("2025-11-03T09:30:00.000Z", clickAction 0 approve);
         ("2025-11-03T09:30:05.000Z", typeNotes "ok");
         ("2025-11-03T09:30:09.000Z", confirmModal);
         ("2025-11-03T09:31:00.000Z", clickAction 0 approve);
         ("2025-11-03T09:31:02.000Z", clickAction 0 return_);
         ("2025-11-03T09:31:09.000Z", confirmModal) ]).
Proof.
  apply (page_lifecycle (mkUser "3" "Admin User" "admin@example.com" admin) initial).
  - exact initial_ids_distinct.
  - reflexivity.
Defined.

(** The session of the witness: request 1 is approved, then returned. *)
Example session_statuses :
  map (fun st => status <$> requests st !! 0%nat)
    (run (mkUser "3" "Admin User" "admin@example.com" admin) initial
       [ ("2025-11-03T09:30:00.000Z", clickAction 0 approve);
         ("2025-11-03T09:30:05.000Z", typeNotes "ok");
         ("2025-11-03T09:30:09.000Z", confirmModal);
         ("2025-11-03T09:31:00.000Z", clickAction 0 approve);
         ("2025-11-03T09:31:02.000Z", clickAction 0 return_);
         ("2025-11-03T09:31:09.000Z", confirmModal) ]) =
  [ Some pending; Some pending; Some approved; Some approved; Some approved;
    Some returned ].
Proof. reflexivity. Qed.

End RequestLifecycle.

(** ** Approval, return and the equipment counts *)

Section Inventory.

Import RequestsManagement.

Lemma available_of_on_requestsPage (c : Client.State) (es : list Effect) (eid : Z) :
  Client.available_of (Client.on_requestsPage c es) eid = Client.available_of c eid.
Proof. reflexivity. Qed.


Lemma requestsPage_markReturned c rid :
  Client.requestsPage (Client.markReturned c rid) =
  commit (Client.requestsPage c) (handleMarkReturned (Client.requestsPage c) rid).
Proof. reflexivity. Qed.



(** With no unit available the approval still goes through. *)
Example approve_without_capacity :
  Client.available_of Client.toolkit_client 6 = Some 0 /\
  status <$> requests (Client.requestsPage
    (Client.approve (mkUser "3" "Admin User" "admin@example.com" admin)
       "2025-11-03T09:30:00.000Z" Client.toolkit_client 6)) !! 0%nat = Some approved /\
  Client.available_of
    (Client.approve (mkUser "3" "Admin User" "admin@example.com" admin)
       "2025-11-03T09:30:00.000Z" Client.toolkit_client 6) 6 = Some 0.
Proof. repeat split. Qed.



(** C3 fails as stated (mark-returned would give one unit back): returning
    the approved request 3 of the mock data, whose Digital Camera has 2
    units available, leaves the count at 2. *)
Lemma return_restock_counterexample :
  ~ (forall (c : Client.State) (requestId : Z) (i : nat) (req : Request) (avail : Z),
       requests (Client.requestsPage c) !! i = Some req ->
       id req = requestId ->
       status req = approved ->
       Client.available_of c (equipmentId req) = Some avail ->
       status <$> requests (Client.requestsPage
                    (Client.markReturned c requestId)) !! i = Some returned /\
       Client.available_of (Client.markReturned c requestId) (equipmentId req)
         = Some (avail + 1)).
Proof.
  intros H.
  destruct (H Client.initial 3 2%nat _ 2 eq_refl eq_refl eq_refl eq_refl)
    as [_ Hinc].
  vm_compute in Hinc. discriminate Hinc.
Qed.

(** C3, amended. For every approved request, mark-returned sets the status
    to returned, replaces the notes by the typed notes when there are any,
    keeps approver and decision date, and leaves every available count as
    it was. *)
Theorem markReturned_effect (c : Client.State) (requestId : Z) (i : nat)
    (req : Request) :
  requests (Client.requestsPage c) !! i = Some req ->
  id req = requestId ->
  status req = approved ->
  (exists req',
     requests (Client.requestsPage (Client.markReturned c requestId)) !! i = Some req' /\
     status req' = returned /\
     notes req' = JS.or_else (actionNotes (Client.requestsPage c)) (notes req) /\
     approvedBy req' = approvedBy req /\
     approvalDate req' = approvalDate req) /\
  alerts (handleMarkReturned (Client.requestsPage c) requestId)
    = ["Equipment marked as returned!"] /\
  forall eid,
    Client.available_of (Client.markReturned c requestId) eid
      = Client.available_of c eid.
Proof.
  intros Hi Hid _. split; [|split; [reflexivity | intros eid; reflexivity]].
  rewrite requestsPage_markReturned, requests_handleMarkReturned, map_lookup, Hi.
  simpl.
  destruct (decide (id req = requestId)); [|contradiction].
  eexists. repeat split.
Qed.

Lemma markReturned_effect_witness :
  Client.available_of (Client.markReturned Client.initial 3) 3 = Some 2.
Proof.
  destruct (markReturned_effect Client.initial 3 2%nat
              (mkRequest 3 "Mike Johnson" "STU003" "mike@example.com" "Digital Camera" 3
                 "2025-11-01" "2025-11-03" "2025-11-05" "Photography project"
                 approved (Some "Admin User") (Some "2025-11-01")
                 (Some "Approved - return in good condition")))
    as (_ & _ & Hcount).
  - reflexivity.
  - reflexivity.
  - reflexivity.
  - rewrite Hcount. reflexivity.
Defined.

End Inventory.

(** ** The session store *)

Section SessionStore.

Import Api.

Lemma session_keys_distinct : TOKEN_KEY <> USER_KEY.
Proof. discriminate. Qed.

(** X6. Logging out leaves every other key of the store alone. *)
Lemma authLogout_other_keys (ls : Storage) (k : string) :
  k <> TOKEN_KEY -> k <> USER_KEY -> authLogout ls !! k = ls !! k.
Proof.
  intros Ht Hu. unfold authLogout, clearAuthData, clearUser, clearToken.
  rewrite !lookup_delete_ne; auto.
Qed.

(** C9. After logout neither the token nor the user profile is in the
    store: [getToken] and [getUser] both return null, whatever the store
    held before. *)
Theorem logout_clears_session (J : Type) (JSON_parse : string -> J) (ls : Storage) :
  getToken (authLogout ls) = None /\
  getUser JSON_parse (authLogout ls) = None.
Proof.
  unfold getToken, getUser, authLogout, clearAuthData, clearUser, clearToken.
  rewrite lookup_delete_eq.
  rewrite lookup_delete_ne by (apply not_eq_sym, session_keys_distinct).
  rewrite lookup_delete_eq. split; reflexivity.
Qed.

(** A login followed by a logout: both values are gone. *)
Example login_then_logout :
  let ls := setUser (Some "{}") (setToken "jwt" ∅) in
  getToken ls = Some "jwt" /\
  getToken (authLogout ls) = None /\
  getUser (fun s => s) (authLogout ls) = None.
Proof.
  vm_compute. repeat split.
Qed.

End SessionStore.

(** ** LoginForm: the mock authentication *)

Section Login.

Import LoginForm.

Lemma all_plain_app (a b : string) :
  all_plain (a ++ b) = all_plain a && all_plain b.
Proof.
  induction a as [|x a IH]; simpl; [reflexivity|].
  rewrite IH. apply andb_assoc.
Qed.

Lemma dot_then_more_spec (t : string) :
  dot_then_more t = true <-> exists p c, t = p ++ "." ++ c /\ c <> EmptyString.
Proof.
  induction t as [|x t IH]; simpl.
  - split; [discriminate|]. intros (p & c & H & _). destruct p; discriminate H.
  - rewrite orb_true_iff, andb_true_iff, IH, truthy_true. split.
    + intros [[Hx Ht] | (p & c & -> & Hc)].
      * apply Ascii.eqb_eq in Hx. subst x. exists EmptyString, t.
        split; [reflexivity | exact Ht].
      * exists (String x p), c. split; [reflexivity | exact Hc].
    + intros (p & c & H & Hc). destruct p as [|y p]; simpl in H.
      * injection H as -> ->. left. split; [apply Ascii.eqb_refl | exact Hc].
      * injection H as -> ->. right. exists p, c. split; [reflexivity | exact Hc].
Qed.

Lemma domain_ok_spec (t : string) :
  domain_ok t = true <->
  exists b c, t = b ++ "." ++ c /\ b <> EmptyString /\ c <> EmptyString /\
              all_plain b = true /\ all_plain c = true.
Proof.
  unfold domain_ok. rewrite andb_true_iff. split.
  - intros [Hall Hdot]. destruct t as [|x t]; [discriminate Hdot|].
    apply dot_then_more_spec in Hdot as (p & c & -> & Hc).
    exists (String x p), c.
    change (String x (p ++ "." ++ c)) with (String x p ++ "." ++ c) in Hall.
    rewrite !all_plain_app, !andb_true_iff in Hall.
    destruct Hall as (Hb & _ & Hcp). repeat split; [discriminate | exact Hc | | ];
      assumption.
  - intros (b & c & -> & Hb & Hc & Hpb & Hpc). split.
    + rewrite !all_plain_app, Hpb, Hpc. reflexivity.
    + destruct b as [|x b]; [contradiction|]. simpl.
      apply dot_then_more_spec. exists b, c. split; [reflexivity | exact Hc].
Qed.

Lemma plain_not_at (c : ascii) : plain c = true -> Ascii.eqb c "@" = false.
Proof.
  unfold plain. rewrite andb_true_iff, !negb_true_iff. tauto.
Qed.

Lemma emailRegex_from_spec (seen : bool) (s : string) :
  emailRegex_from seen s = true <->
  exists a t,
    s = a ++ "@" ++ t /\ (seen = true \/ a <> EmptyString) /\
    all_plain a = true /\ domain_ok t = true.
Proof.
  revert seen. induction s as [|x s IH]; intros seen; simpl.
  - split; [discriminate|]. intros (a & t & H & _). destruct a; discriminate H.
  - destruct (Ascii.eqb x "@") eqn:Hx.
    + apply Ascii.eqb_eq in Hx. subst x. rewrite andb_true_iff. split.
      * intros [-> Hd]. exists EmptyString, s. repeat split; auto.
      * intros (a & t & H & Hseen & Ha & Hd). destruct a as [|y a]; simpl in H.
        -- injection H as ->. destruct Hseen as [->|Hne]; [|contradiction]. auto.
        -- injection H as <- _. simpl in Ha. discriminate Ha.
    + rewrite andb_true_iff, IH. split.
      * intros [Hp (a & t & -> & _ & Ha & Hd)].
        exists (String x a), t. simpl. rewrite Hp, Ha.
        repeat split; auto; right; discriminate.
      * intros (a & t & H & _ & Ha & Hd). destruct a as [|y a]; simpl in H.
        -- injection H as -> _. rewrite Ascii.eqb_refl in Hx. discriminate Hx.
        -- injection H as <- ->. simpl in Ha. apply andb_true_iff in Ha as [Hp Ha].
           split; [exact Hp|]. exists a, t. repeat split; auto.
Qed.

(** The test function accepts exactly the strings of the expression. *)
Lemma emailRegex_test_spec (s : string) :
  emailRegex_test s = true <-> matches_emailRegex s.
Proof.
  unfold emailRegex_test, matches_emailRegex. rewrite emailRegex_from_spec. split.
  - intros (a & t & -> & [Hseen|Ha] & Hpa & Hd); [discriminate Hseen|].
    apply domain_ok_spec in Hd as (b & c & -> & Hb & Hc & Hpb & Hpc).
    exists a, b, c. repeat split; assumption.
  - intros (a & b & c & -> & Ha & Hb & Hc & Hpa & Hpb & Hpc).
    exists a, (b ++ "." ++ c). repeat split; auto.
    apply domain_ok_spec. exists b, c. repeat split; assumption.
Qed.

Lemma mockUsers_cases (u : Account) :
  u ∈ mockUsers ->
  u = mkAccount "1" "John Student" "student@example.com" "password123" student \/
  u = mkAccount "2" "Jane Staff" "staff@example.com" "password123" staff \/
  u = mkAccount "3" "Admin User" "admin@example.com" "password123" admin.
Proof.
  unfold mockUsers. rewrite !elem_of_cons, elem_of_nil. tauto.
Qed.

Lemma credentials_match_spec (fd : FormData) (u : Account) :
  credentials_match fd u = true <->
  email u = form_email fd /\ password u = form_password fd /\ role u = form_role fd.
Proof.
  unfold credentials_match.
  rewrite !andb_true_iff, !String.eqb_eq, bool_decide_eq_true. tauto.
Qed.

(** The e-mail addresses of [mockUsers] are distinct. *)
Lemma mockUsers_email_inj (u v : Account) :
  u ∈ mockUsers -> v ∈ mockUsers -> email u = email v -> u = v.
Proof.
  intros Hu Hv.
  destruct (mockUsers_cases u Hu) as [-> | [-> | ->]];
    destruct (mockUsers_cases v Hv) as [-> | [-> | ->]];
    simpl; intros H; solve [reflexivity | discriminate H].
Qed.

(** A call of [onLogin] comes from an account found by [find]. *)
Lemma onLogin_calls_found (st : State) (user : User) :
  user ∈ onLogin_calls (handleSubmit st) ->
  exists acc,
    List.find (credentials_match (formData st)) mockUsers = Some acc /\
    user = mkUser (id acc) (name acc) (email acc) (role acc).
Proof.
  unfold handleSubmit.
  destruct (negb (JS.truthy (form_email (formData st))) ||
            negb (JS.truthy (form_password (formData st)))).
  { simpl. intros H. apply elem_of_nil in H. contradiction. }
  destruct (negb (emailRegex_test (form_email (formData st)))).
  { simpl. intros H. apply elem_of_nil in H. contradiction. }
  destruct (List.find (credentials_match (formData st)) mockUsers) as [acc|].
  - simpl. rewrite list_elem_of_singleton. intros ->. exists acc. split; reflexivity.
  - simpl. intros H. apply elem_of_nil in H. contradiction.
Qed.

(** C5. An e-mail and password of a registered user with another role
    than the stored one are answered with the invalid-credentials error:
    [onLogin] is not called and nothing is navigated to, so no session
    comes about.  Whenever [onLogin] is called, e-mail, password and role
    all match one account of [mockUsers], and only that one. *)
Theorem login_requires_role (st : State) :
  (forall u,
     u ∈ mockUsers ->
     form_email (formData st) = email u ->
     form_password (formData st) = password u ->
     form_role (formData st) <> role u ->
     handleSubmit st =
       [ setLoading true; setError EmptyString;
         setError "Invalid email, password, or role. Please check your credentials.";
         setLoading false; setLoading false ] /\
     onLogin_calls (handleSubmit st) = [] /\
     navigations (handleSubmit st) = []) /\
  (forall user,
     user ∈ onLogin_calls (handleSubmit st) ->
     exists acc,
       acc ∈ mockUsers /\
       email acc = form_email (formData st) /\
       password acc = form_password (formData st) /\
       role acc = form_role (formData st) /\
       user = mkUser (id acc) (name acc) (email acc) (role acc) /\
       forall acc',
         acc' ∈ mockUsers ->
         email acc' = form_email (formData st) ->
         password acc' = form_password (formData st) ->
         role acc' = form_role (formData st) ->
         acc' = acc).
Proof.
  split.
  - intros u Hu He Hp Hr.
    destruct st as [[e p r] err ld]. simpl in He, Hp, Hr. subst e p.
    assert (H : handleSubmit
                  (mkState (mkFormData (email u) (password u) r) err ld) =
                [ setLoading true; setError EmptyString;
                  setError "Invalid email, password, or role. Please check your credentials.";
                  setLoading false; setLoading false ]).
    { destruct (mockUsers_cases u Hu) as [-> | [-> | ->]]; destruct r;
        solve [reflexivity | exfalso; apply Hr; reflexivity]. }
    rewrite H. repeat split.
  - intros user Hcall.
    destruct (onLogin_calls_found st user Hcall) as [acc [Hfind ->]].
    pose proof (find_some _ _ Hfind) as [Hin Hmatch].
    apply list_elem_of_In in Hin.
    apply credentials_match_spec in Hmatch as [He [Hp Hr]].
    exists acc. repeat split; trivial.
    intros acc' Hin' He' _ _. apply mockUsers_email_inj; trivial. congruence.
Qed.

Lemma login_requires_role_witness :
  onLogin_calls
    (handleSubmit
       (mkState (mkFormData "admin@example.com" "password123" student) EmptyString false)) = [].
Proof.
  destruct (login_requires_role
              (mkState (mkFormData "admin@example.com" "password123" student) EmptyString false))
    as [H _].
  destruct (H (mkAccount "3" "Admin User" "admin@example.com" "password123" admin))
    as [_ [Hcalls _]].
  - unfold mockUsers. rewrite !elem_of_cons. right. right. left. reflexivity.
  - reflexivity.
  - reflexivity.
  - simpl. discriminate.
  - exact Hcalls.
Defined.

(** With the stored role the same credentials log the admin in. *)
Example admin_login :
  handleSubmit
    (mkState (mkFormData "admin@example.com" "password123" admin) EmptyString false) =
  [ setLoading true; setError EmptyString;
    onLogin (mkUser "3" "Admin User" "admin@example.com" admin);
    navigate "/admin-dashboard";
    setLoading false ].
Proof. reflexivity. Qed.

Example emailRegex_examples :
  emailRegex_test "student@example.com" = true /\
  emailRegex_test "student@example" = false /\
  emailRegex_test "stu dent@example.com" = false /\
  emailRegex_test "@example.com" = false /\
  emailRegex_test "a@b@c.de" = false /\
  emailRegex_test "a@b.c.d" = true /\
  emailRegex_test "a@.c" = false /\
  emailRegex_test "a@b." = false.
Proof. repeat split. Qed.

End Login.

(** ** The admin gate: client routes and server routes *)

Section AdminGate.

Import RequestRoutes.

Lemma non_admin_cases (user : option User) :
  non_admin user ->
  user = None \/
  exists i n e r, user = Some (mkUser i n e r) /\ (r = student \/ r = staff).
Proof.
  intros H. destruct user as [[i n e r]|]; [right | left; reflexivity].
  exists i, n, e, r. split; [reflexivity|].
  destruct r; auto. exfalso. apply (H _ eq_refl). reflexivity.
Qed.

(** No route renders an admin page for a caller who is not an admin. *)
Lemma route_never_admin (user : option User) (path : string) :
  non_admin user -> App.admin_element (App.route user path) = false.
Proof.
  intros H. unfold App.route.
  destruct (non_admin_cases user H) as [-> | (i & n & e & r & -> & [-> | ->])];
    repeat (match goal with |- context [String.eqb ?a ?b] =>
              destruct (String.eqb a b) end);
    reflexivity.
Qed.

(** The handlers of the admin pages are out of reach of such a caller. *)
Lemma deliver_non_admin (user : option User) (path : string)
    (ev : App.AdminEvent) (c : Client.State) :
  non_admin user -> App.deliver user path ev c = c.
Proof.
  intros H. pose proof (route_never_admin user path H) as Hel.
  unfold App.deliver. destruct (App.route user path); try discriminate Hel;
    destruct ev; reflexivity.
Qed.

(** Every admin-only operation of the router sits behind [authenticate]
    and [adminOnly]. *)
Lemma admin_routes_wrapped (r : Route) :
  r ∈ router ->
  admin_operation (route_handler r) = true ->
  route_middleware r = [authenticate; adminOnly].
Proof.
  unfold router. rewrite !elem_of_cons, elem_of_nil.
  intros [->|[->|[->|[->|[->|[->|[->|[]]]]]]]]; simpl; intros H;
    solve [reflexivity | discriminate H].
Qed.

(** The gate modelled from section 4.2 of the specification turns away
    every caller who is not an admin. *)
Lemma gate_adminOnly_denies {Store : Type} (verify : string -> option User)
    (db : Store) (rq : Req) :
  non_admin (req_user rq) -> exists rs, gate verify adminOnly db rq = respond rs.
Proof.
  intros H. simpl. destruct (req_user rq) as [u|] eqn:Hu; [|eauto].
  destruct (bool_decide (user_role u = admin)) eqn:Hr; [|eauto].
  apply bool_decide_eq_true in Hr. exfalso. apply (H u eq_refl Hr).
Qed.

Variable Store : Type.
Variable middleware : MiddlewareName -> Store -> Req -> Outcome.
Variable controller : ControllerName -> Store -> Req -> Store * Res.

(** C6. For a caller who is not an admin (no user included) every admin
    route of the client redirects to the login route, no route renders an
    admin page and no handler of an admin page is reached; on the server
    every admin-only operation is registered behind [authenticate] and
    [adminOnly], so that, [adminOnly] turning such a caller away, the
    request is answered without running a controller and the store is the
    one before. *)
Theorem admin_only_denied (user : option User) :
  non_admin user ->
  (forall db rq, non_admin (req_user rq) ->
                 exists rs, middleware adminOnly db rq = respond rs) ->
  (forall path, path ∈ App.admin_paths ->
     App.route user path = App.Navigate "/login" /\
     App.settle 1 user path = Some App.LoginFormEl) /\
  (forall path, App.admin_element (App.route user path) = false) /\
  (forall path ev c, App.deliver user path ev c = c) /\
  (forall r, r ∈ router -> admin_operation (route_handler r) = true ->
     route_middleware r = [authenticate; adminOnly]) /\
  (forall db rq r,
     matched rq = Some r ->
     admin_operation (route_handler r) = true ->
     (forall rq', middleware authenticate db rq = next rq' -> req_user rq' = user) ->
     exists rs, dispatch middleware controller db rq = (db, rs, [])).
Proof.
  intros Huser Hgate. repeat split.
  - unfold App.admin_paths in H. rewrite !elem_of_cons, elem_of_nil in H.
    destruct (non_admin_cases user Huser) as [-> | (i & n & e & r & -> & [-> | ->])];
      destruct H as [->|[->|[->|[]]]]; reflexivity.
  - unfold App.admin_paths in H. rewrite !elem_of_cons, elem_of_nil in H.
    destruct (non_admin_cases user Huser) as [-> | (i & n & e & r & -> & [-> | ->])];
      destruct H as [->|[->|[->|[]]]]; reflexivity.
  - intros path. apply route_never_admin, Huser.
  - intros path ev c. apply deliver_non_admin, Huser.
  - apply admin_routes_wrapped.
  - intros db rq r Hm Hadmin Hactor.
    unfold dispatch. unfold matched in Hm. rewrite Hm.
    assert (Hin : r ∈ router).
    { apply list_elem_of_In. apply (find_some _ _ Hm). }
    rewrite (admin_routes_wrapped r Hin Hadmin). simpl.
    destruct (middleware authenticate db rq) as [rq'|rs] eqn:Hauth; [|eauto].
    destruct (Hgate db rq') as [rs ->]; [|eauto].
    rewrite (Hactor rq' eq_refl). exact Huser.
Qed.

End AdminGate.

Lemma admin_only_denied_witness :
  App.route (Some (mkUser "1" "John Student" "student@example.com" student))
    "/requests" = App.Navigate "/login" /\
  exists rs,
    RequestRoutes.dispatch
      (RequestRoutes.gate
         (fun tok => if String.eqb tok "t1"
                     then Some (mkUser "1" "John Student" "student@example.com" student)
                     else None))
      (fun _ (db : list Z) _ => (7 :: db, RequestRoutes.mkRes 200 "done"))
      [1; 2]
      (RequestRoutes.mkReq RequestRoutes.POST "/api-42/approve" (Some "t1") None "{}")
    = ([1; 2], rs, []).
Proof.
  destruct (admin_only_denied (list Z)
    (RequestRoutes.gate
       (fun tok => if String.eqb tok "t1"
                   then Some (mkUser "1" "John Student" "student@example.com" student)
                   else None))
    (fun _ (db : list Z) _ => (7 :: db, RequestRoutes.mkRes 200 "done"))
    (Some (mkUser "1" "John Student" "student@example.com" student)))
    as (Hroute & _ & _ & _ & Hserver).
  - intros u Hu. injection Hu as <-. simpl. discriminate.
  - intros db rq. apply gate_adminOnly_denies.
  - split.
    + apply Hroute. unfold App.admin_paths. rewrite !elem_of_cons. auto.
    + apply (Hserver [1; 2]
        (RequestRoutes.mkReq RequestRoutes.POST "/api-42/approve" (Some "t1") None "{}")
        (RequestRoutes.mkRoute RequestRoutes.POST "/:requestId/approve"
           [RequestRoutes.authenticate; RequestRoutes.adminOnly]
           RequestRoutes.approveRequest)).
      * reflexivity.
      * reflexivity.
      * intros rq' Hrq'. vm_compute in Hrq'. injection Hrq' as <-. reflexivity.
Defined.

(** ** Dates *)

Section Dates.

Import JSDate.

Lemma valid_civil_bounds (y m d : Z) :
  valid_civil (y, m, d) = true ->
  0 <= y <= 9999 /\ 1 <= m <= 12 /\ 1 <= d <= days_in_month y m.
Proof.
  unfold valid_civil. rewrite !andb_true_iff, !Z.leb_le. tauto.
Qed.

Lemma parse_iso_date_valid (s : string) (c : civil) :
  parse_iso_date s = Some c -> valid_civil c = true.
Proof.
  unfold parse_iso_date. destruct (parse_fields s) as [c'|]; simpl; [|discriminate].
  destruct (valid_civil c') eqn:Hv; [|discriminate]. congruence.
Qed.

Lemma month_cases (m : Z) :
  1 <= m <= 12 ->
  m = 1 \/ m = 2 \/ m = 3 \/ m = 4 \/ m = 5 \/ m = 6 \/
  m = 7 \/ m = 8 \/ m = 9 \/ m = 10 \/ m = 11 \/ m = 12.
Proof. lia. Qed.

(** A year has 365 days, a leap year 366. *)
Lemma day_from_year_succ (y : Z) :
  day_from_year (y + 1) = day_from_year y + (if is_leap y then 366 else 365).
Proof.
  unfold day_from_year, is_leap.
  destruct (Z.eqb_spec (y mod 4) 0), (Z.eqb_spec (y mod 100) 0),
    (Z.eqb_spec (y mod 400) 0); simpl;
    Z.div_mod_to_equations; lia.
Qed.

Lemma day_from_year_mono (y1 y2 : Z) :
  y1 <= y2 -> day_from_year y1 <= day_from_year y2.
Proof.
  intros H. unfold day_from_year. Z.div_mod_to_equations. lia.
Qed.

(** The last day of a year comes before the first day of the next one. *)
Lemma make_day_within_year (y m d : Z) :
  valid_civil (y, m, d) = true ->
  day_from_year y <= make_day (y, m, d) < day_from_year (y + 1).
Proof.
  intros Hv. apply valid_civil_bounds in Hv as (_ & Hm & Hd).
  rewrite day_from_year_succ. unfold make_day.
  destruct (month_cases m Hm) as [-> | [-> | [-> | [-> | [-> | [-> |
    [-> | [-> | [-> | [-> | [-> | ->]]]]]]]]]]];
    unfold days_in_month in Hd; unfold days_before_month;
    destruct (is_leap y); lia.
Qed.

Lemma days_before_month_lt (y m1 d1 m2 d2 : Z) :
  valid_civil (y, m1, d1) = true ->
  valid_civil (y, m2, d2) = true ->
  m1 < m2 ->
  days_before_month y m1 + d1 < days_before_month y m2 + d2.
Proof.
  intros H1 H2 Hlt.
  apply valid_civil_bounds in H1 as (_ & Hm1 & Hd1).
  apply valid_civil_bounds in H2 as (_ & Hm2 & Hd2).
  destruct (month_cases m1 Hm1) as [-> | [-> | [-> | [-> | [-> | [-> |
    [-> | [-> | [-> | [-> | [-> | ->]]]]]]]]]]];
    unfold days_in_month in Hd1; unfold days_before_month at 1;
    (destruct (month_cases m2 Hm2) as [-> | [-> | [-> | [-> | [-> | [-> |
       [-> | [-> | [-> | [-> | [-> | ->]]]]]]]]]]];
     try lia; unfold days_before_month; destruct (is_leap y); lia).
Qed.

(** The day number grows with the calendar date. *)
Lemma make_day_lt (a b : civil) :
  valid_civil a = true -> valid_civil b = true ->
  civil_lt a b -> make_day a < make_day b.
Proof.
  destruct a as [[y1 m1] d1], b as [[y2 m2] d2]. intros Ha Hb Hlt.
  destruct Hlt as [Hy | [-> [Hm | [-> Hd]]]].
  - pose proof (make_day_within_year _ _ _ Ha) as [_ H1].
    pose proof (make_day_within_year _ _ _ Hb) as [H2 _].
    pose proof (day_from_year_mono (y1 + 1) y2 ltac:(lia)). lia.
  - pose proof (days_before_month_lt _ _ _ _ _ Ha Hb Hm). unfold make_day. lia.
  - unfold make_day. lia.
Qed.

Lemma civil_trichotomy (a b : civil) : civil_lt a b \/ a = b \/ civil_lt b a.
Proof.
  destruct a as [[y1 m1] d1], b as [[y2 m2] d2]. unfold civil_lt.
  destruct (Z.lt_trichotomy y1 y2) as [?|[->|?]]; [tauto| |tauto].
  destruct (Z.lt_trichotomy m1 m2) as [?|[->|?]]; [tauto| |tauto].
  destruct (Z.lt_trichotomy d1 d2) as [?|[->|?]]; tauto.
Qed.

Lemma make_day_lt_iff (a b : civil) :
  valid_civil a = true -> valid_civil b = true ->
  (make_day a < make_day b <-> civil_lt a b).
Proof.
  intros Ha Hb. split; [|apply make_day_lt; assumption].
  intros Hlt. destruct (civil_trichotomy a b) as [H|[->|H]]; [exact H|lia|].
  pose proof (make_day_lt b a Hb Ha H). lia.
Qed.

(** The comparison of [validateForm] on two date-input values: the borrow
    date is on or after the return date exactly when the return date is
    not strictly after the borrow date. *)
Lemma date_ge_spec (from to : string) :
  is_Some (parse_iso_date from) -> is_Some (parse_iso_date to) ->
  (ge (Date_new from) (Date_new to) = true <-> ~ strictly_after to from).
Proof.
  intros [cf Hf] [ct Ht]. unfold Date_new, strictly_after. rewrite Hf, Ht. simpl.
  pose proof (parse_iso_date_valid _ _ Hf) as Hvf.
  pose proof (parse_iso_date_valid _ _ Ht) as Hvt.
  pose proof (make_day_lt_iff cf ct Hvf Hvt) as Hiff.
  rewrite Z.leb_le. unfold msPerDay. split.
  - intros Hle (ce & cl & He & Hl & Hlt).
    injection He as <-. injection Hl as <-. apply Hiff in Hlt. lia.
  - intros Hn. destruct (Z.le_gt_cases (make_day ct) (make_day cf)) as [H|H]; [lia|].
    exfalso. apply Hn. exists cf, ct. repeat split. apply Hiff. exact H.
Qed.

End Dates.

(** ** Creating a borrow request *)

Section CreateRequest.

Import BorrowEquipment.







(** A complete form with a later return date passes. *)
Example validateForm_passes :
  validateForm
    (mkState (mkFormData "3" "Digital Camera" "2025-11-05" "2025-11-10"
                "Photography project") ∅ false false) = ([setErrors ∅], true).
Proof. vm_compute. reflexivity. Qed.

(** The same form with the dates in the wrong order is refused. *)
Example validateForm_refuses :
  snd (validateForm
         (mkState (mkFormData "3" "Digital Camera" "2025-12-01" "2025-11-30"
                     "Photography project") ∅ false false)) = false.
Proof. vm_compute. reflexivity. Qed.

End CreateRequest.

(** ** The session store: storing, reading, headers *)

Section SessionStoreMore.

Import Api ApiSession.

Lemma getToken_setToken (token : string) (ls : Storage) :
  token <> EmptyString -> getToken (setToken token ls) = Some token.
Proof.
  intros Hne. unfold getToken, setToken.
  apply truthy_true in Hne. rewrite Hne. apply lookup_insert_eq.
Qed.

Lemma lookup_setToken_other (token : string) (ls : Storage) (k : string) :
  k <> TOKEN_KEY -> setToken token ls !! k = ls !! k.
Proof.
  intros Hk. unfold setToken. destruct (JS.truthy token); [|reflexivity].
  apply lookup_insert_ne. congruence.
Qed.

Lemma getUser_setUser (J : Type) (JSON_parse : string -> J) (j : string)
    (ls : Storage) :
  j <> EmptyString -> getUser JSON_parse (setUser (Some j) ls) = Some (JSON_parse j).
Proof.
  intros Hne. unfold getUser, setUser. rewrite lookup_insert_eq.
  apply truthy_true in Hne. rewrite Hne. reflexivity.
Qed.

Lemma getToken_setUser (userJSON : option string) (ls : Storage) :
  getToken (setUser userJSON ls) = getToken ls.
Proof.
  unfold getToken, setUser. destruct userJSON; [|reflexivity].
  apply lookup_insert_ne. discriminate.
Qed.

(** X1. A non-empty token is stored and read back; an empty one is not stored
    at all; no other key is touched. *)
Theorem setToken_getToken (token : string) (ls : Storage) :
  (token <> EmptyString -> getToken (setToken token ls) = Some token) /\
  setToken EmptyString ls = ls /\
  (forall k, k <> TOKEN_KEY -> setToken token ls !! k = ls !! k).
Proof.
  repeat split.
  - apply getToken_setToken.
  - intros k. apply lookup_setToken_other.
Qed.

Lemma setToken_getToken_witness :
  getToken (setToken "jwt" (<[USER_KEY := "{}"]> ∅)) = Some "jwt".
Proof.
  apply (setToken_getToken "jwt" (<[USER_KEY := "{}"]> ∅)). discriminate.
Defined.

(** X2. A stored user profile is read back through [JSON.parse]; storing no
    user changes nothing; the token is not touched. *)
Theorem setUser_getUser (J : Type) (JSON_parse : string -> J)
    (userJSON : option string) (ls : Storage) :
  (forall j, userJSON = Some j -> j <> EmptyString ->
             getUser JSON_parse (setUser userJSON ls) = Some (JSON_parse j)) /\
  (userJSON = None -> setUser userJSON ls = ls) /\
  getToken (setUser userJSON ls) = getToken ls.
Proof.
  repeat split.
  - intros j ->. apply getUser_setUser.
  - intros ->. reflexivity.
  - apply getToken_setUser.
Qed.

Lemma setUser_getUser_witness :
  getUser String.length (setUser (Some "{}") ∅) = Some 2%nat.
Proof.
  destruct (setUser_getUser nat String.length (Some "{}") ∅) as [H _].
  apply (H "{}"); [reflexivity | discriminate].
Defined.

(** X3. Clearing the token keeps the user profile and the other way round,
    and the two clearings commute. *)
Theorem clearToken_clearUser (J : Type) (JSON_parse : string -> J) (ls : Storage) :
  getToken (clearToken ls) = None /\
  getUser JSON_parse (clearToken ls) = getUser JSON_parse ls /\
  getUser JSON_parse (clearUser ls) = None /\
  getToken (clearUser ls) = getToken ls /\
  clearUser (clearToken ls) = clearToken (clearUser ls).
Proof.
  unfold getToken, getUser, clearToken, clearUser. repeat split.
  - apply lookup_delete_eq.
  - rewrite lookup_delete_ne by discriminate. reflexivity.
  - rewrite lookup_delete_eq. reflexivity.
  - apply lookup_delete_ne. discriminate.
  - apply delete_delete.
Qed.

(** X4. Every request carries the JSON content type and nothing but that and
    the bearer token: the [Authorization] header is there exactly for a
    stored token, and is gone after a logout. *)
Theorem getHeaders_authorization (token : string) (ls : Storage) :
  getHeaders ls !! "Content-Type" = Some "application/json" /\
  (forall k, k <> "Content-Type" -> k <> "Authorization" -> getHeaders ls !! k = None) /\
  (getToken ls = None -> getHeaders ls !! "Authorization" = None) /\
  (token <> EmptyString ->
   getHeaders (setToken token ls) !! "Authorization" = Some ("Bearer " ++ token)) /\
  getHeaders (authLogout ls) !! "Authorization" = None.
Proof.
  assert (Hnone : forall ls', getToken ls' = None ->
                              getHeaders ls' !! "Authorization" = None).
  { intros ls' H. unfold getHeaders. rewrite H. reflexivity. }
  repeat split.
  - unfold getHeaders. destruct (getToken ls) as [t|]; [|reflexivity].
    destruct (JS.truthy t); [|reflexivity].
    rewrite lookup_insert_ne by discriminate. reflexivity.
  - intros k Hc Ha. unfold getHeaders.
    destruct (getToken ls) as [t|]; [destruct (JS.truthy t)|];
      rewrite ?lookup_insert_ne by congruence;
      apply lookup_singleton_ne; congruence.
  - apply Hnone.
  - intros Hne. unfold getHeaders. rewrite (getToken_setToken token ls Hne).
    apply truthy_true in Hne. rewrite Hne. apply lookup_insert_eq.
  - apply Hnone. unfold getToken, authLogout, clearAuthData, clearUser, clearToken.
    rewrite lookup_delete_ne by discriminate. apply lookup_delete_eq.
Qed.

Lemma getHeaders_authorization_witness :
  getHeaders (setToken "jwt" ∅) !! "Authorization" = Some "Bearer jwt".
Proof.
  apply (getHeaders_authorization "jwt" ∅). discriminate.
Defined.

(** X5. A login or registration response without a token leaves the store as
    it is; one with a token stores the token, and stores the user when the
    response has one, keeping the previous profile when it has none. *)
Theorem authLogin_session (J : Type) (JSON_parse : string -> J)
    (data : option AuthData) (ls : Storage) :
  authRegister data ls = authLogin data ls /\
  (data = None -> authLogin data ls = ls) /\
  (forall d, data = Some d ->
     (data_token d = None \/ data_token d = Some EmptyString ->
      authLogin data ls = ls) /\
     (forall token, data_token d = Some token -> token <> EmptyString ->
        getToken (authLogin data ls) = Some token /\
        (forall j, data_user d = Some j -> j <> EmptyString ->
           getUser JSON_parse (authLogin data ls) = Some (JSON_parse j)) /\
        (data_user d = None ->
           getUser JSON_parse (authLogin data ls) = getUser JSON_parse ls))).
Proof.
  split; [reflexivity|]. split; [intros ->; reflexivity|].
  intros d ->. unfold authLogin. split.
  - intros [-> | ->]; reflexivity.
  - intros token -> Hne. pose proof Hne as Ht. apply truthy_true in Ht. rewrite Ht.
    repeat split.
    + rewrite getToken_setUser. apply getToken_setToken, Hne.
    + intros j -> Hjne. apply getUser_setUser, Hjne.
    + intros ->. simpl. unfold getUser.
      rewrite lookup_setToken_other by discriminate. reflexivity.
Qed.

Lemma authLogin_session_witness :
  getToken (authLogin (Some (mkAuthData (Some "jwt") None))
              (<[USER_KEY := "{}"]> ∅)) = Some "jwt".
Proof.
  destruct (authLogin_session nat String.length
              (Some (mkAuthData (Some "jwt") None)) (<[USER_KEY := "{}"]> ∅))
    as (_ & _ & H).
  destruct (H _ eq_refl) as [_ H2].
  destruct (H2 "jwt" eq_refl) as [Hget _]; [discriminate | exact Hget].
Defined.

Lemma authLogout_other_keys_witness :
  authLogout (<["theme" := "dark"]> (<[TOKEN_KEY := "jwt"]> ∅)) !! "theme"
  = Some "dark".
Proof.
  rewrite (authLogout_other_keys _ "theme"); [reflexivity | discriminate | discriminate].
Defined.

End SessionStoreMore.

(** ** RequestsManagement: counts, unknown ids, notes *)

Section RequestsPageMore.

Import RequestsManagement.

(** The number of requests of a status, the quantity behind
    [getStatusCount]. *)
Lemma getStatusCount_unfold (st : State) (s : Status) :
  getStatusCount st s =
  length (List.filter (fun req => bool_decide (status req = s)) (requests st)).
Proof. reflexivity. Qed.

(** Mapping an update over a list that does not hold the id is the
    identity. *)
Lemma map_update_absent (g : Request -> Request) (rid : Z) (l : list Request) :
  rid ∉ map id l ->
  map (fun req => if decide (id req = rid) then g req else req) l = l.
Proof.
  induction l as [|x l IH]; simpl; intros Hnot; [reflexivity|].
  apply not_elem_of_cons in Hnot as [Hx Hl].
  destruct (decide (id x = rid)) as [Heq|_]; [congruence|].
  rewrite IH by exact Hl. reflexivity.
Qed.

(** Updating the one request of an id moves one unit between the counts
    of its old and of its new status. *)
Lemma count_after_update (g : Request -> Request) (rid : Z) (s : Status)
    (l : list Request) (i : nat) (a : Request) :
  NoDup (map id l) -> l !! i = Some a -> id a = rid ->
  (length (List.filter (fun req => bool_decide (status req = s))
            (map (fun req => if decide (id req = rid) then g req else req) l))
   + (if bool_decide (status a = s) then 1 else 0)
   = length (List.filter (fun req => bool_decide (status req = s)) l)
     + (if bool_decide (status (g a) = s) then 1 else 0))%nat.
Proof.
  revert i. induction l as [|x l IH]; intros i Hnd Hi Hid; [discriminate Hi|].
  simpl in Hnd. apply NoDup_cons in Hnd as [Hx Hnd].
  destruct i as [|i]; simpl in Hi.
  - injection Hi as ->. simpl. subst rid.
    destruct (decide (id a = id a)) as [_|Hne]; [|contradiction].
    rewrite (map_update_absent g (id a) l Hx).
    destruct (bool_decide (status (g a) = s)), (bool_decide (status a = s));
      simpl; lia.
  - assert (Hne : id x <> rid).
    { intros Heq. apply Hx. rewrite Heq, <- Hid.
      apply list_elem_of_In, in_map, list_elem_of_In.
      eapply list_elem_of_lookup_2, Hi. }
    simpl. destruct (decide (id x = rid)) as [Heq|_]; [contradiction|].
    specialize (IH i Hnd Hi Hid).
    destruct (bool_decide (status x = s)); simpl; lia.
Qed.

(** X7. The four summary cards add up to the number of requests. *)
Theorem status_counts_total (st : State) :
  (getStatusCount st pending + getStatusCount st approved +
   getStatusCount st returned + getStatusCount st rejected)%nat
  = length (requests st).
Proof.
  rewrite !getStatusCount_unfold.
  induction (requests st) as [|x l IH]; [reflexivity|].
  simpl. destruct (status x); simpl; lia.
Qed.

(** X8. On a list with distinct ids, approving a pending request moves one
    unit from the pending to the approved count, rejecting it one unit
    from the pending to the rejected count, and returning an approved
    request one unit from the approved to the returned count; the other
    counts stay. *)
Theorem status_counts_after (user : User) (nowISO : string) (st : State)
    (requestId : Z) (i : nat) (req : Request) :
  NoDup (map id (requests st)) ->
  requests st !! i = Some req ->
  id req = requestId ->
  (status req = pending ->
   let st' := commit st (handleApprove user nowISO st requestId) in
   (getStatusCount st' pending + 1 = getStatusCount st pending)%nat /\
   (getStatusCount st' approved = getStatusCount st approved + 1)%nat /\
   getStatusCount st' rejected = getStatusCount st rejected /\
   getStatusCount st' returned = getStatusCount st returned) /\
  (status req = pending ->
   let st' := commit st (handleReject user nowISO st requestId) in
   (getStatusCount st' pending + 1 = getStatusCount st pending)%nat /\
   (getStatusCount st' rejected = getStatusCount st rejected + 1)%nat /\
   getStatusCount st' approved = getStatusCount st approved /\
   getStatusCount st' returned = getStatusCount st returned) /\
  (status req = approved ->
   let st' := commit st (handleMarkReturned st requestId) in
   (getStatusCount st' approved + 1 = getStatusCount st approved)%nat /\
   (getStatusCount st' returned = getStatusCount st returned + 1)%nat /\
   getStatusCount st' pending = getStatusCount st pending /\
   getStatusCount st' rejected = getStatusCount st rejected).
Proof.
  intros Hnd Hi Hid.
  split; [|split]; intros Hst st'; subst st'; rewrite !getStatusCount_unfold;
    [rewrite requests_handleApprove | rewrite requests_handleReject
     | rewrite requests_handleMarkReturned];
    match goal with
    | |- context [map (fun r => if decide (id r = requestId) then @?g r else r) _] =>
        pose proof (fun s => count_after_update g requestId s _ i req Hnd Hi Hid) as Hc
    end;
    pose proof (Hc pending) as Hp; pose proof (Hc approved) as Ha;
    pose proof (Hc rejected) as Hj; pose proof (Hc returned) as Hr;
    clear Hc; simpl in Hp, Ha, Hj, Hr; rewrite Hst in Hp, Ha, Hj, Hr;
    simpl in Hp, Ha, Hj, Hr; repeat split; lia.
Qed.

Lemma status_counts_after_witness :
  getStatusCount
    (commit initial
       (handleApprove (mkUser "3" "Admin User" "admin@example.com" admin)
          "2025-11-03T09:30:00.000Z" initial 1)) approved
  = (getStatusCount initial approved + 1)%nat.
Proof.
  destruct (status_counts_after
              (mkUser "3" "Admin User" "admin@example.com" admin)
              "2025-11-03T09:30:00.000Z" initial 1 0%nat
              (mkRequest 1 "John Student" "STU001" "student@example.com"
                 "Basketball Set" 1 "2025-11-02" "2025-11-05" "2025-11-10"
                 "Sports practice and tournament" pending None None None))
    as [H _].
  - apply (bool_decide_unpack _). vm_compute. exact I.
  - reflexivity.
  - reflexivity.
  - destruct (H eq_refl) as (_ & Happroved & _). exact Happroved.
Defined.

(** X9. A handler called with an id that no request has changes no request,
    and still closes the modal and reports success. *)
Theorem handlers_unknown_id (user : User) (nowISO : string) (st : State)
    (requestId : Z) :
  requestId ∉ map id (requests st) ->
  requests (commit st (handleApprove user nowISO st requestId)) = requests st /\
  requests (commit st (handleReject user nowISO st requestId)) = requests st /\
  requests (commit st (handleMarkReturned st requestId)) = requests st /\
  alerts (handleApprove user nowISO st requestId) = ["Request approved successfully!"] /\
  alerts (handleReject user nowISO st requestId) = ["Request rejected successfully!"] /\
  alerts (handleMarkReturned st requestId) = ["Equipment marked as returned!"].
Proof.
  intros Hnot.
  rewrite requests_handleApprove, requests_handleReject, requests_handleMarkReturned.
  rewrite !(map_update_absent _ requestId _ Hnot). repeat split.
Qed.

Lemma handlers_unknown_id_witness :
  requests (commit initial
    (handleApprove (mkUser "3" "Admin User" "admin@example.com" admin)
       "2025-11-03T09:30:00.000Z" initial 42)) = requests initial.
Proof.
  apply (handlers_unknown_id (mkUser "3" "Admin User" "admin@example.com" admin)
           "2025-11-03T09:30:00.000Z" initial 42).
  simpl. rewrite !elem_of_cons, elem_of_nil. intros H.
  repeat (destruct H as [H|H]; [discriminate H|]). exact H.
Defined.

End RequestsPageMore.

(** ** RequestsManagement: notes of a cancelled action *)

Section CancelledNotes.

Import RequestsManagement.

(** X10. Cancel closes the modal without clearing the notes: what was typed
    into a cancelled modal is recorded as the notes of the next approval
    that is confirmed without retyping. *)
Theorem cancelled_notes_carry_over (user : User) (st : State) (m : Modal)
    (s : string) (row : nat) (req : Request) (t1 t2 t3 t4 : string) :
  actionModal st = Some m ->
  getFilteredRequests st !! row = Some req ->
  status req = pending ->
  exists final,
    last (run user st [ (t1, typeNotes s); (t2, cancelModal);
                        (t3, clickAction row approve); (t4, confirmModal) ])
      = Some final /\
    actionModal final = None /\
    forall i a, requests st !! i = Some a -> id a = id req ->
      notes <$> requests final !! i = Some (Some s).
Proof.
  intros Hm Hrow Hst.
  set (st1 := mkState (requests st) (searchTerm st) (filterStatus st)
                (Some m) s (viewDetails st)).
  set (st2 := mkState (requests st) (searchTerm st) (filterStatus st)
                None s (viewDetails st)).
  set (st3 := mkState (requests st) (searchTerm st) (filterStatus st)
                (Some (mkModal (id req) approve)) s (viewDetails st)).
  assert (H1 : step user t1 st (typeNotes s) = st1).
  { unfold step, handle. rewrite Hm. unfold st1. simpl. rewrite Hm. reflexivity. }
  assert (H2 : step user t2 st1 cancelModal = st2) by reflexivity.
  assert (H3 : step user t3 st2 (clickAction row approve) = st3).
  { unfold step, handle.
    change (getFilteredRequests st2) with (getFilteredRequests st).
    rewrite Hrow. simpl button_status.
    destruct (decide (status req = pending)); [reflexivity | contradiction]. }
  exists (step user t4 st3 confirmModal).
  split; [|split].
  - simpl run. rewrite H1, H2, H3. reflexivity.
  - reflexivity.
  - intros i a Ha Hid.
    change (requests (step user t4 st3 confirmModal))
      with (requests (commit st3 (handleApprove user t4 st3 (id req)))).
    rewrite requests_handleApprove, map_lookup.
    change (requests st3) with (requests st). rewrite Ha. simpl.
    destruct (decide (id a = id req)); [reflexivity | contradiction].
Qed.

Lemma cancelled_notes_carry_over_witness :
  exists final,
    last (run (mkUser "3" "Admin User" "admin@example.com" admin)
            (mkState mockRequestsData EmptyString all (Some (mkModal 2 reject))
               EmptyString None)
            [ ("t1", typeNotes "damaged"); ("t2", cancelModal);
              ("t3", clickAction 0 approve); ("t4", confirmModal) ])
      = Some final /\
    notes <$> requests final !! 0%nat = Some (Some "damaged").
Proof.
  destruct (cancelled_notes_carry_over
              (mkUser "3" "Admin User" "admin@example.com" admin)
              (mkState mockRequestsData EmptyString all (Some (mkModal 2 reject))
                 EmptyString None)
              (mkModal 2 reject) "damaged" 0%nat
              (mkRequest 1 "John Student" "STU001" "student@example.com"
                 "Basketball Set" 1 "2025-11-02" "2025-11-05" "2025-11-10"
                 "Sports practice and tournament" pending None None None)
              "t1" "t2" "t3" "t4" eq_refl eq_refl eq_refl)
    as (final & Hlast & _ & Hnotes).
  exists final. split; [exact Hlast|]. apply (Hnotes 0%nat _ eq_refl eq_refl).
Defined.

End CancelledNotes.

(** ** AdminDashboard: the pending list *)

Section DashboardPending.

Import AdminDashboard.
Import RequestsManagement (Status, pending, approved, rejected, returned).

Lemma dashboard_requests_approve (st : State) (rid : Z) :
  requests (commit st (handleApproveRequest st rid)) =
  map (fun req => if decide (id req = rid)
                  then mkRequest (id req) (studentName req) (studentId req)
                         (equipmentName req) (requestedDate req) approved
                  else req) (requests st).
Proof. reflexivity. Qed.

Lemma dashboard_requests_reject (st : State) (rid : Z) :
  requests (commit st (handleRejectRequest st rid)) =
  map (fun req => if decide (id req = rid)
                  then mkRequest (id req) (studentName req) (studentId req)
                         (equipmentName req) (requestedDate req) rejected
                  else req) (requests st).
Proof. reflexivity. Qed.

Lemma dashboard_pending_after_update (g : Request -> Request) (rid : Z)
    (l : list Request) (i : nat) (a : Request) :
  NoDup (map id l) -> l !! i = Some a -> id a = rid ->
  status a = pending -> status (g a) <> pending ->
  (length (List.filter (fun req => bool_decide (status req = pending))
            (map (fun req => if decide (id req = rid) then g req else req) l)) + 1
   = length (List.filter (fun req => bool_decide (status req = pending)) l))%nat.
Proof.
  revert i. induction l as [|x l IH]; intros i Hnd Hi Hid Hs Hg; [discriminate Hi|].
  simpl in Hnd. apply NoDup_cons in Hnd as [Hx Hnd].
  destruct i as [|i]; simpl in Hi.
  - injection Hi as ->. simpl. subst rid.
    destruct (decide (id a = id a)) as [_|Hne]; [|contradiction].
    assert (Hrest : map (fun req => if decide (id req = id a) then g req else req) l = l).
    { clear -Hx. induction l as [|y l IH]; simpl; [reflexivity|].
      simpl in Hx. apply not_elem_of_cons in Hx as [Hy Hl].
      destruct (decide (id y = id a)); [congruence|]. rewrite IH by exact Hl.
      reflexivity. }
    rewrite Hrest.
    rewrite (bool_decide_eq_false_2 _ Hg), (bool_decide_eq_true_2 _ Hs). simpl. lia.
  - assert (Hne : id x <> rid).
    { intros Heq. apply Hx. rewrite Heq, <- Hid.
      apply list_elem_of_In, in_map, list_elem_of_In.
      eapply list_elem_of_lookup_2, Hi. }
    simpl. destruct (decide (id x = rid)) as [Heq|_]; [contradiction|].
    specialize (IH i Hnd Hi Hid Hs Hg).
    destruct (bool_decide (status x = pending)); simpl; lia.
Qed.

(** X11. On the dashboard, whose ids are distinct, approving or rejecting a
    pending request takes exactly that request off the pending list: the
    pending count goes down by one and every other request stays as it
    is. *)
Theorem dashboard_pending_count (st : State) (requestId : Z) (i : nat)
    (req : Request) :
  NoDup (map id (requests st)) ->
  requests st !! i = Some req ->
  id req = requestId ->
  status req = pending ->
  (getPendingRequestsCount (commit st (handleApproveRequest st requestId)) + 1
   = getPendingRequestsCount st)%nat /\
  (getPendingRequestsCount (commit st (handleRejectRequest st requestId)) + 1
   = getPendingRequestsCount st)%nat /\
  (forall j r, requests st !! j = Some r -> id r <> requestId ->
     requests (commit st (handleApproveRequest st requestId)) !! j = Some r /\
     requests (commit st (handleRejectRequest st requestId)) !! j = Some r).
Proof.
  intros Hnd Hi Hid Hs. unfold getPendingRequestsCount.
  rewrite dashboard_requests_approve, dashboard_requests_reject.
  split; [|split].
  - apply (dashboard_pending_after_update _ requestId _ i req); trivial. discriminate.
  - apply (dashboard_pending_after_update _ requestId _ i req); trivial. discriminate.
  - intros j r Hj Hne. rewrite !map_lookup, Hj. simpl.
    destruct (decide (id r = requestId)); [contradiction|]. split; reflexivity.
Qed.

Lemma dashboard_pending_count_witness :
  (getPendingRequestsCount
     (commit (mkState mockRecentRequests None)
        (handleApproveRequest (mkState mockRecentRequests None) 2)) + 1
   = 5)%nat.
Proof.
  destruct (dashboard_pending_count (mkState mockRecentRequests None) 2 1%nat
              (mkRequest 2 "Jane Doe" "STU002" "Microscope" "2025-11-02" pending))
    as [H _].
  - apply (bool_decide_unpack _). vm_compute. exact I.
  - reflexivity.
  - reflexivity.
  - reflexivity.
  - exact H.
Defined.

End DashboardPending.

(** ** StudentDashboard: borrowing from the grid *)

Section DashboardBorrow.

Import StudentDashboard.

Lemma borrowRequests_submit (user : User) (localeDate : string) (st : State)
    (selected : Equipment) :
  selectedEquipmentForBorrow st = Some selected ->
  commit st (handleSubmitBorrow user localeDate st) =
  mkState (equipment st)
    (borrowRequests st ++
       [mkBorrowRequest (Z.of_nat (length (borrowRequests st)) + 1)
          (user_id user) (user_name user) (id selected) (name selected)
          localeDate localeDate RequestsManagement.pending])
    false None.
Proof.
  intros Hsel. unfold handleSubmitBorrow. rewrite Hsel. reflexivity.
Qed.

(** X12. The ids handed out by the borrow modal count up from 1: when the
    requests so far are numbered 1..n, the new one gets n+1, so the ids
    stay distinct. *)
Theorem borrow_request_ids (user : User) (localeDate : string) (st : State)
    (selected : Equipment) :
  selectedEquipmentForBorrow st = Some selected ->
  map req_id (borrowRequests st)
    = seqZ 1 (Z.of_nat (length (borrowRequests st))) ->
  let st' := commit st (handleSubmitBorrow user localeDate st) in
  length (borrowRequests st') = S (length (borrowRequests st)) /\
  map req_id (borrowRequests st')
    = seqZ 1 (Z.of_nat (length (borrowRequests st'))) /\
  NoDup (map req_id (borrowRequests st')).
Proof.
  intros Hsel Hids st'. subst st'. rewrite (borrowRequests_submit _ _ _ _ Hsel).
  simpl borrowRequests.
  assert (Hlen : length (borrowRequests st ++
                   [mkBorrowRequest (Z.of_nat (length (borrowRequests st)) + 1)
                      (user_id user) (user_name user) (id selected) (name selected)
                      localeDate localeDate RequestsManagement.pending])
                 = S (length (borrowRequests st))).
  { rewrite length_app. simpl. lia. }
  assert (Hmap : map req_id (borrowRequests st ++
                   [mkBorrowRequest (Z.of_nat (length (borrowRequests st)) + 1)
                      (user_id user) (user_name user) (id selected) (name selected)
                      localeDate localeDate RequestsManagement.pending])
                 = seqZ 1 (Z.of_nat (S (length (borrowRequests st))))).
  { rewrite List.map_app, Hids, seqZ_S. simpl. do 2 f_equal. lia. }
  split; [exact Hlen|]. split.
  - rewrite Hlen. exact Hmap.
  - rewrite Hmap. apply NoDup_seqZ.
Qed.

Lemma borrow_request_ids_witness :
  map req_id
    (borrowRequests
       (commit
          (mkState mockEquipmentData
             [ mkBorrowRequest 1 "1" "John Student" 1 "Basketball Set"
                 "11/1/2025" "11/1/2025" RequestsManagement.pending;
               mkBorrowRequest 2 "1" "John Student" 7 "Projector"
                 "11/2/2025" "11/2/2025" RequestsManagement.pending ]
             true
             (Some (mkEquipment 4 "Guitar" "Musical"
                      "Acoustic guitar with case and accessories" "Good" 3 1 None)))
          (handleSubmitBorrow
             (mkUser "1" "John Student" "student@example.com" student) "11/3/2025"
             (mkState mockEquipmentData
                [ mkBorrowRequest 1 "1" "John Student" 1 "Basketball Set"
                    "11/1/2025" "11/1/2025" RequestsManagement.pending;
                  mkBorrowRequest 2 "1" "John Student" 7 "Projector"
                    "11/2/2025" "11/2/2025" RequestsManagement.pending ]
                true
                (Some (mkEquipment 4 "Guitar" "Musical"
                         "Acoustic guitar with case and accessories"
                         "Good" 3 1 None))))))
  = [1; 2; 3].
Proof.
  destruct (borrow_request_ids
              (mkUser "1" "John Student" "student@example.com" student) "11/3/2025"
              (mkState mockEquipmentData
                 [ mkBorrowRequest 1 "1" "John Student" 1 "Basketball Set"
                     "11/1/2025" "11/1/2025" RequestsManagement.pending;
                   mkBorrowRequest 2 "1" "John Student" 7 "Projector"
                     "11/2/2025" "11/2/2025" RequestsManagement.pending ]
                 true
                 (Some (mkEquipment 4 "Guitar" "Musical"
                          "Acoustic guitar with case and accessories"
                          "Good" 3 1 None)))
              (mkEquipment 4 "Guitar" "Musical"
                 "Acoustic guitar with case and accessories" "Good" 3 1 None))
    as (Hlen & Hids & _).
  - reflexivity.
  - reflexivity.
  - rewrite Hids, Hlen. reflexivity.
Defined.

(** X13. Borrowing from the grid: clicking an item and confirming appends one
    pending request for that item and that user, whatever the item's
    available count, and closes the modal; confirming once more, or with
    nothing selected, does nothing. *)
Theorem borrow_flow (user : User) (d1 d2 : string) (st : State) (item : Equipment) :
  let st1 := commit st (handleBorrowClick item) in
  let st2 := commit st1 (handleSubmitBorrow user d1 st1) in
  borrowRequests st2 =
    (borrowRequests st ++
       [mkBorrowRequest (Z.of_nat (length (borrowRequests st)) + 1)
          (user_id user) (user_name user) (id item) (name item)
          d1 d1 RequestsManagement.pending])%list /\
  equipment st2 = equipment st /\
  showBorrowModal st2 = false /\
  handleSubmitBorrow user d2 st2 = [] /\
  (selectedEquipmentForBorrow st = None -> handleSubmitBorrow user d1 st = []).
Proof.
  repeat split. intros Hnone. unfold handleSubmitBorrow. rewrite Hnone. reflexivity.
Qed.

End DashboardBorrow.

(** ** The equipment grid: filters and categories *)

Section GridFilters.

Import EquipmentGrid.

Lemma new_Set_spec (seen values : list string) (v : string) :
  v ∈ new_Set seen values <-> v ∈ values /\ v ∉ seen.
Proof.
  revert seen. induction values as [|x values IH]; intros seen; simpl.
  - rewrite elem_of_nil. tauto.
  - destruct (bool_decide (x ∈ seen)) eqn:Hx.
    + apply bool_decide_eq_true in Hx. rewrite IH, elem_of_cons. split.
      * tauto.
      * intros [[->|Hv] Hn]; [contradiction | tauto].
    + apply bool_decide_eq_false in Hx. rewrite !elem_of_cons, IH, elem_of_cons.
      split.
      * intros [->|[Hv Hn]]; [tauto|]. split; [tauto|]. tauto.
      * intros [[->|Hv] Hn]; [tauto|].
        destruct (decide (v = x)) as [->|Hne]; [tauto|]. right. tauto.
Qed.

Lemma new_Set_NoDup (seen values : list string) : NoDup (new_Set seen values).
Proof.
  revert seen. induction values as [|x values IH]; intros seen; simpl.
  - apply NoDup_nil_2.
  - destruct (bool_decide (x ∈ seen)); [apply IH|].
    apply NoDup_cons_2; [|apply IH].
    rewrite new_Set_spec, elem_of_cons. tauto.
Qed.

Lemma new_Set_sublist (seen values : list string) :
  sublist (new_Set seen values) values.
Proof.
  revert seen. induction values as [|x values IH]; intros seen; simpl.
  - constructor.
  - destruct (bool_decide (x ∈ seen)); [apply sublist_cons | apply sublist_skip];
      apply IH.
Qed.

Lemma new_Set_snoc (seen values : list string) (v : string) :
  new_Set seen (values ++ [v]) =
  (new_Set seen values ++
     (if bool_decide (v ∈ seen \/ v ∈ values) then [] else [v]))%list.
Proof.
  revert seen. induction values as [|x values IH]; intros seen; simpl.
  - destruct (bool_decide (v ∈ seen)) eqn:Hv.
    + apply bool_decide_eq_true in Hv. rewrite bool_decide_eq_true_2 by tauto.
      reflexivity.
    + apply bool_decide_eq_false in Hv. rewrite bool_decide_eq_false_2; [reflexivity|].
      rewrite elem_of_nil. tauto.
  - destruct (bool_decide (x ∈ seen)) eqn:Hx.
    + apply bool_decide_eq_true in Hx. rewrite IH.
      rewrite (bool_decide_ext (v ∈ seen \/ v ∈ values)
                 (v ∈ seen \/ v ∈ x :: values)); [reflexivity|].
      rewrite elem_of_cons. split; [tauto|].
      intros [H|[->|H]]; tauto.
    + rewrite IH. simpl.
      rewrite (bool_decide_ext (v ∈ x :: seen \/ v ∈ values)
                 (v ∈ seen \/ v ∈ x :: values)); [reflexivity|].
      rewrite !elem_of_cons. tauto.
Qed.

(** X14. The category menu lists every category of the equipment exactly
    once, in the order of first appearance: an item added at the end of
    the list adds its category at the end of the menu when the category
    is new, and changes nothing otherwise. *)
Theorem getCategories_spec (equipment : list StudentDashboard.Equipment)
    (item : StudentDashboard.Equipment) :
  NoDup (getCategories equipment) /\
  (forall c, c ∈ getCategories equipment <->
             exists item, item ∈ equipment /\ StudentDashboard.category item = c) /\
  getCategories [] = [] /\
  getCategories (equipment ++ [item]) =
    (getCategories equipment ++
       (if bool_decide (StudentDashboard.category item ∈ getCategories equipment)
        then [] else [StudentDashboard.category item]))%list.
Proof.
  assert (Hmem : forall c, c ∈ getCategories equipment <->
            exists item, item ∈ equipment /\ StudentDashboard.category item = c).
  { intros c. unfold getCategories.
    rewrite new_Set_spec, list_elem_of_In, in_map_iff. split.
    - intros [(it & Hc & Hin) _]. exists it. rewrite list_elem_of_In. tauto.
    - intros (it & Hin & Hc). split; [|apply not_elem_of_nil].
      exists it. rewrite <- list_elem_of_In. tauto. }
  split; [apply new_Set_NoDup|]. split; [exact Hmem|]. split; [reflexivity|].
  unfold getCategories. rewrite List.map_app. simpl map. rewrite new_Set_snoc.
  rewrite (bool_decide_ext
             (StudentDashboard.category item ∈ []
              \/ StudentDashboard.category item
                  ∈ map StudentDashboard.category equipment)
             (StudentDashboard.category item
                ∈ new_Set [] (map StudentDashboard.category equipment)));
    [reflexivity|].
  rewrite new_Set_spec, elem_of_nil. tauto.
Qed.

(** The menu of the dashboard's mock data, in the order the categories
    first appear. *)
Example getCategories_mock :
  getCategories StudentDashboard.mockEquipmentData
  = ["Sports"; "Lab"; "Camera"; "Musical"; "Computing"; "Tools"].
Proof. reflexivity. Qed.

Lemma grid_search_spec (toLowerCase : string -> string) (term : string)
    (item : StudentDashboard.Equipment) :
  matches_search toLowerCase term item = true <->
  exists pre post,
    toLowerCase (StudentDashboard.name item) = pre ++ toLowerCase term ++ post \/
    toLowerCase (StudentDashboard.description item)
      = pre ++ toLowerCase term ++ post.
Proof.
  unfold matches_search. rewrite orb_true_iff, !includes_spec. split.
  - intros [(pre & post & H)|(pre & post & H)]; exists pre, post; tauto.
  - intros (pre & post & [H|H]); [left|right]; exists pre, post; exact H.
Qed.

(** X15. The grid shows, in their order, exactly the items that pass the
    three filters: the search box is empty or its text occurs in the name
    or the description once both are lower-cased by [toLowerCase]
    (whatever that function does outside ASCII), the category is the
    selected one unless 'all' is selected, and the available count is
    positive for 'available' and 0 for 'unavailable'.  After
    [handleClearFilters] every item is shown. *)
Theorem filteredEquipment_spec (toLowerCase : string -> string)
    (equipment : list StudentDashboard.Equipment) (f : Filters) :
  (forall item, item ∈ filteredEquipment toLowerCase equipment f <->
                item ∈ equipment /\ passes toLowerCase f item) /\
  sublist (filteredEquipment toLowerCase equipment f) equipment /\
  filteredEquipment toLowerCase equipment (commit f handleClearFilters) = equipment.
Proof.
  split; [|split].
  - intros item. unfold filteredEquipment, passes.
    set (l1 := if JS.truthy (searchTerm f)
               then List.filter (matches_search toLowerCase (searchTerm f)) equipment
               else equipment).
    set (l2 := if negb (String.eqb (selectedCategory f) "all")
               then List.filter
                      (fun item => String.eqb (StudentDashboard.category item)
                                     (selectedCategory f)) l1
               else l1).
    assert (H1 : item ∈ l1 <->
                 item ∈ equipment /\
                 (searchTerm f = EmptyString \/
                  exists pre post,
                    toLowerCase (StudentDashboard.name item)
                      = pre ++ toLowerCase (searchTerm f) ++ post \/
                    toLowerCase (StudentDashboard.description item)
                      = pre ++ toLowerCase (searchTerm f) ++ post)).
    { unfold l1. destruct (JS.truthy (searchTerm f)) eqn:Ht.
      - apply truthy_true in Ht.
        rewrite elem_of_List_filter, grid_search_spec. tauto.
      - apply truthy_false in Ht. tauto. }
    assert (H2 : item ∈ l2 <->
                 item ∈ l1 /\
                 (selectedCategory f = "all" \/
                  StudentDashboard.category item = selectedCategory f)).
    { unfold l2. destruct (String.eqb_spec (selectedCategory f) "all") as [He|Hne]; simpl.
      - tauto.
      - rewrite elem_of_List_filter, String.eqb_eq. tauto. }
    destruct (String.eqb_spec (selectedAvailability f) "available") as [Ha|Hna].
    + rewrite elem_of_List_filter, Z.ltb_lt, H2, H1, Ha. split.
      * intros [[[Hin Hs] Hc] Hav]. repeat split; trivial. discriminate.
      * intros (Hin & Hs & Hc & Hav & _). tauto.
    + destruct (String.eqb_spec (selectedAvailability f) "unavailable") as [Hu|Hnu].
      * rewrite elem_of_List_filter, Z.eqb_eq, H2, H1, Hu. split.
        -- intros [[[Hin Hs] Hc] Hav]. repeat split; trivial. discriminate.
        -- intros (Hin & Hs & Hc & _ & Hav). tauto.
      * rewrite H2, H1. tauto.
  - unfold filteredEquipment.
    repeat match goal with
           | |- context [if ?b then _ else _] => destruct b
           end;
      repeat (etransitivity; [apply List_filter_sublist|]); reflexivity.
  - reflexivity.
Qed.

End GridFilters.

(** ** EquipmentManagement: the equipment form *)

Section EquipmentForm.

Import EquipmentManagement.

Lemma truthy_number_false (field : option Z) :
  truthy_number field = false <-> field = None \/ field = Some 0.
Proof.
  destruct field as [n|]; simpl.
  - rewrite negb_false_iff, Z.eqb_eq. split.
    + intros ->. right. reflexivity.
    + intros [H|H]; [discriminate H | congruence].
  - split; [intros _; left; reflexivity | reflexivity].
Qed.

Lemma truthy_number_true (field : option Z) :
  truthy_number field = true <-> exists n, field = Some n /\ n <> 0.
Proof.
  destruct field as [n|]; simpl.
  - rewrite negb_true_iff, Z.eqb_neq. split.
    + intros H. exists n. tauto.
    + intros (n' & Hn & Hne). congruence.
  - split; [discriminate | intros (n & H & _); discriminate H].
Qed.

Lemma refused_check (fd : FormData) :
  negb (JS.truthy (form_name fd)) || negb (truthy_number (form_quantity fd))
    || negb (truthy_number (form_available fd)) = true <-> refused fd.
Proof.
  unfold refused.
  rewrite !orb_true_iff, !negb_true_iff, truthy_false, !truthy_number_false. tauto.
Qed.

Lemma refused_dec (fd : FormData) : refused fd \/ ~ refused fd.
Proof.
  rewrite <- refused_check.
  destruct (negb (JS.truthy (form_name fd)) || negb (truthy_number (form_quantity fd))
            || negb (truthy_number (form_available fd))); [left | right];
    congruence.
Qed.

Lemma handleSubmitForm_refused (st : State) :
  refused (formData st) ->
  handleSubmitForm st = [alert "Please fill in all required fields"].
Proof.
  intros H. apply refused_check in H. unfold handleSubmitForm. rewrite H. reflexivity.
Qed.

Lemma handleSubmitForm_accepted (st : State) :
  ~ refused (formData st) ->
  handleSubmitForm st =
  (match modalMode st with
   | add =>
       [ setEquipment
           (equipment st ++
              [overwrite (Z.of_nat (length (equipment st)) + 1) (formData st)]);
         alert "Equipment added successfully!" ]
   | edit =>
       [ setEquipment
           (map (fun item =>
                   if bool_decide (Some (id item) = editingId st)
                   then overwrite (id item) (formData st) else item)
              (equipment st));
         alert "Equipment updated successfully!" ]
   end ++ [setShowModal false])%list.
Proof.
  intros H. rewrite <- refused_check in H. apply not_true_is_false in H.
  unfold handleSubmitForm. rewrite H. reflexivity.
Qed.

(** X16. The equipment form is refused exactly when the name is empty or the
    quantity or the available count is empty or 0; a refused form changes
    nothing and keeps the modal open, an accepted one closes it. *)
Theorem handleSubmitForm_validation (st : State) :
  (handleSubmitForm st = [alert "Please fill in all required fields"] <->
   form_name (formData st) = EmptyString \/
   form_quantity (formData st) = None \/ form_quantity (formData st) = Some 0 \/
   form_available (formData st) = None \/ form_available (formData st) = Some 0) /\
  (handleSubmitForm st = [alert "Please fill in all required fields"] ->
   commit st (handleSubmitForm st) = st) /\
  (handleSubmitForm st <> [alert "Please fill in all required fields"] ->
   showModal (commit st (handleSubmitForm st)) = false /\
   (alerts (handleSubmitForm st) = ["Equipment added successfully!"] \/
    alerts (handleSubmitForm st) = ["Equipment updated successfully!"])).
Proof.
  split; [|split].
  - split.
    + intros H. destruct (refused_dec (formData st)) as [Hr|Hn]; [exact Hr|].
      rewrite (handleSubmitForm_accepted st Hn) in H.
      destruct (modalMode st); discriminate H.
    + apply handleSubmitForm_refused.
  - intros ->. reflexivity.
  - intros H. destruct (refused_dec (formData st)) as [Hr|Hn].
    + exfalso. apply H, handleSubmitForm_refused, Hr.
    + rewrite (handleSubmitForm_accepted st Hn).
      destruct (modalMode st); split; auto.
Qed.

(** X17. Adding appends one item that carries the form's fields and the id
    [length + 1], without comparing the available count with the
    quantity; on a list numbered 1..n the ids stay 1..n+1. *)
Theorem add_equipment (st : State) (q a : Z) :
  modalMode st = add ->
  form_name (formData st) <> EmptyString ->
  form_quantity (formData st) = Some q -> q <> 0 ->
  form_available (formData st) = Some a -> a <> 0 ->
  let st' := commit st (handleSubmitForm st) in
  equipment st' =
    (equipment st ++
       [mkEquipment (Z.of_nat (length (equipment st)) + 1)
          (form_name (formData st)) (form_category (formData st))
          (form_description (formData st)) (form_condition (formData st))
          q a (form_location (formData st))])%list /\
  alerts (handleSubmitForm st) = ["Equipment added successfully!"] /\
  (map id (equipment st) = seqZ 1 (Z.of_nat (length (equipment st))) ->
   map id (equipment st') = seqZ 1 (Z.of_nat (length (equipment st'))) /\
   NoDup (map id (equipment st'))).
Proof.
  intros Hmode Hname Hq Hq0 Ha Ha0 st'. subst st'.
  assert (Hn : ~ refused (formData st)).
  { unfold refused. rewrite Hq, Ha. intros [H|[H|[H|[H|H]]]]; congruence. }
  rewrite (handleSubmitForm_accepted st Hn), Hmode.
  unfold overwrite. rewrite Hq, Ha. simpl.
  split; [reflexivity|]. split; [reflexivity|].
  intros Hids.
  assert (Hmap : map id (equipment st ++
                   [mkEquipment (Z.of_nat (length (equipment st)) + 1)
                      (form_name (formData st)) (form_category (formData st))
                      (form_description (formData st)) (form_condition (formData st))
                      q a (form_location (formData st))])
                 = seqZ 1 (Z.of_nat (S (length (equipment st))))).
  { rewrite List.map_app, Hids, seqZ_S. simpl. do 2 f_equal. lia. }
  rewrite length_app. simpl length.
  replace (length (equipment st) + 1)%nat with (S (length (equipment st))) by lia.
  split; [exact Hmap|]. rewrite Hmap. apply NoDup_seqZ.
Qed.

Lemma add_equipment_witness :
  alerts (handleSubmitForm
            (mkState mockEquipmentData true add EmptyString "all"
               (mkFormData "Tripod" "Camera" "Light tripod" "Good"
                  (Some 2) (Some 5) "Media Room") None None))
  = ["Equipment added successfully!"].
Proof.
  apply (add_equipment
           (mkState mockEquipmentData true add EmptyString "all"
              (mkFormData "Tripod" "Camera" "Light tripod" "Good"
                 (Some 2) (Some 5) "Media Room") None None) 2 5);
    solve [reflexivity | discriminate].
Defined.

Lemma map_edit_same (eid : Z) (l : list Equipment) (item : Equipment) :
  NoDup (map id l) -> item ∈ l -> id item = eid ->
  map (fun x => if bool_decide (Some (id x) = Some eid) then item else x) l = l.
Proof.
  intros Hnd Hin Hid. induction l as [|x l IH]; [reflexivity|].
  simpl in Hnd. apply NoDup_cons in Hnd as [Hx Hnd]. simpl.
  assert (Hmem : forall y, y ∈ l -> id y ∈ map id l).
  { intros y Hy. apply list_elem_of_In, in_map, list_elem_of_In, Hy. }
  apply elem_of_cons in Hin as [->|Hin].
  - rewrite bool_decide_eq_true_2 by congruence. f_equal.
    clear IH. induction l as [|y l IH]; [reflexivity|]. simpl.
    simpl in Hx. apply not_elem_of_cons in Hx as [Hy Hl].
    apply NoDup_cons in Hnd as [_ Hnd].
    rewrite bool_decide_eq_false_2 by congruence.
    f_equal. apply IH; trivial. intros z Hz.
    apply list_elem_of_In, in_map, list_elem_of_In, Hz.
  - rewrite bool_decide_eq_false_2.
    + f_equal. apply IH; trivial.
    + intros Heq. injection Heq as Heq. apply Hx. rewrite Heq, <- Hid. auto.
Qed.

(** X18. Opening the edit form of an item and saving it unchanged leaves the
    list as it is, provided the ids are distinct; but an item whose
    available count (or quantity) is 0, or whose name is empty, cannot be
    saved from its own edit form: the form is refused. *)
Theorem edit_round_trip (st : State) (item : Equipment) :
  NoDup (map id (equipment st)) ->
  item ∈ equipment st ->
  let st1 := commit st (handleEditEquipment item) in
  (name item <> EmptyString -> quantity item <> 0 -> available item <> 0 ->
   equipment (commit st1 (handleSubmitForm st1)) = equipment st /\
   showModal (commit st1 (handleSubmitForm st1)) = false) /\
  (name item = EmptyString \/ quantity item = 0 \/ available item = 0 ->
   handleSubmitForm st1 = [alert "Please fill in all required fields"] /\
   showModal (commit st1 (handleSubmitForm st1)) = true).
Proof.
  intros Hnd Hin st1. split.
  - intros Hname Hq Ha.
    assert (Hn : ~ refused (formData st1)).
    { unfold refused. simpl. intros [H|[H|[H|[H|H]]]]; congruence. }
    rewrite (handleSubmitForm_accepted st1 Hn). simpl. split; [|reflexivity].
    assert (Hsame : overwrite (id item)
                      (mkFormData (name item) (category item) (description item)
                         (condition item) (Some (quantity item))
                         (Some (available item)) (location item)) = item).
    { destruct item. reflexivity. }
    rewrite <- (map_edit_same (id item) (equipment st) item Hnd Hin eq_refl) at 2.
    apply map_ext_in. intros x Hx.
    destruct (bool_decide (Some (id x) = Some (id item))) eqn:Hb; [|reflexivity].
    apply bool_decide_eq_true in Hb. injection Hb as Hb.
    rewrite Hb. exact Hsame.
  - intros Hbad.
    assert (Hr : refused (formData st1)).
    { unfold refused. simpl. destruct Hbad as [H|[H|H]]; rewrite ?H; tauto. }
    rewrite (handleSubmitForm_refused st1 Hr). split; reflexivity.
Qed.

Lemma edit_round_trip_witness :
  equipment
    (commit (commit initial (handleEditEquipment
                               (mkEquipment 2 "Microscope" "Lab"
                                  "Advanced optical microscope for laboratory work"
                                  "Excellent" 10 8 "Lab 1")))
       (handleSubmitForm
          (commit initial (handleEditEquipment
                             (mkEquipment 2 "Microscope" "Lab"
                                "Advanced optical microscope for laboratory work"
                                "Excellent" 10 8 "Lab 1")))))
  = equipment initial.
Proof.
  destruct (edit_round_trip initial
              (mkEquipment 2 "Microscope" "Lab"
                 "Advanced optical microscope for laboratory work"
                 "Excellent" 10 8 "Lab 1")) as [H _].
  - apply (bool_decide_unpack _). vm_compute. exact I.
  - apply (list_elem_of_lookup_2 _ 1%nat). reflexivity.
  - apply H; simpl; discriminate.
Defined.

End EquipmentForm.

(** ** EquipmentManagement: deleting, and the ids of new items *)

Section EquipmentDelete.

Import EquipmentManagement.

Lemma equipment_after_delete (st : State) (target : Z) :
  commit st (handleDeleteEquipment st target) =
  mkState (List.filter (fun item => negb (id item =? target)) (equipment st))
    (showModal st) (modalMode st) (searchTerm st) (selectedCategory st)
    (formData st) (editingId st) None.
Proof. reflexivity. Qed.

Lemma filter_other_ids_absent (target : Z) (l : list Equipment) :
  target ∉ map id l ->
  List.filter (fun item => negb (id item =? target)) l = l.
Proof.
  induction l as [|x l IH]; simpl; intros Hnot; [reflexivity|].
  apply not_elem_of_cons in Hnot as [Hx Hl].
  destruct (Z.eqb_spec (id x) target) as [Heq|_]; [congruence|]. simpl.
  rewrite IH by exact Hl. reflexivity.
Qed.

Lemma filter_other_ids_length (target : Z) (l : list Equipment) :
  NoDup (map id l) -> target ∈ map id l ->
  S (length (List.filter (fun item => negb (id item =? target)) l)) = length l.
Proof.
  induction l as [|x l IH]; simpl; intros Hnd Hin.
  - apply elem_of_nil in Hin. contradiction.
  - apply NoDup_cons in Hnd as [Hx Hnd].
    destruct (Z.eqb_spec (id x) target) as [Heq|Hne]; simpl.
    + rewrite filter_other_ids_absent by congruence. reflexivity.
    + apply elem_of_cons in Hin as [Hin|Hin]; [congruence|].
      rewrite IH by assumption. reflexivity.
Qed.

(** X19. Deleting removes exactly the items of the given id and keeps the
    others in their order; for an id that no item has, the list stays as
    it is, and the success message is shown all the same. *)
Theorem delete_equipment (st : State) (target : Z) :
  let st' := commit st (handleDeleteEquipment st target) in
  (forall item, item ∈ equipment st' <-> item ∈ equipment st /\ id item <> target) /\
  sublist (equipment st') (equipment st) /\
  (target ∉ map id (equipment st) -> equipment st' = equipment st) /\
  deleteConfirmId st' = None /\
  alerts (handleDeleteEquipment st target) = ["Equipment deleted successfully!"].
Proof.
  intros st'. subst st'. rewrite equipment_after_delete. simpl. repeat split.
  - apply elem_of_List_filter in H. tauto.
  - apply elem_of_List_filter in H as [_ H].
    apply negb_true_iff, Z.eqb_neq in H. exact H.
  - intros [Hin Hne]. apply elem_of_List_filter. split; [exact Hin|].
    apply negb_true_iff, Z.eqb_neq. exact Hne.
  - apply List_filter_sublist.
  - apply filter_other_ids_absent.
Qed.

(** X20. The id of a new item is the length of the list plus one, so after a
    deletion it can be taken already: on a list numbered 1..n, deleting
    any item but the last and then adding one yields two items with the
    id n. *)
Theorem delete_then_add_collides (st : State) (target q a : Z) :
  map id (equipment st) = seqZ 1 (Z.of_nat (length (equipment st))) ->
  1 <= target < Z.of_nat (length (equipment st)) ->
  modalMode st = add ->
  form_name (formData st) <> EmptyString ->
  form_quantity (formData st) = Some q -> q <> 0 ->
  form_available (formData st) = Some a -> a <> 0 ->
  let st1 := commit st (handleDeleteEquipment st target) in
  let st2 := commit st1 (handleSubmitForm st1) in
  exists old new,
    equipment st2 = (equipment st1 ++ [new])%list /\
    old ∈ equipment st1 /\
    id old = Z.of_nat (length (equipment st)) /\
    id new = Z.of_nat (length (equipment st)) /\
    ~ NoDup (map id (equipment st2)).
Proof.
  intros Hids Htarget Hmode Hname Hq Hq0 Ha Ha0 st1 st2.
  set (n := length (equipment st)) in *.
  assert (Hnd : NoDup (map id (equipment st))).
  { rewrite Hids. apply NoDup_seqZ. }
  assert (Htin : target ∈ map id (equipment st)).
  { rewrite Hids. apply elem_of_seqZ. lia. }
  assert (Hlast : Z.of_nat n ∈ map id (equipment st)).
  { rewrite Hids. apply elem_of_seqZ. lia. }
  apply list_elem_of_In, in_map_iff in Hlast as (old & Hold & Hin).
  apply list_elem_of_In in Hin.
  assert (Hlen : S (length (equipment st1)) = n).
  { unfold st1. rewrite equipment_after_delete. simpl.
    apply filter_other_ids_length; assumption. }
  assert (Hkept : old ∈ equipment st1).
  { unfold st1. rewrite equipment_after_delete. simpl.
    apply elem_of_List_filter. split; [exact Hin|].
    apply negb_true_iff, Z.eqb_neq. lia. }
  assert (Hn : ~ refused (formData st1)).
  { unfold st1. rewrite equipment_after_delete. simpl. unfold refused.
    rewrite Hq, Ha. intros [H|[H|[H|[H|H]]]]; congruence. }
  assert (Hmode1 : modalMode st1 = add) by exact Hmode.
  exists old, (overwrite (Z.of_nat (length (equipment st1)) + 1) (formData st1)).
  assert (Heq : equipment st2 =
                (equipment st1 ++
                   [overwrite (Z.of_nat (length (equipment st1)) + 1)
                      (formData st1)])%list).
  { unfold st2. rewrite (handleSubmitForm_accepted st1 Hn), Hmode1. reflexivity. }
  assert (Hnew : id (overwrite (Z.of_nat (length (equipment st1)) + 1) (formData st1))
                 = Z.of_nat n).
  { change (Z.of_nat (length (equipment st1)) + 1 = Z.of_nat n). lia. }
  repeat split; trivial.
  rewrite Heq, List.map_app. intros Hdup.
  apply NoDup_app in Hdup as (_ & Hdisj & _).
  apply (Hdisj (Z.of_nat n)).
  - rewrite <- Hold. apply list_elem_of_In, in_map, list_elem_of_In, Hkept.
  - rewrite <- Hnew. apply list_elem_of_here.
Qed.

Lemma delete_then_add_collides_witness :
  ~ NoDup (map id (equipment
     (commit
        (commit (mkState mockEquipmentData true add EmptyString "all"
                   (mkFormData "Tripod" "Camera" "Light tripod" "Good"
                      (Some 2) (Some 2) "Media Room") None None)
           (handleDeleteEquipment
              (mkState mockEquipmentData true add EmptyString "all"
                 (mkFormData "Tripod" "Camera" "Light tripod" "Good"
                    (Some 2) (Some 2) "Media Room") None None) 1))
        (handleSubmitForm
           (commit (mkState mockEquipmentData true add EmptyString "all"
                      (mkFormData "Tripod" "Camera" "Light tripod" "Good"
                         (Some 2) (Some 2) "Media Room") None None)
              (handleDeleteEquipment
                 (mkState mockEquipmentData true add EmptyString "all"
                    (mkFormData "Tripod" "Camera" "Light tripod" "Good"
                       (Some 2) (Some 2) "Media Room") None None) 1)))))).
Proof.
  destruct (delete_then_add_collides
              (mkState mockEquipmentData true add EmptyString "all"
                 (mkFormData "Tripod" "Camera" "Light tripod" "Good"
                    (Some 2) (Some 2) "Media Room") None None) 1 2 2)
    as (old & new & _ & _ & _ & _ & Hdup);
    solve [reflexivity | discriminate | simpl; lia | exact Hdup].
Defined.

(** X21. The management table shows, in their order, exactly the items
    whose category is the selected one ('all' selecting every category)
    and, unless the search box is empty, whose name contains the search
    term once both are lower-cased by [toLowerCase], whatever that
    function does outside ASCII. *)
Theorem getFilteredEquipment_spec (toLowerCase : string -> string) (st : State) :
  (forall item, item ∈ getFilteredEquipment toLowerCase st <->
     item ∈ equipment st /\
     (searchTerm st = EmptyString \/
      exists pre post,
        toLowerCase (name item) = pre ++ toLowerCase (searchTerm st) ++ post) /\
     (selectedCategory st = "all" \/ category item = selectedCategory st)) /\
  sublist (getFilteredEquipment toLowerCase st) (equipment st).
Proof.
  unfold getFilteredEquipment. split.
  - intros item.
    set (l1 := if JS.truthy (searchTerm st)
               then List.filter
                      (fun item => JS.includes (toLowerCase (name item))
                                     (toLowerCase (searchTerm st)))
                      (equipment st)
               else equipment st).
    assert (H1 : item ∈ l1 <->
                 item ∈ equipment st /\
                 (searchTerm st = EmptyString \/
                  exists pre post,
                    toLowerCase (name item)
                      = pre ++ toLowerCase (searchTerm st) ++ post)).
    { unfold l1. destruct (JS.truthy (searchTerm st)) eqn:Ht.
      - apply truthy_true in Ht. rewrite elem_of_List_filter, includes_spec. tauto.
      - apply truthy_false in Ht. tauto. }
    destruct (String.eqb_spec (selectedCategory st) "all") as [He|Hne]; simpl.
    + rewrite H1. tauto.
    + rewrite elem_of_List_filter, String.eqb_eq, H1. tauto.
  - repeat match goal with
           | |- context [if ?b then _ else _] => destruct b
           end;
      repeat (etransitivity; [apply List_filter_sublist|]); reflexivity.
Qed.

End EquipmentDelete.

(** ** BorrowHistory: the user's own requests *)

Section History.

Import BorrowHistory.
Import RequestsManagement (Status, pending, approved, rejected, returned,
                           StatusFilter, all, only, filter_allows).

(** X22. The history table shows, in their order, exactly the entries
    whose status passes the status filter and, unless the search box is
    empty, whose equipment name contains the search term once both are
    lower-cased by [toLowerCase], whatever that function does outside
    ASCII; the four summary cards add up to the number of entries. *)
Theorem getFilteredHistory_spec (toLowerCase : string -> string) (st : State) :
  (forall item, item ∈ getFilteredHistory toLowerCase st <->
     item ∈ borrowHistory st /\
     (searchTerm st = EmptyString \/
      exists pre post,
        toLowerCase (equipmentName item)
          = pre ++ toLowerCase (searchTerm st) ++ post) /\
     filter_allows (filterStatus st) (status item)) /\
  sublist (getFilteredHistory toLowerCase st) (borrowHistory st) /\
  (getStatusCount st pending + getStatusCount st approved +
   getStatusCount st returned + getStatusCount st rejected)%nat
  = length (borrowHistory st).
Proof.
  split; [|split].
  - intros item. unfold getFilteredHistory.
    set (l1 := if JS.truthy (searchTerm st)
               then List.filter
                      (fun item => JS.includes (toLowerCase (equipmentName item))
                                     (toLowerCase (searchTerm st)))
                      (borrowHistory st)
               else borrowHistory st).
    assert (H1 : item ∈ l1 <->
                 item ∈ borrowHistory st /\
                 (searchTerm st = EmptyString \/
                  exists pre post,
                    toLowerCase (equipmentName item)
                      = pre ++ toLowerCase (searchTerm st) ++ post)).
    { unfold l1. destruct (JS.truthy (searchTerm st)) eqn:Ht.
      - apply truthy_true in Ht. rewrite elem_of_List_filter, includes_spec. tauto.
      - apply truthy_false in Ht. tauto. }
    destruct (filterStatus st) as [|s]; simpl.
    + rewrite H1. tauto.
    + rewrite elem_of_List_filter, bool_decide_eq_true, H1. tauto.
  - unfold getFilteredHistory.
    destruct (JS.truthy (searchTerm st)), (filterStatus st);
      repeat (etransitivity; [apply List_filter_sublist|]); reflexivity.
  - unfold getStatusCount.
    induction (borrowHistory st) as [|x l IH]; [reflexivity|].
    simpl. destruct (status x); simpl; lia.
Qed.

End History.

(** ** Navigation: redirects, the menu, login and logout *)

Section Navigation.

Lemma user_cases (user : option User) :
  user = None \/
  exists i n e, user = Some (mkUser i n e student) \/
                user = Some (mkUser i n e staff) \/
                user = Some (mkUser i n e admin).
Proof.
  destruct user as [[i n e r]|]; [right | left; reflexivity].
  exists i, n, e. destruct r; auto.
Qed.

(** The user an element is rendered for. *)
Lemma settle_two (user : option User) (path : string) :
  exists el, App.settle 2 user path = Some el /\
    (forall to, el <> App.Navigate to) /\
    (user = None -> el = App.LoginFormEl) /\
    (forall u, user = Some u ->
       path <> "/login" ->
       el = App.StudentDashboardEl u \/ el = App.AdminDashboardEl u \/
       el = App.BorrowHistoryEl u \/ el = App.EquipmentManagementEl u \/
       el = App.BorrowEquipmentEl u \/ el = App.RequestsManagementEl u \/
       el = App.LoginFormEl).
Proof.
  unfold App.settle, App.route at 1.
  destruct (String.eqb_spec path "/login") as [->|Hl].
  { exists App.LoginFormEl. repeat split; try discriminate. intros u _ H.
    contradiction. }
  destruct (user_cases user) as [-> | (i & n & e & [-> | [-> | ->]])];
    repeat match goal with
           | |- context [String.eqb path ?b] => destruct (String.eqb path b)
           end;
    simpl; eexists; (split; [reflexivity|]);
    (split; [discriminate|]); (split; [try discriminate; reflexivity|]);
    intros u Hu; try discriminate Hu; injection Hu as <-; intros _; tauto.
Qed.

(** X23. Every location settles on a page after at most two redirects: there
    is no redirect loop.  Without a user the page is the login form; with
    a user it is a page rendered for that user, and never an admin page
    unless the user is an admin. *)
Theorem redirects_settle (user : option User) (path : string) :
  exists el,
    App.settle 2 user path = Some el /\
    (forall to, el <> App.Navigate to) /\
    (user = None -> el = App.LoginFormEl) /\
    (App.admin_element el = true ->
     exists u, user = Some u /\ user_role u = admin).
Proof.
  destruct (settle_two user path) as (el & Hs & Hnav & Hnone & _).
  exists el. repeat split; trivial.
  intros Hadmin. destruct user as [u|].
  - exists u. split; [reflexivity|].
    destruct (decide (user_role u = admin)) as [Hr|Hr]; [exact Hr|]. exfalso.
    assert (Hna : non_admin (Some u)).
    { intros u' Hu'. injection Hu' as <-. exact Hr. }
    clear Hnav Hnone. revert Hs Hadmin. unfold App.settle.
    pose proof (route_never_admin (Some u) path Hna) as H0.
    destruct (App.route (Some u) path) as [| | | | | | |to0] eqn:E0;
      try (intros Hs; injection Hs as <-; congruence).
    pose proof (route_never_admin (Some u) to0 Hna) as H1.
    destruct (App.route (Some u) to0) as [| | | | | | |to1] eqn:E1;
      try (intros Hs; injection Hs as <-; congruence).
    pose proof (route_never_admin (Some u) to1 Hna) as H2.
    destruct (App.route (Some u) to1) as [| | | | | | |to2] eqn:E2;
      try (intros Hs; injection Hs as <-; congruence).
    discriminate.
  - rewrite (Hnone eq_refl) in Hadmin. discriminate Hadmin.
Qed.

(** X24. The links of the navigation bar.  Every entry of the menu leads
    to a page that is rendered for the user the menu was built for: no
    menu entry bounces to another route.  The brand link at the left of
    the bar is the one link that is never rendered directly: it points
    to [/], which redirects to the target of the first menu entry (the
    login form without a user, the admin dashboard for an admin, the
    student dashboard otherwise), and that is where it settles after
    this one redirect. *)
Theorem menu_links_render (user : option User) :
  (forall link label,
     (link, label) ∈ Navbar.renderMenuItems user ->
     forall to, App.route user link <> App.Navigate to) /\
  (exists target label rest,
     Navbar.renderMenuItems user = (target, label) :: rest /\
     target =
       match user with
       | None => "/login"
       | Some u => if bool_decide (user_role u = admin)
                   then "/admin-dashboard" else "/student-dashboard"
       end /\
     App.route user (fst Navbar.brand) = App.Navigate target /\
     App.settle 0 user (fst Navbar.brand) = None /\
     App.settle 1 user (fst Navbar.brand) = Some (App.route user target) /\
     forall to, App.route user target <> App.Navigate to).
Proof.
  split.
  - intros link label. unfold Navbar.renderMenuItems.
    destruct (user_cases user) as [-> | (i & n & e & [-> | [-> | ->]])]; simpl;
      rewrite ?elem_of_cons, elem_of_nil;
      intros H to;
      repeat (destruct H as [H|H]; [injection H as -> ->; discriminate|]);
      contradiction.
  - unfold Navbar.renderMenuItems, Navbar.brand.
    destruct (user_cases user) as [-> | (i & n & e & [-> | [-> | ->]])]; simpl;
      do 3 eexists; repeat (split; [reflexivity|]); discriminate.
Qed.

Lemma menu_links_render_witness :
  App.route (Some (mkUser "2" "Jane Staff" "staff@example.com" staff))
    "/borrow-history" <> App.Navigate "/login" /\
  App.settle 1 (Some (mkUser "2" "Jane Staff" "staff@example.com" staff)) "/" =
    Some (App.StudentDashboardEl (mkUser "2" "Jane Staff" "staff@example.com" staff)).
Proof.
  destruct (menu_links_render
              (Some (mkUser "2" "Jane Staff" "staff@example.com" staff)))
    as (Hmenu & target & label & rest & Hitems & Htarget & _ & _ & Hsettle & _).
  split.
  - apply (Hmenu "/borrow-history" "My Requests").
    simpl. rewrite !elem_of_cons. right. right. left. reflexivity.
  - simpl in Hsettle |- *. rewrite Htarget in Hsettle. exact Hsettle.
Defined.

(** X25. Logging out from the navigation bar clears token and user profile,
    drops the user of [App] and goes to the login form; from then on no
    request carries an [Authorization] header and no location renders
    anything but the login form. *)
Theorem navbar_logout (J : Type) (JSON_parse : string -> J) (s : Navbar.Session) :
  let s' := Navbar.commit s Navbar.handleLogout in
  Api.getToken (Navbar.storage s') = None /\
  Api.getUser JSON_parse (Navbar.storage s') = None /\
  ApiSession.getHeaders (Navbar.storage s') !! "Authorization" = None /\
  Navbar.appUser s' = None /\
  App.route (Navbar.appUser s') (Navbar.location s') = App.LoginFormEl /\
  (forall path, App.settle 2 (Navbar.appUser s') path = Some App.LoginFormEl) /\
  Navbar.logout_button (Navbar.appUser s') = false.
Proof.
  intros s'. subst s'.
  assert (Htok : Api.getToken (Api.clearAuthData (Navbar.storage s)) = None).
  { unfold Api.getToken, Api.clearAuthData, Api.clearUser, Api.clearToken.
    rewrite lookup_delete_ne by discriminate. apply lookup_delete_eq. }
  split; [exact Htok|]. split; [|split; [|split; [|split; [|split]]]].
  - simpl. unfold Api.getUser, Api.clearAuthData, Api.clearUser.
    rewrite lookup_delete_eq. reflexivity.
  - simpl. unfold ApiSession.getHeaders. rewrite Htok. reflexivity.
  - reflexivity.
  - reflexivity.
  - intros path. destruct (settle_two None path) as (el & Hs & _ & Hnone & _).
    change (Navbar.appUser (Navbar.commit s Navbar.handleLogout)) with (@None User).
    rewrite Hs, (Hnone eq_refl). reflexivity.
  - reflexivity.
Qed.

End Navigation.

(** ** LoginForm: the outcomes of a submission *)

Section LoginOutcomes.

Import LoginForm.

Lemma handleSubmit_success (st : State) (user : User) :
  user ∈ onLogin_calls (handleSubmit st) ->
  exists acc,
    user = mkUser (id acc) (name acc) (email acc) (role acc) /\
    handleSubmit st =
      [ setLoading true; setError EmptyString; onLogin user;
        navigate (if decide (role acc = admin)
                  then "/admin-dashboard" else "/student-dashboard");
        setLoading false ].
Proof.
  unfold handleSubmit.
  destruct (negb (JS.truthy (form_email (formData st))) ||
            negb (JS.truthy (form_password (formData st)))).
  { simpl. intros H. apply elem_of_nil in H. contradiction. }
  destruct (negb (emailRegex_test (form_email (formData st)))).
  { simpl. intros H. apply elem_of_nil in H. contradiction. }
  destruct (List.find (credentials_match (formData st)) mockUsers) as [acc|].
  - simpl. rewrite list_elem_of_singleton. intros ->. exists acc.
    split; reflexivity.
  - simpl. intros H. apply elem_of_nil in H. contradiction.
Qed.

(** X26. A successful login hands the user to [App] once and navigates once,
    to a route that renders the dashboard of that user's role for the
    user just stored: the admin dashboard for an admin, the student
    dashboard for staff and students. *)
Theorem login_lands_on_dashboard (st : State) (user : User) :
  user ∈ onLogin_calls (handleSubmit st) ->
  exists path,
    onLogin_calls (handleSubmit st) = [user] /\
    navigations (handleSubmit st) = [path] /\
    ((user_role user = admin /\
      App.route (App.handleLogin user) path = App.AdminDashboardEl user) \/
     (user_role user <> admin /\
      App.route (App.handleLogin user) path = App.StudentDashboardEl user)).
Proof.
  intros Hcall. destruct (handleSubmit_success st user Hcall) as (acc & -> & ->).
  eexists. split; [reflexivity|]. split; [reflexivity|].
  destruct acc as [i n e p r]. destruct r; simpl.
  - right. split; [discriminate | reflexivity].
  - right. split; [discriminate | reflexivity].
  - left. split; reflexivity.
Qed.

Lemma login_lands_on_dashboard_witness :
  exists path,
    onLogin_calls
      (handleSubmit (mkState (mkFormData "staff@example.com" "password123" staff)
                       EmptyString false))
      = [mkUser "2" "Jane Staff" "staff@example.com" staff] /\
    navigations
      (handleSubmit (mkState (mkFormData "staff@example.com" "password123" staff)
                       EmptyString false))
      = [path].
Proof.
  destruct (login_lands_on_dashboard
              (mkState (mkFormData "staff@example.com" "password123" staff)
                 EmptyString false)
              (mkUser "2" "Jane Staff" "staff@example.com" staff))
    as (path & H1 & H2 & _).
  - simpl. apply list_elem_of_here.
  - exists path. split; assumption.
Defined.

(** X27. The refusals of a submission, in the order they are checked: an empty
    e-mail or password asks to fill in all fields; otherwise an e-mail
    that is not of the form local@domain.tld is reported as invalid,
    where the three parts are non-empty and hold no [@] and none of the
    ASCII white space characters (tab, line feed, vertical tab, form
    feed, carriage return, space).  For an e-mail of ASCII characters
    these are all the white space of the expression, and the message is
    given for no other e-mail.  In both cases nobody is logged in, and
    every submission ends with the loading flag off. *)
Theorem login_refusals (st : State) :
  (form_email (formData st) = EmptyString \/
   form_password (formData st) = EmptyString ->
   handleSubmit st =
     [ setLoading true; setError EmptyString;
       setError "Please fill in all fields"; setLoading false; setLoading false ]) /\
  (form_email (formData st) <> EmptyString ->
   form_password (formData st) <> EmptyString ->
   ~ matches_emailRegex (form_email (formData st)) ->
   handleSubmit st =
     [ setLoading true; setError EmptyString;
       setError "Please enter a valid email address";
       setLoading false; setLoading false ]) /\
  (ascii_only (form_email (formData st)) = true ->
   handleSubmit st =
     [ setLoading true; setError EmptyString;
       setError "Please enter a valid email address";
       setLoading false; setLoading false ] ->
   form_email (formData st) <> EmptyString /\
   form_password (formData st) <> EmptyString /\
   ~ matches_emailRegex (form_email (formData st))) /\
  (forall u, setError "Please fill in all fields" ∈ handleSubmit st \/
             setError "Please enter a valid email address" ∈ handleSubmit st ->
             onLogin u ∉ handleSubmit st) /\
  last (handleSubmit st) = Some (setLoading false).
Proof.
  split; [|split; [|split; [|split]]].
  - intros H. unfold handleSubmit.
    assert (Hb : negb (JS.truthy (form_email (formData st))) ||
                 negb (JS.truthy (form_password (formData st))) = true).
    { rewrite orb_true_iff, !negb_true_iff, !truthy_false. exact H. }
    rewrite Hb. reflexivity.
  - intros He Hp Hre. unfold handleSubmit.
    apply truthy_true in He, Hp. rewrite He, Hp. simpl.
    rewrite <- emailRegex_test_spec in Hre. apply not_true_is_false in Hre.
    rewrite Hre. reflexivity.
  - intros _. unfold handleSubmit.
    destruct (JS.truthy (form_email (formData st))) eqn:He;
      [|simpl; intros H; discriminate H].
    destruct (JS.truthy (form_password (formData st))) eqn:Hp;
      [|simpl; intros H; discriminate H].
    cbn [negb orb].
    destruct (emailRegex_test (form_email (formData st))) eqn:Hre; cbn [negb].
    + destruct (List.find (credentials_match (formData st)) mockUsers);
        simpl; intros H; discriminate H.
    + intros _. split; [|split].
      * intros H. apply truthy_false in H. congruence.
      * intros H. apply truthy_false in H. congruence.
      * rewrite <- emailRegex_test_spec. congruence.
  - intros u H. unfold handleSubmit in *.
    destruct (negb (JS.truthy (form_email (formData st))) ||
              negb (JS.truthy (form_password (formData st)))).
    { simpl. rewrite !elem_of_cons, elem_of_nil. intuition discriminate. }
    destruct (negb (emailRegex_test (form_email (formData st)))).
    { simpl. rewrite !elem_of_cons, elem_of_nil. intuition discriminate. }
    exfalso.
    destruct (List.find (credentials_match (formData st)) mockUsers); simpl in H;
      rewrite !elem_of_cons, !elem_of_nil in H;
      destruct H as [H|H];
      repeat (destruct H as [H|H]; [discriminate H|]); destruct H.
  - unfold handleSubmit.
    destruct (negb (JS.truthy (form_email (formData st))) ||
              negb (JS.truthy (form_password (formData st)))); [reflexivity|].
    destruct (negb (emailRegex_test (form_email (formData st)))); [reflexivity|].
    destruct (List.find (credentials_match (formData st)) mockUsers); reflexivity.
Qed.

Lemma login_refusals_witness :
  ascii_only "student@example" = true /\
  handleSubmit (mkState (mkFormData "student@example" "password123" student)
                  EmptyString false) =
  [ setLoading true; setError EmptyString;
    setError "Please enter a valid email address";
    setLoading false; setLoading false ] /\
  ~ matches_emailRegex "student@example".
Proof.
  destruct (login_refusals
              (mkState (mkFormData "student@example" "password123" student)
                 EmptyString false)) as (_ & H & Hconv & _).
  assert (Hs : handleSubmit
                 (mkState (mkFormData "student@example" "password123" student)
                    EmptyString false) =
               [ setLoading true; setError EmptyString;
                 setError "Please enter a valid email address";
                 setLoading false; setLoading false ]).
  { apply H; [discriminate | discriminate |].
    intros Hm. apply emailRegex_test_spec in Hm. vm_compute in Hm.
    discriminate Hm. }
  split; [reflexivity|]. split; [exact Hs|].
  apply (Hconv eq_refl Hs).
Defined.

End LoginOutcomes.

(** ** The request router: authentication first, routes apart *)

Section Router.

Import RequestRoutes.

Lemma router_cases (r : Route) :
  r ∈ router ->
  r = mkRoute POST "/create" [authenticate; studentOnly] createRequest \/
  r = mkRoute GET "/user/:userId" [authenticate] getUserRequests \/
  r = mkRoute GET "/" [authenticate; adminOnly] getAllRequests \/
  r = mkRoute POST "/:requestId/approve" [authenticate; adminOnly] approveRequest \/
  r = mkRoute POST "/:requestId/reject" [authenticate; adminOnly] rejectRequest \/
  r = mkRoute POST "/:requestId/return" [authenticate; adminOnly] markReturned \/
  r = mkRoute GET "/admin/stats" [authenticate; adminOnly] getAdminStats.
Proof.
  unfold router. rewrite !elem_of_cons, elem_of_nil. tauto.
Qed.

Variable Store : Type.
Variable middleware : MiddlewareName -> Store -> Req -> Outcome.
Variable controller : ControllerName -> Store -> Req -> Store * Res.

(** X28. Every route runs [authenticate] first: a request that [authenticate]
    answers itself reaches no controller and leaves the store as it is,
    whatever route it was for. *)
Theorem unauthenticated_never_served (db : Store) (rq : Req) (rs : Res) :
  middleware authenticate db rq = respond rs ->
  (forall r, r ∈ router -> exists rest, route_middleware r = authenticate :: rest) /\
  (dispatch middleware controller db rq = (db, rs, []) \/
   (matched rq = None /\
    dispatch middleware controller db rq = (db, mkRes 404 "Route not found", []))).
Proof.
  intros Hauth.
  assert (Hfirst : forall r, r ∈ router ->
                             exists rest, route_middleware r = authenticate :: rest).
  { intros r Hr.
    destruct (router_cases r Hr) as [-> | [-> | [-> | [-> | [-> | [-> | ->]]]]]];
      eexists; reflexivity. }
  split; [exact Hfirst|].
  unfold dispatch, matched.
  destruct (List.find (fun r => route_matches r rq) router) as [r|] eqn:Hfind.
  - left. apply find_some in Hfind as [Hin _]. apply list_elem_of_In in Hin.
    destruct (Hfirst r Hin) as [rest ->]. simpl. rewrite Hauth. reflexivity.
  - right. split; reflexivity.
Qed.

End Router.

Lemma unauthenticated_never_served_witness :
  RequestRoutes.dispatch
    (RequestRoutes.gate (fun _ : string => None))
    (fun _ (db : list Z) _ => (7 :: db, RequestRoutes.mkRes 200 "done"))
    [1; 2]
    (RequestRoutes.mkReq RequestRoutes.POST "/create" None None "{}")
  = ([1; 2], RequestRoutes.mkRes 401 "Unauthenticated", []).
Proof.
  destruct (unauthenticated_never_served (list Z)
              (RequestRoutes.gate (fun _ : string => None))
              (fun _ (db : list Z) _ => (7 :: db, RequestRoutes.mkRes 200 "done"))
              [1; 2]
              (RequestRoutes.mkReq RequestRoutes.POST "/create" None None "{}")
              (RequestRoutes.mkRes 401 "Unauthenticated") eq_refl)
    as [_ [H | [H _]]].
  - exact H.
  - discriminate H.
Defined.

(** Express's matching on the routes: case is ignored, one trailing slash
    is allowed, an empty segment is not a parameter. *)
Example express_matching :
  let hit method path :=
    option_map RequestRoutes.route_handler
      (RequestRoutes.matched (RequestRoutes.mkReq method path None None "{}")) in
  hit RequestRoutes.GET "/ADMIN/stats" = Some RequestRoutes.getAdminStats /\
  hit RequestRoutes.POST "/7/Approve" = Some RequestRoutes.approveRequest /\
  hit RequestRoutes.POST "/7/approve/" = Some RequestRoutes.approveRequest /\
  hit RequestRoutes.POST "//create" = None /\
  hit RequestRoutes.POST "//approve" = None /\
  hit RequestRoutes.GET "/" = Some RequestRoutes.getAllRequests /\
  hit RequestRoutes.GET "/user/42" = Some RequestRoutes.getUserRequests /\
  hit RequestRoutes.POST "/user/42" = None.
Proof. repeat split. Qed.

(** X29. No request is matched by two routes of the router, under
    Express's matching (method, case-insensitive literal segments,
    non-empty parameters, optional trailing slash): of the seven routes
    at most one matches, so the order of registration decides nothing. *)
Theorem routes_disjoint (rq : RequestRoutes.Req) :
  (length (List.filter (fun r => RequestRoutes.route_matches r rq)
             RequestRoutes.router) <= 1)%nat.
Proof.
  unfold RequestRoutes.router, RequestRoutes.route_matches.
  cbn [List.filter RequestRoutes.route_path RequestRoutes.route_method].
  repeat match goal with
         | |- context [RequestRoutes.split_path (String ?c ?r)] =>
             let v := eval vm_compute in (RequestRoutes.split_path (String c r)) in
             change (RequestRoutes.split_path (String c r)) with v
         end.
  destruct (RequestRoutes.split_path (RequestRoutes.req_path rq)) as [segs|];
    destruct (RequestRoutes.req_method rq);
    repeat match goal with
           | |- context [bool_decide (?a = ?b)] =>
               let v := eval vm_compute in (bool_decide (a = b)) in
               change (bool_decide (a = b)) with v
           end;
    cbn [andb length]; try lia.
  all: destruct segs as [|s1 [|s2 [|s3 l]]];
    cbn -[String.eqb JS.toLowerCase]; try lia;
    unfold RequestRoutes.fold_case;
    repeat match goal with
           | |- context [JS.toLowerCase (String ?c ?r)] =>
               let v := eval vm_compute in (JS.toLowerCase (String c r)) in
               change (JS.toLowerCase (String c r)) with v
           end;
    repeat match goal with
           | |- context [String.eqb ?a ?b] => destruct (String.eqb_spec a b)
           | |- context [JS.truthy ?a] => destruct (JS.truthy a)
           end;
    cbn [andb length]; solve [lia | congruence].
Qed.

(** ** BorrowEquipment: the messages of the form *)

Section FormMessages.

Import BorrowEquipment.

Lemma newErrors_lookup (fd : FormData) :
  newErrors fd !! "equipmentId" =
    (if JS.truthy (equipmentId fd) then None else Some "Please select equipment") /\
  newErrors fd !! "borrowFromDate" =
    (if JS.truthy (borrowFromDate fd) then None
     else Some "Please select a borrow date") /\
  newErrors fd !! "borrowToDate" =
    (if JS.truthy (borrowToDate fd)
     then if JS.truthy (borrowFromDate fd) &&
             JSDate.ge (JSDate.Date_new (borrowFromDate fd))
                       (JSDate.Date_new (borrowToDate fd))
          then Some "Return date must be after borrow date" else None
     else Some "Please select a return date") /\
  newErrors fd !! "notes" =
    (if JS.truthy (notes fd) then None else Some "Please enter purpose/notes") /\
  (forall k, k <> "equipmentId" -> k <> "borrowFromDate" -> k <> "borrowToDate" ->
             k <> "notes" -> newErrors fd !! k = None).
Proof.
  unfold newErrors.
  destruct (JS.truthy (equipmentId fd)), (JS.truthy (borrowFromDate fd)),
    (JS.truthy (borrowToDate fd)), (JS.truthy (notes fd));
    cbn [negb andb];
    try destruct (JSDate.ge _ _);
    (split; [reflexivity|]); (split; [reflexivity|]); (split; [reflexivity|]);
    (split; [reflexivity|]);
    intros k H1 H2 H3 H4;
    rewrite ?lookup_insert_ne by congruence; apply lookup_empty.
Qed.

(** X30. Each message of the borrow form appears under its own field exactly
    when that field is at fault: the three 'please select / enter'
    messages for an empty field, and the order message under the to-date
    exactly when both dates are given and the to-date is not strictly
    after the from-date.  No other key is ever set. *)
Theorem validation_messages (fd : FormData) :
  JSDate.date_input_value (borrowFromDate fd) ->
  JSDate.date_input_value (borrowToDate fd) ->
  (newErrors fd !! "equipmentId" = Some "Please select equipment"
   <-> equipmentId fd = EmptyString) /\
  (newErrors fd !! "borrowFromDate" = Some "Please select a borrow date"
   <-> borrowFromDate fd = EmptyString) /\
  (newErrors fd !! "borrowToDate" = Some "Please select a return date"
   <-> borrowToDate fd = EmptyString) /\
  (newErrors fd !! "borrowToDate" = Some "Return date must be after borrow date"
   <-> borrowFromDate fd <> EmptyString /\ borrowToDate fd <> EmptyString /\
       ~ JSDate.strictly_after (borrowToDate fd) (borrowFromDate fd)) /\
  (newErrors fd !! "notes" = Some "Please enter purpose/notes"
   <-> notes fd = EmptyString) /\
  (forall k msg, newErrors fd !! k = Some msg ->
     k = "equipmentId" \/ k = "borrowFromDate" \/ k = "borrowToDate" \/ k = "notes").
Proof.
  intros Hfrom Hto.
  destruct (newErrors_lookup fd) as (He & Hf & Ht & Hn & Hother).
  assert (Hempty : forall (field msg : string),
            (if JS.truthy field then None else Some msg) = Some msg
            <-> field = EmptyString).
  { intros field msg. destruct (JS.truthy field) eqn:E.
    - apply truthy_true in E. split; [discriminate | contradiction].
    - apply truthy_false in E. tauto. }
  rewrite He, Hf, Hn.
  split; [apply Hempty|]. split; [apply Hempty|].
  split; [|split; [|split; [apply Hempty|]]].
  - rewrite Ht. destruct (JS.truthy (borrowToDate fd)) eqn:E.
    + apply truthy_true in E. split; [|contradiction].
      destruct (_ && _); discriminate.
    + apply truthy_false in E. tauto.
  - rewrite Ht. destruct (JS.truthy (borrowToDate fd)) eqn:E.
    + destruct (JS.truthy (borrowFromDate fd)) eqn:E'; simpl.
      * apply truthy_true in E, E'.
        destruct Hfrom as [Hf0|Hf0]; [contradiction|].
        destruct Hto as [Ht0|Ht0]; [contradiction|].
        rewrite <- (date_ge_spec _ _ Hf0 Ht0).
        destruct (JSDate.ge _ _); split; try tauto; try discriminate.
        intros (_ & _ & H). discriminate H.
      * apply truthy_false in E'. split; [discriminate|]. tauto.
    + apply truthy_false in E. split; [discriminate|]. tauto.
  - intros k msg Hk.
    destruct (decide (k = "equipmentId")) as [|N1]; [tauto|].
    destruct (decide (k = "borrowFromDate")) as [|N2]; [tauto|].
    destruct (decide (k = "borrowToDate")) as [|N3]; [tauto|].
    destruct (decide (k = "notes")) as [|N4]; [tauto|].
    rewrite (Hother k N1 N2 N3 N4) in Hk. discriminate Hk.
Qed.

Lemma validation_messages_witness :
  newErrors (mkFormData "3" "Digital Camera" "2025-11-10" "2025-11-08"
               "Photography project") !! "borrowToDate"
  = Some "Return date must be after borrow date".
Proof.
  destruct (validation_messages
              (mkFormData "3" "Digital Camera" "2025-11-10" "2025-11-08"
                 "Photography project")) as (_ & _ & _ & [_ H] & _).
  - right. eexists. vm_compute. reflexivity.
  - right. eexists. vm_compute. reflexivity.
  - apply H. split; [discriminate|]. split; [discriminate|].
    intros (ce & cl & He & Hl & Hlt).
    vm_compute in He, Hl. injection He as <-. injection Hl as <-.
    unfold JSDate.civil_lt in Hlt. lia.
Defined.

End FormMessages.
